(** * DroneCommand AI: unified router, session registry and detection dispatcher

    A shallow embedding of the backend's message-routing layer:
    [api/models.py], [api/services/*.py], [detection/detector.py],
    [rabbitmq_service/manager.py] and [rabbitmq_service/consumer.py].

    Python objects become records, the relational store becomes three
    tables (lists of rows in insertion order), and every effect the code has
    (database writes, broker publishes, acknowledgements, the wall clock, the
    UUID generator, the dispatcher's dictionary) is a field of [World] that
    is threaded through a state-and-exception monad.  An exception keeps the
    writes made before it, as in Python. *)

From Stdlib Require Import ZArith Ascii String List PrimFloat.
From stdpp Require Import base gmap strings list sorting pretty.

Set Warnings "-inexact-float,-register-all".
Set Default Proof Using "Type".
Local Open Scope string_scope.
Local Open Scope list_scope.

(** ** Python values

    JSON payloads and the dictionaries the handlers build.  A dictionary is
    an association list in insertion order with distinct keys. *)

Inductive pyval : Type :=
  | PNone
  | PBool (b : bool)
  | PInt (n : Z)
  | PFloat (x : float)
  | PStr (s : string)
  | PList (l : list pyval)
  | PDict (kv : list (string * pyval)).

(** Python truthiness: [if v:]. *)
Definition truthy (v : pyval) : bool :=
  match v with
  | PNone => false
  | PBool b => b
  | PInt n => negb (n =? 0)%Z
  | PFloat x => negb (PrimFloat.eqb x 0%float)
  | PStr s => negb (String.eqb s "")
  | PList l => match l with [] => false | _ => true end
  | PDict kv => match kv with [] => false | _ => true end
  end.

Fixpoint assoc (k : string) (kv : list (string * pyval)) : option pyval :=
  match kv with
  | [] => None
  | (k', v) :: rest => if String.eqb k k' then Some v else assoc k rest
  end.

(** Exceptions the modelled code can raise. *)
Inductive exn : Type :=
  | JSONDecodeError
  | AttributeError
  | TypeError
  | KeyError
  | IntegrityError
  | DatabaseError
  | Drone_DoesNotExist
  | ScanSession_DoesNotExist
  | MultipleObjectsReturned
  | DroneNotFound
  | AMQPError
  | InferenceError.

Definition exn_str (e : exn) : string :=
  match e with
  | JSONDecodeError => "JSONDecodeError"
  | AttributeError => "AttributeError"
  | TypeError => "TypeError"
  | KeyError => "KeyError"
  | IntegrityError => "IntegrityError"
  | DatabaseError => "DatabaseError"
  | Drone_DoesNotExist => "Drone matching query does not exist."
  | ScanSession_DoesNotExist => "ScanSession matching query does not exist."
  | MultipleObjectsReturned => "MultipleObjectsReturned"
  | DroneNotFound => "DroneNotFound"
  | AMQPError => "AMQPError"
  | InferenceError => "InferenceError"
  end.

Inductive result (A : Type) : Type :=
  | Ok (a : A)
  | Raise (e : exn).
Arguments Ok {A} a.
Arguments Raise {A} e.

(** [v.get(k, default)]: only dictionaries have [get]. *)
Definition py_get (v : pyval) (k : string) (default : pyval) : result pyval :=
  match v with
  | PDict kv => Ok (match assoc k kv with Some x => x | None => default end)
  | _ => Raise AttributeError
  end.

(** [v[k]] on a dictionary. *)
Definition py_item (v : pyval) (k : string) : result pyval :=
  match v with
  | PDict kv => match assoc k kv with Some x => Ok x | None => Raise KeyError end
  | _ => Raise TypeError
  end.

(** ** Models ([api/models.py]) *)

(** [DroneStatus] and [LogType] are [TextChoices]: their members are the
    stored strings. *)
Module DroneStatus.
Definition IDLE := "Beklemede".
Definition PATROLLING := "Devriyede".
Definition RETURNING := "Dönüyor".
Definition OFFLINE := "Çevrimdışı".
Definition HOVERING := "Havada Sabit".
Definition FOLLOWING_PATH := "Rota Takibi".
Definition SCANNING := "Taramada".
End DroneStatus.

Module LogType.
Definition INFO := "INFO".
Definition WARNING := "WARNING".
Definition ALERT := "ALERT".
Definition ACTION := "ACTION".
Definition FIRE_DETECTED := "FIRE".
Definition SMOKE_DETECTED := "SMOKE".
End LogType.

(** Instants of the wall clock and UUIDs are numbered. *)
Definition datetime := nat.
Definition uuid := nat.

Definition isoformat (t : datetime) : string := "T" +:+ pretty t.
Definition uuid_str (u : uuid) : string := "uuid-" +:+ pretty u.

Record Drone : Type := mkDrone {
  d_id : nat;                       (* primary key *)
  drone_id : string;
  d_name : string;
  d_model : string;
  gui_token : uuid;
  telemetry_topic : string;
  command_topic : string;
  video_topic : string;
  alert_topic : string;
  last_status : string;
  last_seen : option datetime;
  d_is_active : bool;
  registered_at : datetime;
  updated_at : datetime
}.

Record LogEntry : Type := mkLogEntry {
  l_id : nat;                       (* primary key *)
  source : string;
  message : string;
  log_type : string;
  l_drone : option nat;             (* foreign key to Drone *)
  confidence : option float;
  detection_class : string;
  bbox : pyval;
  frame_path : string;
  position_x : option float;
  position_y : option float;
  latitude : option float;
  longitude : option float;
  timestamp : datetime;
  created_at : datetime
}.

Record ScanSession : Type := mkScanSession {
  s_id : nat;                       (* primary key *)
  session_id : uuid;
  s_drone : nat;                    (* foreign key to Drone *)
  is_active : bool;
  started_at : datetime;
  ended_at : option datetime;
  total_frames_processed : Z;
  fire_detections : Z;
  smoke_detections : Z
}.

(** The [Drone.save] hook: derive the four topic names when
    [telemetry_topic] is empty. *)
Definition Drone_fill_topics (d : Drone) : Drone :=
  if String.eqb (telemetry_topic d) "" then
    let base := "drone." +:+ drone_id d in
    mkDrone (d_id d) (drone_id d) (d_name d) (d_model d) (gui_token d)
      (base +:+ ".telemetry") (base +:+ ".commands")
      (base +:+ ".video") (base +:+ ".alerts")
      (last_status d) (last_seen d) (d_is_active d)
      (registered_at d) (updated_at d)
  else d.

(** [Drone.topics] *)
Definition Drone_topics (d : Drone) : list (string * string) :=
  [("telemetry", telemetry_topic d); ("commands", command_topic d);
   ("video", video_topic d); ("alerts", alert_topic d)].

(** Field names, for [save(update_fields=[...])]. *)
Inductive DroneField :=
  | F_is_active | F_last_seen | F_last_status | F_updated_at.
Inductive SessionField :=
  | F_s_is_active | F_ended_at | F_total_frames_processed
  | F_fire_detections | F_smoke_detections.

Global Instance DroneField_eq_dec : EqDecision DroneField.
Proof. solve_decision. Defined.
Global Instance SessionField_eq_dec : EqDecision SessionField.
Proof. solve_decision. Defined.

Definition has {A} `{EqDecision A} (x : A) (l : list A) : bool :=
  bool_decide (x ∈ l).

(** The row after an UPDATE of the columns [fs] from the object [o]. *)
Definition Drone_write (fs : list DroneField) (o row : Drone) : Drone :=
  mkDrone (d_id row) (drone_id row) (d_name row) (d_model row) (gui_token row)
    (telemetry_topic row) (command_topic row) (video_topic row) (alert_topic row)
    (if has F_last_status fs then last_status o else last_status row)
    (if has F_last_seen fs then last_seen o else last_seen row)
    (if has F_is_active fs then d_is_active o else d_is_active row)
    (registered_at row)
    (if has F_updated_at fs then updated_at o else updated_at row).

Definition ScanSession_write (fs : list SessionField) (o row : ScanSession)
  : ScanSession :=
  mkScanSession (s_id row) (session_id row) (s_drone row)
    (if has F_s_is_active fs then is_active o else is_active row)
    (started_at row)
    (if has F_ended_at fs then ended_at o else ended_at row)
    (if has F_total_frames_processed fs
     then total_frames_processed o else total_frames_processed row)
    (if has F_fire_detections fs then fire_detections o else fire_detections row)
    (if has F_smoke_detections fs
     then smoke_detections o else smoke_detections row).

(** ** The broker as the code sees it *)

Record Published : Type := mkPublished {
  exchange : string;
  routing_key : string;
  body : pyval;                     (* the payload handed to json.dumps *)
  delivery_mode : Z;
  content_type : string
}.

Inductive Ack : Type :=
  | basic_ack (delivery_tag : nat)
  | basic_nack (delivery_tag : nat) (requeue : bool).

(** [settings.RABBITMQ_CONFIG] exchange names (defaults). *)
Module Config.
Definition EXCHANGE_TELEMETRY := "drone.telemetry".
Definition EXCHANGE_COMMANDS := "drone.commands".
Definition EXCHANGE_VIDEO := "drone.video".
Definition EXCHANGE_ALERTS := "drone.alerts".
Definition EXCHANGE_GUI := "drone.gui".
End Config.

(** An entry of [DetectionService.active_sessions]. *)
Record DispatchEntry : Type := mkDispatchEntry {
  e_session_id : string;
  e_is_active : bool;
  frames_processed : Z
}.

(** ** The world *)

Record World : Type := mkWorld {
  drones : list Drone;
  sessions : list ScanSession;
  logs : list LogEntry;
  uuid_seq : uuid;                  (* next value of uuid.uuid4() *)
  clock : datetime;                 (* next reading of the wall clock *)
  pub_open : bool;                  (* the consumer's publish channel is usable *)
  broker_up : bool;                 (* a new RabbitMQManager can connect *)
  published : list Published;       (* basic_publish calls that succeeded, oldest first *)
  acks : list Ack;                  (* acknowledgements on the consume channel *)
  active_sessions : gmap string DispatchEntry
}.

Definition set_drones (f : list Drone → list Drone) (w : World) : World :=
  mkWorld (f (drones w)) (sessions w) (logs w) (uuid_seq w) (clock w)
    (pub_open w) (broker_up w) (published w) (acks w) (active_sessions w).
Definition set_sessions (f : list ScanSession → list ScanSession) (w : World)
  : World :=
  mkWorld (drones w) (f (sessions w)) (logs w) (uuid_seq w) (clock w)
    (pub_open w) (broker_up w) (published w) (acks w) (active_sessions w).
Definition set_logs (f : list LogEntry → list LogEntry) (w : World) : World :=
  mkWorld (drones w) (sessions w) (f (logs w)) (uuid_seq w) (clock w)
    (pub_open w) (broker_up w) (published w) (acks w) (active_sessions w).
Definition set_uuid_seq (f : uuid → uuid) (w : World) : World :=
  mkWorld (drones w) (sessions w) (logs w) (f (uuid_seq w)) (clock w)
    (pub_open w) (broker_up w) (published w) (acks w) (active_sessions w).
Definition set_clock (f : datetime → datetime) (w : World) : World :=
  mkWorld (drones w) (sessions w) (logs w) (uuid_seq w) (f (clock w))
    (pub_open w) (broker_up w) (published w) (acks w) (active_sessions w).
Definition set_published (f : list Published → list Published) (w : World)
  : World :=
  mkWorld (drones w) (sessions w) (logs w) (uuid_seq w) (clock w)
    (pub_open w) (broker_up w) (f (published w)) (acks w) (active_sessions w).
Definition set_acks (f : list Ack → list Ack) (w : World) : World :=
  mkWorld (drones w) (sessions w) (logs w) (uuid_seq w) (clock w)
    (pub_open w) (broker_up w) (published w) (f (acks w)) (active_sessions w).
Definition set_active_sessions
  (f : gmap string DispatchEntry → gmap string DispatchEntry) (w : World)
  : World :=
  mkWorld (drones w) (sessions w) (logs w) (uuid_seq w) (clock w)
    (pub_open w) (broker_up w) (published w) (acks w) (f (active_sessions w)).

(** ** State and exception monad *)

Definition M (A : Type) : Type := World → result A * World.

Global Instance M_ret : MRet M := λ A a w, (Ok a, w).
Global Instance M_bind : MBind M := λ A B f m w,
  match m w with
  | (Ok a, w') => f a w'
  | (Raise e, w') => (Raise e, w')
  end.

Definition raise {A} (e : exn) : M A := λ w, (Raise e, w).
Definition lift {A} (r : result A) : M A := λ w, (r, w).
Definition gets {A} (f : World → A) : M A := λ w, (Ok (f w), w).
Definition modify (f : World → World) : M unit := λ w, (Ok tt, f w).

(** [try: m except Exception as e: h e] *)
Definition try_except {A} (m : M A) (h : exn → M A) : M A := λ w,
  match m w with
  | (Ok a, w') => (Ok a, w')
  | (Raise e, w') => h e w'
  end.

(** [for x in l: f x] *)
Fixpoint for_each {A} (l : list A) (f : A → M unit) : M unit :=
  match l with
  | [] => mret tt
  | x :: rest => _ ← f x; for_each rest f
  end.

(** [timezone.now()] / [datetime.now()]: read the clock; the next reading
    is later. *)
Definition now : M datetime := λ w, (Ok (clock w), set_clock S w).

(** [uuid.uuid4()] *)
Definition uuid4 : M uuid := λ w, (Ok (uuid_seq w), set_uuid_seq S w).

(** The state a computation ends in and what it returns. *)
Definition exec {A} (m : M A) (w : World) : World := snd (m w).
Definition eval {A} (m : M A) (w : World) : result A := fst (m w).

(** ** Query-set operations *)

(** The primary key an INSERT assigns. *)
Definition next_pk {A} (pk : A → nat) (rows : list A) : nat :=
  S (foldr Nat.max 0 (pk <$> rows)).

(** [Model.objects.get(...)] over the rows matching the filter;
    [missing] is the model's [DoesNotExist]. *)
Definition objects_get {A} (missing : exn) (matching : list A) : M A :=
  match matching with
  | [] => raise missing
  | [x] => mret x
  | _ => raise MultipleObjectsReturned
  end.

(** [Drone.objects.filter(drone_id=...)] *)
Definition Drone_filter_id (did : string) (rows : list Drone) : list Drone :=
  filter (λ d, drone_id d = did) rows.

(** Attribute assignments on in-memory objects. *)
Definition Drone_set_last_status (v : string) (d : Drone) : Drone :=
  mkDrone (d_id d) (drone_id d) (d_name d) (d_model d) (gui_token d)
    (telemetry_topic d) (command_topic d) (video_topic d) (alert_topic d)
    v (last_seen d) (d_is_active d) (registered_at d) (updated_at d).
Definition Drone_set_last_seen (v : option datetime) (d : Drone) : Drone :=
  mkDrone (d_id d) (drone_id d) (d_name d) (d_model d) (gui_token d)
    (telemetry_topic d) (command_topic d) (video_topic d) (alert_topic d)
    (last_status d) v (d_is_active d) (registered_at d) (updated_at d).
Definition Drone_set_is_active (v : bool) (d : Drone) : Drone :=
  mkDrone (d_id d) (drone_id d) (d_name d) (d_model d) (gui_token d)
    (telemetry_topic d) (command_topic d) (video_topic d) (alert_topic d)
    (last_status d) (last_seen d) v (registered_at d) (updated_at d).
Definition Drone_set_updated_at (v : datetime) (d : Drone) : Drone :=
  mkDrone (d_id d) (drone_id d) (d_name d) (d_model d) (gui_token d)
    (telemetry_topic d) (command_topic d) (video_topic d) (alert_topic d)
    (last_status d) (last_seen d) (d_is_active d) (registered_at d) v.

Definition ScanSession_close (t : datetime) (s : ScanSession) : ScanSession :=
  mkScanSession (s_id s) (session_id s) (s_drone s) false (started_at s)
    (Some t) (total_frames_processed s) (fire_detections s) (smoke_detections s).
Definition ScanSession_add (frames fire smoke : Z) (s : ScanSession)
  : ScanSession :=
  mkScanSession (s_id s) (session_id s) (s_drone s) (is_active s) (started_at s)
    (ended_at s) (total_frames_processed s + frames) (fire_detections s + fire)
    (smoke_detections s + smoke).

(** [drone.save(update_fields=fs)]: the [save] hook runs on the object, an
    [auto_now] column in [fs] takes the current time, then UPDATE ... WHERE
    pk; Django raises [DatabaseError] when no row was affected.  Returns the
    object as the call leaves it. *)
Definition Drone_save_fields (fs : list DroneField) (o : Drone) : M Drone :=
  let o1 := Drone_fill_topics o in
  o2 ← (if has F_updated_at fs
        then t ← now; mret (Drone_set_updated_at t o1)
        else mret o1);
  found ← gets (λ w, existsb (λ r, d_id r =? d_id o2)%nat (drones w));
  if found : bool then
    _ ← modify (set_drones
           (fmap (λ r, if (d_id r =? d_id o2)%nat then Drone_write fs o2 r else r)));
    mret o2
  else raise DatabaseError.

Definition ScanSession_save_fields (fs : list SessionField) (o : ScanSession)
  : M unit :=
  found ← gets (λ w, existsb (λ r, s_id r =? s_id o)%nat (sessions w));
  if found : bool then
    modify (set_sessions
      (fmap (λ r, if (s_id r =? s_id o)%nat then ScanSession_write fs o r else r)))
  else raise DatabaseError.

(** [session.save()] with every column: UPDATE, or INSERT when the row is
    gone. *)
Definition ScanSession_save (o : ScanSession) : M unit :=
  found ← gets (λ w, existsb (λ r, s_id r =? s_id o)%nat (sessions w));
  if found : bool then
    modify (set_sessions (fmap (λ r, if (s_id r =? s_id o)%nat then o else r)))
  else modify (set_sessions (λ rows, rows ++ [o])).

(** [Drone.objects.create(drone_id=, name=, model=)]: field defaults, the
    [save] hook, [auto_now_add], [auto_now] and the unique [drone_id]. *)
Definition Drone_create (did name model : string) : M Drone :=
  tok ← uuid4;
  t1 ← now;
  t2 ← now;
  taken ← gets (λ w, existsb (λ r, String.eqb (drone_id r) did) (drones w));
  if taken : bool then raise IntegrityError
  else
    pk ← gets (λ w, next_pk d_id (drones w));
    let d := Drone_fill_topics
      (mkDrone pk did name model tok "" "" "" "" DroneStatus.OFFLINE None true t1 t2) in
    _ ← modify (set_drones (λ rows, rows ++ [d]));
    mret d.

(** [ScanSession.objects.create(drone=drone)] *)
Definition ScanSession_create (drone : Drone) : M ScanSession :=
  sid ← uuid4;
  t ← now;
  pk ← gets (λ w, next_pk s_id (sessions w));
  let s := mkScanSession pk sid (d_id drone) true t None 0 0 0 in
  _ ← modify (set_sessions (λ rows, rows ++ [s]));
  mret s.

(** [LogEntry.objects.create(...)] with the keyword arguments the code
    passes; the other columns take their defaults. *)
Definition LogEntry_create (src msg ltype : string) (drone : option Drone)
    (conf : option float) (dclass : string) (box : pyval) : M LogEntry :=
  t1 ← now;
  t2 ← now;
  pk ← gets (λ w, next_pk l_id (logs w));
  let e := mkLogEntry pk src msg ltype (d_id <$> drone) conf dclass box ""
             None None None None t1 t2 in
  _ ← modify (set_logs (λ rows, rows ++ [e]));
  mret e.

(** [ScanSession.objects.filter(drone=drone, is_active=True)] *)
Definition active_of (drone : Drone) (s : ScanSession) : bool :=
  (s_drone s =? d_id drone)%nat && is_active s.

Definition active_sessions_of (drone : Drone) (rows : list ScanSession)
  : list ScanSession :=
  filter (λ s, active_of drone s = true) rows.

(** [.first()] under [Meta.ordering = ['-started_at']]: the latest start;
    among equal starts the earliest row. *)
Fixpoint latest (l : list ScanSession) : option ScanSession :=
  match l with
  | [] => None
  | s :: rest =>
      match latest rest with
      | Some s' => if (started_at s <? started_at s')%nat then Some s' else Some s
      | None => Some s
      end
  end.

Definition active_session_for (drone : Drone) : M (option ScanSession) :=
  gets (λ w, latest (active_sessions_of drone (sessions w))).

(** ** Services ([api/services]) *)

Module DroneService.

Definition get_by_id (did : string) : M Drone :=
  try_except
    (rows ← gets drones; objects_get Drone_DoesNotExist (Drone_filter_id did rows))
    (λ e, match e with
          | Drone_DoesNotExist => raise DroneNotFound
          | _ => raise e
          end).

(** Returns [(drone, created)]. *)
Definition register (did name model : string) : M (Drone * bool) :=
  existing ← gets (λ w, head (Drone_filter_id did (drones w)));
  match existing with
  | Some existing =>
      let existing := Drone_set_is_active true existing in
      t ← now;
      let existing := Drone_set_last_seen (Some t) existing in
      existing ← Drone_save_fields [F_is_active; F_last_seen; F_updated_at] existing;
      mret (existing, false)
  | None =>
      drone ← Drone_create did name model;
      mret (drone, true)
  end.

Definition update_status (drone : Drone) (new_status : string) : M Drone :=
  let drone := Drone_set_last_status new_status drone in
  t ← now;
  let drone := Drone_set_last_seen (Some t) drone in
  Drone_save_fields [F_last_status; F_last_seen; F_updated_at] drone.

End DroneService.

Module LogService.

Definition create (src msg ltype : string) (drone : option Drone)
    (conf : option float) (dclass : string) (box : pyval) : M LogEntry :=
  LogEntry_create src msg ltype drone conf dclass box.

Definition log_drone_event (drone : Drone) (msg ltype : string) : M LogEntry :=
  create (d_name drone) msg ltype (Some drone) None "" PNone.

End LogService.

Module ScanService.

Definition start (did : string) : M ScanSession :=
  drone ← DroneService.get_by_id did;
  t ← now;
  _ ← modify (set_sessions
         (fmap (λ s, if active_of drone s then ScanSession_close t s else s)));
  session ← ScanSession_create drone;
  _ ← DroneService.update_status drone DroneStatus.SCANNING;
  _ ← LogService.log_drone_event drone
        ("YOLO taraması başlatıldı — Session: " +:+ uuid_str (session_id session))
        "ACTION";
  mret session.

(** [session.drone]: the row the foreign key points to. *)
Definition session_drone (session : ScanSession) : M Drone :=
  rows ← gets drones;
  objects_get Drone_DoesNotExist
    (filter (λ d, d_id d = s_drone session) rows).

Definition stop (session : ScanSession) : M ScanSession :=
  t ← now;
  let session := ScanSession_close t session in
  _ ← ScanSession_save_fields [F_s_is_active; F_ended_at] session;
  drone ← session_drone session;
  drone ← DroneService.update_status drone DroneStatus.HOVERING;
  _ ← LogService.log_drone_event drone
        ("Tarama durduruldu — " +:+ pretty (fire_detections session)
         +:+ " yangın, " +:+ pretty (smoke_detections session) +:+ " duman")
        LogType.INFO;
  mret session.

(** Returns the session object as the call leaves it. *)
Definition record_frame (session : ScanSession) (has_fire has_smoke : bool)
  : M ScanSession :=
  let session := ScanSession_add 1 0 0 session in
  let update_fields := [F_total_frames_processed] in
  let '(session, update_fields) :=
    if has_fire
    then (ScanSession_add 0 1 0 session, update_fields ++ [F_fire_detections])
    else (session, update_fields) in
  let '(session, update_fields) :=
    if has_smoke
    then (ScanSession_add 0 0 1 session, update_fields ++ [F_smoke_detections])
    else (session, update_fields) in
  _ ← ScanSession_save_fields update_fields session;
  mret session.

End ScanService.

(** ** Broker gateway ([rabbitmq_service/manager.py]) *)

(** [d[k] = v] on a dictionary: replace in place or append. *)
Fixpoint dict_set (k : string) (v : pyval) (kv : list (string * pyval))
  : list (string * pyval) :=
  match kv with
  | [] => [(k, v)]
  | (k', v') :: rest =>
      if String.eqb k k' then (k, v) :: rest else (k', v') :: dict_set k v rest
  end.

(** [{**base, **extra}] *)
Definition dict_merge (base extra : list (string * pyval))
  : list (string * pyval) :=
  fold_left (λ acc kv, dict_set kv.1 kv.2 acc) extra base.

Module RabbitMQManager.

(** [_ts()] *)
Definition _ts : M string := t ← now; mret (isoformat t).

Definition _publish (exch rkey : string) (payload : pyval) (persistent : bool)
  : M unit :=
  modify (set_published (λ l, l ++
    [mkPublished exch rkey payload (if persistent then 2 else 1)%Z
       "application/json"])).

(** [with RabbitMQManager() as manager: body]: [__enter__] connects and
    raises when the broker is unreachable. *)
Definition with_manager {A} (body : M A) : M A :=
  up ← gets broker_up;
  if up : bool then body else raise AMQPError.

(** [persistent] defaults to [False] at the call sites that omit it. *)
Definition publish_to_gui (did message_type : string) (payload : pyval)
    (persistent : bool) : M unit :=
  let routing_key := "gui." +:+ did +:+ "." +:+ message_type in
  _publish Config.EXCHANGE_GUI routing_key payload persistent.

Definition send_command (drone : Drone) (command_data : list (string * pyval))
  : M unit :=
  ts ← _ts;
  let payload := PDict (dict_merge
    [("timestamp", PStr ts); ("drone_id", PStr (drone_id drone))]
    command_data) in
  _publish Config.EXCHANGE_COMMANDS (command_topic drone) payload true.

End RabbitMQManager.

(** ** What the embedding takes from libraries

    [json], [str], the YOLO model and OpenCV are not part of the repository;
    the code is modelled over any behaviour they may have. *)

(** One box of a YOLO result, after [int(box.cls[0])], [float(box.conf[0])],
    [box.xyxy[0]] and [result.names[cls_id]]. *)
Record Box : Type := mkBox {
  class_name : string;
  conf : float;
  xyxy : list float
}.

Class Externals : Type := {
  Image : Type;
  (** [json.loads]: [None] stands for [JSONDecodeError]. *)
  json_loads : string → option pyval;
  (** [str(v)] *)
  py_str : pyval → string;
  str_lower : string → string;
  str_upper : string → string;
  (** [f"{x:.2%}"] *)
  format_percent : float → string;
  (** [load_model()] succeeds. *)
  load_model : bool;
  (** [cv2.imdecode(np.frombuffer(base64.b64decode(s)))]: [None] when the
      call raises or OpenCV cannot decode. *)
  imdecode : string → option Image;
  (** [self.model(frame, ...)]: the boxes of each result ([None] for a result
      without boxes); the outer [None] stands for a raised exception. *)
  infer : Image + pyval → option (list (option (list Box)));
  (** [_annotate_frame] at a given time; [None] stands for a raised
      exception. *)
  annotate_frame : Image + pyval → list pyval → datetime → option Image;
  (** [_encode_base64]: it returns [None] itself on failure. *)
  encode_base64 : Image → option string;
  (** [frame.shape[:2]]; [None] stands for a raised exception. *)
  frame_shape : Image + pyval → option pyval
}.

(** ** Detection ([detection/detector.py]) *)

(** [s.split(',')[1]] when [',' in s]. *)
Fixpoint split_comma (s acc : string) : list string :=
  match s with
  | EmptyString => [String.rev acc]
  | String c rest =>
      if Ascii.eqb c ","%char then String.rev acc :: split_comma rest ""
      else split_comma rest (String c acc)
  end.

Definition strip_data_url (s : string) : string :=
  match split_comma s "" with
  | _ :: second :: _ => second
  | _ => s
  end.

Definition py_is_str (v : pyval) (s : string) : bool :=
  match v with PStr x => String.eqb x s | _ => false end.

(** [for x in v] *)
Definition py_iter (v : pyval) : result (list pyval) :=
  match v with
  | PList l => Ok l
  | PDict kv => Ok ((λ p, PStr p.1) <$> kv)
  | PStr s => Ok ((λ c, PStr (String c "")) <$> list_ascii_of_string s)
  | _ => Raise TypeError
  end.

(** [result.get(k)] as a condition. *)
Definition flag (result : pyval) (k : string) : M bool :=
  v ← lift (py_get result k PNone); mret (truthy v).

(** A confidence is the [float] the detector stored. *)
Definition as_float (v : pyval) : M float :=
  match v with PFloat x => mret x | _ => raise TypeError end.

(** A library call that may raise. *)
Definition of_option {A} (o : option A) : M A :=
  match o with Some a => mret a | None => raise InferenceError end.

(** The value a [CharField]/[TextField] stores: the string, [str(v)] of
    another value, and NOT NULL refuses [None]. *)
Definition to_text `{Ext : Externals} (v : pyval) : M string :=
  match v with
  | PStr s => mret s
  | PNone => raise IntegrityError
  | v => mret (py_str v)
  end.

(** The detection message of either logger, without its prefix. *)
Definition detection_text `{Ext : Externals} (cls : string) (c : float)
  : string :=
  str_upper cls +:+ " TESPİT EDİLDİ! Güven: " +:+ format_percent c.

Module FireSmokeDetector.
Section detector.
Context `{Ext : Externals}.

Definition _decode_base64 (base64_string : string) : option Image :=
  imdecode (strip_data_url base64_string).

Definition error_result (msg : string) : pyval :=
  PDict [("detections", PList []); ("error", PStr msg)].

(** The body of the loop over one result's boxes: rename the class, set
    the flags, append the detection. *)
Definition add_box (b : Box) (acc : list pyval * bool * bool)
  : M (list pyval * bool * bool) :=
  let '(detections, has_fire, has_smoke) := acc in
  let lowered := str_lower (class_name b) in
  let '(cname, has_fire, has_smoke) :=
    if has lowered ["fire"; "flame"; "yangın"; "alev"]
    then ("fire", true, has_smoke)
    else if has lowered ["smoke"; "duman"]
    then ("smoke", has_fire, true)
    else (class_name b, has_fire, has_smoke) in
  t ← now;
  mret (detections ++
          [PDict [("class", PStr cname);
                  ("confidence", PFloat (conf b));
                  ("bbox", PList (PFloat <$> xyxy b));
                  ("timestamp", PStr (isoformat t))]],
        has_fire, has_smoke).

Fixpoint add_boxes (bs : list Box) (acc : list pyval * bool * bool)
  : M (list pyval * bool * bool) :=
  match bs with
  | [] => mret acc
  | b :: rest => acc ← add_box b acc; add_boxes rest acc
  end.

Fixpoint add_results (rs : list (option (list Box)))
    (acc : list pyval * bool * bool) : M (list pyval * bool * bool) :=
  match rs with
  | [] => mret acc
  | Some bs :: rest => acc ← add_boxes bs acc; add_results rest acc
  | None :: rest => add_results rest acc
  end.

(** The frame the model is given: a base64 string is decoded, any other
    object is passed as it is; [None] stands for Python's [None]. *)
Definition as_frame (frame : pyval) : option (Image + pyval) :=
  match frame with
  | PStr s => inl <$> _decode_base64 s
  | PNone => None
  | v => Some (inr v)
  end.

Definition detect (frame : pyval) : M pyval :=
  if negb load_model then mret (error_result "Model not loaded")
  else
    match as_frame frame with
    | None => mret (error_result "Invalid frame")
    | Some frame =>
        try_except
          (results ← of_option (infer frame);
           '(detections, has_fire, has_smoke) ← add_results results ([], false, false);
           t ← now;
           annotated ← of_option (annotate_frame frame detections t);
           shape ← of_option (frame_shape frame);
           mret (PDict
             [("detections", PList detections);
              ("annotated_frame",
                 match encode_base64 annotated with
                 | Some s => PStr s
                 | None => PNone
                 end);
              ("has_fire", PBool has_fire);
              ("has_smoke", PBool has_smoke);
              ("frame_shape", shape)]))
          (λ e, mret (error_result (exn_str e)))
    end.

Definition _log_detection (did : string) (result : pyval) (sid : string)
  : M unit :=
  try_except
    (rows ← gets drones;
     drone ← objects_get Drone_DoesNotExist (Drone_filter_id did rows);
     dets ← lift (py_item result "detections");
     dets ← lift (py_iter dets);
     _ ← for_each dets (λ det,
           cls ← lift (py_item det "class");
           if py_is_str cls "fire" || py_is_str cls "smoke" then
             let ltype := if py_is_str cls "fire"
                          then LogType.FIRE_DETECTED
                          else LogType.SMOKE_DETECTED in
             let cname := if py_is_str cls "fire" then "fire" else "smoke" in
             c ← lift (py_item det "confidence");
             c ← as_float c;
             box ← lift (py_item det "bbox");
             _ ← LogEntry_create (d_name drone) (detection_text cname c)
                   ltype (Some drone) (Some c) cname box;
             mret tt
           else mret tt);
     if negb (String.eqb sid "") then
       try_except
         (rows ← gets sessions;
          session ← objects_get ScanSession_DoesNotExist
                      (filter (λ s, uuid_str (session_id s) = sid) rows);
          let session := ScanSession_add 1 0 0 session in
          has_fire ← flag result "has_fire";
          let session :=
            if has_fire : bool then ScanSession_add 0 1 0 session else session in
          has_smoke ← flag result "has_smoke";
          let session :=
            if has_smoke : bool then ScanSession_add 0 0 1 session else session in
          ScanSession_save session)
         (λ e, match e with
               | ScanSession_DoesNotExist => mret tt
               | _ => raise e
               end)
     else mret tt)
    (λ e, match e with
          | Drone_DoesNotExist => mret tt
          | _ => raise e
          end).

Definition process_video_frame (did : string) (frame_data : pyval)
    (sid : string) : M pyval :=
  result ← detect frame_data;
  has_fire ← flag result "has_fire";
  has_smoke ← flag result "has_smoke";
  _ ← (if (has_fire : bool) || has_smoke then _log_detection did result sid
       else mret tt);
  mret result.

End detector.
End FireSmokeDetector.

Module DetectionService.
Section dispatcher.
Context `{Ext : Externals}.

Definition start_detection (did sid : string) : M bool :=
  _ ← modify (set_active_sessions (λ m, <[did := mkDispatchEntry sid true 0]> m));
  mret true.

Definition stop_detection (did : string) : M bool :=
  _ ← modify (set_active_sessions (λ m, delete did m));
  mret true.

Definition is_active (did : string) : M bool :=
  gets (λ w, match active_sessions w !! did with
             | Some e => e_is_active e
             | None => false
             end).

(** Returns [PNone] for Python's [None]. *)
Definition process_frame (did : string) (frame_data : pyval) : M pyval :=
  active ← is_active did;
  if negb active then mret PNone
  else
    entry ← gets (λ w, active_sessions w !! did);
    match entry with
    | None => raise KeyError
    | Some e =>
        result ← FireSmokeDetector.process_video_frame did frame_data
                   (e_session_id e);
        _ ← modify (set_active_sessions
               (alter (λ e, mkDispatchEntry (e_session_id e) (e_is_active e)
                              (frames_processed e + 1)) did));
        mret result
    end.

End dispatcher.
End DetectionService.

(** ** Unified router ([rabbitmq_service/consumer.py])

    A handler takes the delivery tag of [method], the raw [body] and the
    [drone] object bound at setup. *)

Module UnifiedConsumer.
Section consumer.
Context `{Ext : Externals}.

Definition loads (body : string) : M pyval :=
  match json_loads body with
  | Some v => mret v
  | None => raise JSONDecodeError
  end.

Definition ack (delivery_tag : nat) : M unit :=
  modify (set_acks (λ l, l ++ [basic_ack delivery_tag])).

Definition nack (delivery_tag : nat) (requeue : bool) : M unit :=
  modify (set_acks (λ l, l ++ [basic_nack delivery_tag requeue])).

(** [self.pub_channel.basic_publish(...)] *)
Definition pub_basic_publish (exch rkey : string) (payload : pyval)
    (mode : Z) : M unit :=
  open ← gets pub_open;
  if open : bool then
    modify (set_published (λ l, l ++
      [mkPublished exch rkey payload mode "application/json"]))
  else raise AMQPError.

Definition _publish_gui (did message_type : string) (payload : pyval)
  : M unit :=
  try_except
    (let routing_key := "gui." +:+ did +:+ "." +:+ message_type in
     let persistent := negb (has message_type ["video"]) in
     pub_basic_publish Config.EXCHANGE_GUI routing_key payload
       (if persistent then 2 else 1)%Z)
    (λ _, mret tt).

Definition video_frame (timestamp : pyval) (did : string)
    (frame_number data : pyval) (scanning : bool) : pyval :=
  PDict [("type", PStr "VIDEO_FRAME");
         ("timestamp", timestamp);
         ("drone_id", PStr did);
         ("frame_number", frame_number);
         ("data", data);
         ("scanning", PBool scanning)].

Definition _log_detection (drone : Drone) (result : pyval)
    (session : ScanSession) : M unit :=
  dets ← lift (py_get result "detections" (PList []));
  dets ← lift (py_iter dets);
  for_each dets (λ det,
    cls ← lift (py_item det "class");
    if py_is_str cls "fire" || py_is_str cls "smoke" then
      let ltype := if py_is_str cls "fire"
                   then LogType.FIRE_DETECTED
                   else LogType.SMOKE_DETECTED in
      let cname := if py_is_str cls "fire" then "fire" else "smoke" in
      c ← lift (py_item det "confidence");
      c ← as_float c;
      box ← lift (py_get det "bbox" PNone);
      entry ← LogEntry_create (d_name drone)
                ("🔥 " +:+ detection_text cname c)
                ltype (Some drone) (Some c) cname box;
      t ← now;
      _publish_gui (drone_id drone) "alerts"
        (PDict [("type", PStr "DETECTION_ALERT");
                ("timestamp", PStr (isoformat t));
                ("drone_id", PStr (drone_id drone));
                ("detection_class", PStr cname);
                ("confidence", PFloat c);
                ("bbox", box);
                ("log_id", PInt (Z.of_nat (l_id entry)))])
    else mret tt).

Definition _update_session_stats (session : ScanSession) (result : pyval)
  : M unit :=
  let update_fields := [F_total_frames_processed] in
  let session := ScanSession_add 1 0 0 session in
  has_fire ← flag result "has_fire";
  let '(session, update_fields) :=
    if has_fire : bool
    then (ScanSession_add 0 1 0 session, update_fields ++ [F_fire_detections])
    else (session, update_fields) in
  has_smoke ← flag result "has_smoke";
  let '(session, update_fields) :=
    if has_smoke : bool
    then (ScanSession_add 0 0 1 session, update_fields ++ [F_smoke_detections])
    else (session, update_fields) in
  ScanSession_save_fields update_fields session.

Definition _on_telemetry (delivery_tag : nat) (body : string) (drone : Drone)
  : M unit :=
  try_except
    (message ← loads body;
     data ← lift (py_get message "data" (PDict []));
     status ← lift (py_get data "status" (PStr (last_status drone)));
     t ← now;
     status ← to_text status;
     _ ← modify (set_drones (fmap (λ r,
            if String.eqb (drone_id r) (drone_id drone)
            then Drone_set_last_seen (Some t) (Drone_set_last_status status r)
            else r)));
     t ← now;
     timestamp ← lift (py_get message "timestamp" (PStr (isoformat t)));
     _ ← _publish_gui (drone_id drone) "telemetry"
           (PDict [("type", PStr "TELEMETRY");
                   ("timestamp", timestamp);
                   ("drone_id", PStr (drone_id drone));
                   ("data", data)]);
     ack delivery_tag)
    (λ _, nack delivery_tag false).

Definition _on_video (delivery_tag : nat) (body : string) (drone : Drone)
  : M unit :=
  try_except
    (message ← loads body;
     frame_data ← lift (py_get message "data" PNone);
     frame_number ← lift (py_get message "frame_number" (PInt 0));
     t ← now;
     timestamp ← lift (py_get message "timestamp" (PStr (isoformat t)));
     if negb (truthy frame_data) then ack delivery_tag
     else
       active_session ← active_session_for drone;
       _ ← match active_session with
           | Some active_session =>
               result ← DetectionService.process_frame (drone_id drone) frame_data;
               if truthy result then
                 gui_frame ← lift (py_get result "annotated_frame" frame_data);
                 _ ← _publish_gui (drone_id drone) "video"
                       (video_frame timestamp (drone_id drone) frame_number
                          gui_frame true);
                 dets ← lift (py_get result "detections" PNone);
                 _ ← (if truthy dets then
                        dets ← lift (py_item result "detections");
                        has_fire ← lift (py_get result "has_fire" (PBool false));
                        has_smoke ← lift (py_get result "has_smoke" (PBool false));
                        _publish_gui (drone_id drone) "detection"
                          (PDict [("type", PStr "DETECTION");
                                  ("timestamp", timestamp);
                                  ("drone_id", PStr (drone_id drone));
                                  ("frame_number", frame_number);
                                  ("detections", dets);
                                  ("has_fire", has_fire);
                                  ("has_smoke", has_smoke)])
                      else mret tt);
                 has_fire ← flag result "has_fire";
                 has_smoke ← flag result "has_smoke";
                 _ ← (if (has_fire : bool) || has_smoke
                      then _log_detection drone result active_session
                      else mret tt);
                 _update_session_stats active_session result
               else
                 _publish_gui (drone_id drone) "video"
                   (video_frame timestamp (drone_id drone) frame_number
                      frame_data true)
           | None =>
               _publish_gui (drone_id drone) "video"
                 (video_frame timestamp (drone_id drone) frame_number
                    frame_data false)
           end;
       ack delivery_tag)
    (λ _, nack delivery_tag false).

Definition _on_alert (delivery_tag : nat) (body : string) (drone : Drone)
  : M unit :=
  try_except
    (message ← loads body;
     msg ← lift (py_get message "message" (PStr "Alert alındı"));
     msg ← to_text msg;
     _ ← LogEntry_create (d_name drone) msg LogType.ALERT (Some drone)
           None "" PNone;
     t ← now;
     timestamp ← lift (py_get message "timestamp" (PStr (isoformat t)));
     msg ← lift (py_get message "message" (PStr ""));
     _ ← _publish_gui (drone_id drone) "alerts"
           (PDict [("type", PStr "ALERT");
                   ("timestamp", timestamp);
                   ("drone_id", PStr (drone_id drone));
                   ("message", msg);
                   ("data", message)]);
     ack delivery_tag)
    (λ _, nack delivery_tag false).

Definition _handle_start_scan (drone : Drone) : M unit :=
  session ← ScanService.start (drone_id drone);
  _ ← DetectionService.start_detection (drone_id drone)
        (uuid_str (session_id session));
  t ← now;
  _ ← _publish_gui (drone_id drone) "status"
        (PDict [("type", PStr "SCAN_STARTED");
                ("timestamp", PStr (isoformat t));
                ("drone_id", PStr (drone_id drone));
                ("session_id", PStr (uuid_str (session_id session)))]);
  RabbitMQManager.with_manager
    (RabbitMQManager.send_command drone
       [("command", PStr "START_SCAN");
        ("session_id", PStr (uuid_str (session_id session)))]).

Definition _handle_stop_scan (drone : Drone) : M unit :=
  active ← active_session_for drone;
  match active with
  | Some active =>
      session ← ScanService.stop active;
      _ ← DetectionService.stop_detection (drone_id drone);
      t ← now;
      _ ← _publish_gui (drone_id drone) "status"
            (PDict [("type", PStr "SCAN_STOPPED");
                    ("timestamp", PStr (isoformat t));
                    ("drone_id", PStr (drone_id drone));
                    ("session_id", PStr (uuid_str (session_id session)));
                    ("stats", PDict
                       [("total_frames", PInt (total_frames_processed session));
                        ("fire_detections", PInt (fire_detections session));
                        ("smoke_detections", PInt (smoke_detections session))])]);
      RabbitMQManager.with_manager
        (RabbitMQManager.send_command drone
           [("command", PStr "STOP_SCAN");
            ("session_id", PStr (uuid_str (session_id session)))])
  | None => mret tt
  end.

Definition _on_gui_command (delivery_tag : nat) (body : string)
    (drone : Drone) : M unit :=
  try_except
    (message ← loads body;
     command ← lift (py_get message "command" PNone);
     params ← lift (py_get message "params" (PDict []));
     _ ← (if py_is_str command "START_SCAN" then _handle_start_scan drone
          else if py_is_str command "STOP_SCAN" then _handle_stop_scan drone
          else
            RabbitMQManager.with_manager
              (RabbitMQManager.send_command drone
                 [("command", command); ("params", params)]));
     t ← now;
     _ ← _publish_gui (drone_id drone) "status"
           (PDict [("type", PStr "COMMAND_ACK");
                   ("timestamp", PStr (isoformat t));
                   ("drone_id", PStr (drone_id drone));
                   ("command", command);
                   ("status", PStr "sent")]);
     ack delivery_tag)
    (λ _, nack delivery_tag false).

End consumer.
End UnifiedConsumer.

(** ** A concrete instantiation, for running scenarios *)

Module Demo.

Definition dq : string := String (ascii_of_nat 34) "".
Definition jstr (s : string) : string := dq +:+ s +:+ dq.
Definition jfield (k v : string) : string := jstr k +:+ ": " +:+ v.

(** Message bodies as the drone and the browser send them. *)
Definition body_video (frame : string) : string :=
  "{" +:+ jfield "type" (jstr "VIDEO_FRAME") +:+ ", "
      +:+ jfield "frame_number" "7" +:+ ", "
      +:+ jfield "data" (jstr frame) +:+ "}".
Definition body_command (cmd : string) : string :=
  "{" +:+ jfield "command" (jstr cmd) +:+ "}".
Definition body_garbage : string := "<<not json>>".

Definition parsed_video (frame : string) : pyval :=
  PDict [("type", PStr "VIDEO_FRAME"); ("frame_number", PInt 7);
         ("data", PStr frame)].
Definition parsed_command (cmd : string) : pyval :=
  PDict [("command", PStr cmd)].

(** The frames the demo camera sends. *)
Definition frame_fire := "RklSRQ==".
Definition frame_calm := "Q0FMTQ==".
Definition frame_crash := "Q1JBU0g=".

(** A decoder that knows the bodies above and rejects everything else. *)
Definition table : list (string * pyval) :=
  [(body_video frame_fire, parsed_video frame_fire);
   (body_video frame_calm, parsed_video frame_calm);
   (body_video frame_crash, parsed_video frame_crash);
   (body_command "START_SCAN", parsed_command "START_SCAN");
   (body_command "STOP_SCAN", parsed_command "STOP_SCAN")].

Definition ascii_map (f : ascii → ascii) : string → string :=
  fix go s := match s with
              | EmptyString => EmptyString
              | String c rest => String (f c) (go rest)
              end.
Definition lower_ascii (c : ascii) : ascii :=
  let n := nat_of_ascii c in
  if (65 <=? n)%nat && (n <=? 90)%nat then ascii_of_nat (n + 32) else c.
Definition upper_ascii (c : ascii) : ascii :=
  let n := nat_of_ascii c in
  if (97 <=? n)%nat && (n <=? 122)%nat then ascii_of_nat (n - 32) else c.

(** A model that sees one fire with confidence 0.82 in [frame_fire],
    raises on [frame_crash] and sees nothing elsewhere. *)
#[global] Instance ext : Externals := {|
  Image := string;
  json_loads body := assoc body table;
  py_str v := match v with
              | PStr s => s
              | PInt n => pretty n
              | PBool true => "True"
              | PBool false => "False"
              | _ => "<object>"
              end;
  str_lower := ascii_map lower_ascii;
  str_upper := ascii_map upper_ascii;
  format_percent _ := "82.00%";
  load_model := true;
  imdecode s := if String.eqb s "" then None else Some s;
  infer fr :=
    match fr with
    | inl img =>
        if String.eqb img frame_fire
        then Some [Some [mkBox "Fire" 0.82%float
                           [10%float; 20%float; 110%float; 220%float]]]
        else if String.eqb img frame_crash then None
        else Some [Some []]
    | inr _ => None
    end;
  annotate_frame fr _ _ :=
    match fr with inl img => Some ("annotated:" +:+ img) | inr _ => None end;
  encode_base64 img := Some img;
  frame_shape _ := Some (PList [PInt 480; PInt 640])
|}.

(** Drone "D-01", registered, with no session yet. *)
Definition d01 : Drone :=
  mkDrone 1 "D-01" "Scout" "X4" 100
    "drone.D-01.telemetry" "drone.D-01.commands"
    "drone.D-01.video" "drone.D-01.alerts"
    DroneStatus.HOVERING (Some 1) true 1 1.

Definition w0 : World :=
  mkWorld [d01] [] [] 500 5 true true [] [] ∅.

(** Scenario B: the browser sends START_SCAN. *)
Definition w_scanning : World :=
  exec (UnifiedConsumer._on_gui_command 1 (body_command "START_SCAN") d01) w0.

End Demo.

(** ** Vocabulary of the properties *)

(** The spec's topic scheme: [drone.<id>.<kind>]. *)
Definition topic_name (did kind : string) : string :=
  "drone." +:+ did +:+ "." +:+ kind.

Definition derived_topics (did : string) : list (string * string) :=
  [("telemetry", topic_name did "telemetry");
   ("commands", topic_name did "commands");
   ("video", topic_name did "video");
   ("alerts", topic_name did "alerts")].

(** The columns no status change writes: keys, names, token and topics. *)
Definition same_identity (a b : Drone) : Prop :=
  d_id b = d_id a ∧ drone_id b = drone_id a ∧ d_name b = d_name a ∧
  d_model b = d_model a ∧ gui_token b = gui_token a ∧
  telemetry_topic b = telemetry_topic a ∧ command_topic b = command_topic a ∧
  video_topic b = video_topic a ∧ alert_topic b = alert_topic a ∧
  registered_at b = registered_at a.

(** Every column except [is_active], [last_seen] and [updated_at]. *)
Definition same_but_liveness (a b : Drone) : Prop :=
  same_identity a b ∧ last_status b = last_status a.

(** [record_frame(session, False, False)] called [n] times on the same
    session object. *)
Fixpoint record_frames (n : nat) (session : ScanSession) : M ScanSession :=
  match n with
  | O => mret session
  | S k =>
      session ← ScanService.record_frame session false false;
      record_frames k session
  end.

Definition stored (pk : nat) (w : World) : bool :=
  existsb (λ r, s_id r =? pk)%nat (sessions w).

(** How a stored row relates to itself after [n] quiet frames of session
    [s]: only the frame counter of [s]'s own row moves. *)
Definition counted (s : ScanSession) (n : nat) (row row' : ScanSession) : Prop :=
  s_id row' = s_id row ∧ session_id row' = session_id row ∧
  s_drone row' = s_drone row ∧ is_active row' = is_active row ∧
  started_at row' = started_at row ∧ ended_at row' = ended_at row ∧
  fire_detections row' = fire_detections row ∧
  smoke_detections row' = smoke_detections row ∧
  total_frames_processed row' =
    (if (s_id row =? s_id s)%nat && negb (n =? 0)%nat
     then total_frames_processed s + Z.of_nat n
     else total_frames_processed row)%Z.

(** What [_publish_gui] hands to the broker. *)
Definition gui_message (did message_type : string) (payload : pyval)
  : Published :=
  mkPublished Config.EXCHANGE_GUI ("gui." +:+ did +:+ "." +:+ message_type)
    payload (if String.eqb message_type "video" then 1 else 2)%Z
    "application/json".

Definition is_log_type (t : string) (e : LogEntry) : bool :=
  String.eqb (log_type e) t.
Definition has_key (k : string) (m : Published) : bool :=
  String.eqb (routing_key m) k.

(** [n] consecutive [ScanService.start] calls for the same drone. *)
Fixpoint start_seq (n : nat) (did : string) (w : World) : World :=
  match n with
  | O => w
  | S k => exec (ScanService.start did) (start_seq k did w)
  end.

(** The bulk UPDATE at the head of [start]. *)
Definition close_active (drone : Drone) (t : datetime) (s : ScanSession)
  : ScanSession :=
  if active_of drone s then ScanSession_close t s else s.

(** A session that was superseded: same row, closed, with an end time. *)
Definition superseded (s0 s1 : ScanSession) : Prop :=
  s_id s1 = s_id s0 ∧ session_id s1 = session_id s0 ∧
  s_drone s1 = s_drone s0 ∧ is_active s1 = false ∧ ended_at s1 ≠ None.

(** How [STOP_SCAN] for session [s1] at time [t] changes a session row. *)
Definition stopped (s1 : ScanSession) (t : datetime) (row row' : ScanSession)
  : Prop :=
  if (s_id row =? s_id s1)%nat
  then s_id row' = s_id row ∧ session_id row' = session_id row ∧
       s_drone row' = s_drone row ∧ started_at row' = started_at row ∧
       is_active row' = false ∧ ended_at row' = Some t ∧
       total_frames_processed row' = total_frames_processed row ∧
       fire_detections row' = fire_detections row ∧
       smoke_detections row' = smoke_detections row
  else row' = row.

(** ... and a drone row: the session's drone is hovering, with its topics,
    token and identity as before. *)
Definition landed (pk : nat) (row row' : Drone) : Prop :=
  if (d_id row =? pk)%nat
  then last_status row' = DroneStatus.HOVERING ∧ is_Some (last_seen row') ∧
       d_is_active row' = d_is_active row ∧ same_identity row row'
  else row' = row.

Definition scan_stopped_event (did : string) (t : datetime) (s1 : ScanSession)
  : pyval :=
  PDict [("type", PStr "SCAN_STOPPED");
         ("timestamp", PStr (isoformat t));
         ("drone_id", PStr did);
         ("session_id", PStr (uuid_str (session_id s1)));
         ("stats", PDict
            [("total_frames", PInt (total_frames_processed s1));
             ("fire_detections", PInt (fire_detections s1));
             ("smoke_detections", PInt (smoke_detections s1))])].

Definition stop_scan_command (did : string) (t : datetime) (s1 : ScanSession)
  : pyval :=
  PDict [("timestamp", PStr (isoformat t));
         ("drone_id", PStr did);
         ("command", PStr "STOP_SCAN");
         ("session_id", PStr (uuid_str (session_id s1)))].

Definition command_ack_event (did : string) (t : datetime) (command : pyval)
  : pyval :=
  PDict [("type", PStr "COMMAND_ACK");
         ("timestamp", PStr (isoformat t));
         ("drone_id", PStr did);
         ("command", command);
         ("status", PStr "sent")].

(** [quiet P m]: [m] leaves the publish channel as it is and publishes only
    messages satisfying [P]. *)
Definition quiet {A} (P : Published → Prop) (m : M A) : Prop :=
  ∀ w, pub_open (m w).2 = pub_open w ∧
       ∃ l, published (m w).2 = published w ++ l ∧ Forall P l.

(** [returns Q m]: whatever [m] returns satisfies [Q]. *)
Definition returns {A} (Q : A → Prop) (m : M A) : Prop :=
  ∀ w a, (m w).1 = Ok a → Q a.

(** What the dispatcher can hand to the router. *)
Definition dict_or_none (v : pyval) : Prop :=
  match v with PNone | PDict _ => True | _ => False end.

Definition is_video (did : string) (m : Published) : bool :=
  has_key ("gui." +:+ did +:+ ".video") m.

Definition scanning_flag (m : Published) : result pyval :=
  py_get (body m) "scanning" PNone.

Definition not_video (did : string) (m : Published) : Prop :=
  is_video did m = false.

(** ** Further vocabulary *)

(** [keeps f m]: [m] leaves the part [f] of the world as it is. *)
Definition keeps {X A} (f : World → X) (m : M A) : Prop :=
  ∀ w, f (m w).2 = f w.

(** [acks_once tag m]: when [m] returns it has acknowledged [tag] exactly
    once; when it raises it has acknowledged nothing. *)
Definition acks_once {A} (tag : nat) (m : M A) : Prop :=
  ∀ w, match m w with
       | (Ok _, w') => acks w' = acks w ++ [basic_ack tag]
       | (Raise _, w') => acks w' = acks w
       end.

Definition scan_started_event (did : string) (t : datetime) (s : ScanSession)
  : pyval :=
  PDict [("type", PStr "SCAN_STARTED");
         ("timestamp", PStr (isoformat t));
         ("drone_id", PStr did);
         ("session_id", PStr (uuid_str (session_id s)))].

Definition start_scan_command (did : string) (t : datetime) (s : ScanSession)
  : pyval :=
  PDict [("timestamp", PStr (isoformat t));
         ("drone_id", PStr did);
         ("command", PStr "START_SCAN");
         ("session_id", PStr (uuid_str (session_id s)))].

Definition relayed_command (did : string) (t : datetime)
    (command params : pyval) : pyval :=
  PDict [("timestamp", PStr (isoformat t));
         ("drone_id", PStr did);
         ("command", command);
         ("params", params)].

Definition telemetry_event (timestamp : pyval) (did : string) (data : pyval)
  : pyval :=
  PDict [("type", PStr "TELEMETRY");
         ("timestamp", timestamp);
         ("drone_id", PStr did);
         ("data", data)].


(** How a status change to [status] of the drone with key [pk] shows on a
    drone row. *)
Definition status_set (pk : nat) (status : string) (row row' : Drone) : Prop :=
  if (d_id row =? pk)%nat
  then last_status row' = status ∧ is_Some (last_seen row') ∧
       d_is_active row' = d_is_active row ∧ same_identity row row'
  else row' = row.

(** A freshly created session row of drone [pk]. *)
Definition fresh_session (pk : nat) (s : ScanSession) : Prop :=
  s_drone s = pk ∧ is_active s = true ∧ ended_at s = None ∧
  total_frames_processed s = 0%Z ∧ fire_detections s = 0%Z ∧
  smoke_detections s = 0%Z.

(** Only the clock moved. *)
Definition same_but_clock (w w' : World) : Prop :=
  drones w' = drones w ∧ sessions w' = sessions w ∧ logs w' = logs w ∧
  published w' = published w ∧ acks w' = acks w ∧
  active_sessions w' = active_sessions w.

(** A JSON value that is not an object. *)
Definition not_object (v : pyval) : Prop :=
  match v with PDict _ => False | _ => True end.

(** How a telemetry message with status [s] seen at [t] shows on a drone
    row: rows of the drone take the status and the time, nothing else. *)
Definition telemetry_seen (did s : string) (t : datetime) (row row' : Drone)
  : Prop :=
  if String.eqb (drone_id row) did
  then last_status row' = s ∧ last_seen row' = Some t ∧
       d_is_active row' = d_is_active row ∧
       updated_at row' = updated_at row ∧ same_identity row row'
  else row' = row.

(** ** A second instantiation, with more message bodies *)

Module Demo2.

Definition body_telemetry : string :=
  "{" +:+ Demo.jfield "type" (Demo.jstr "TELEMETRY") +:+ ", "
      +:+ Demo.jfield "data"
            ("{" +:+ Demo.jfield "status" (Demo.jstr "Devriyede") +:+ ", "
                 +:+ Demo.jfield "battery" "87" +:+ "}") +:+ "}".
Definition body_alert : string :=
  "{" +:+ Demo.jfield "type" (Demo.jstr "ALERT") +:+ ", "
      +:+ Demo.jfield "message" (Demo.jstr "KRİTİK: Batarya %9!") +:+ "}".
Definition body_list : string := "[1, 2]".
Definition body_no_frame : string :=
  "{" +:+ Demo.jfield "type" (Demo.jstr "VIDEO_FRAME") +:+ ", "
      +:+ Demo.jfield "frame_number" "8" +:+ "}".
Definition body_move : string :=
  "{" +:+ Demo.jfield "command" (Demo.jstr "MOVE_TO") +:+ ", "
      +:+ Demo.jfield "params"
            ("{" +:+ Demo.jfield "x" "3" +:+ ", "
                 +:+ Demo.jfield "y" "4" +:+ "}") +:+ "}".

Definition parsed_telemetry : pyval :=
  PDict [("type", PStr "TELEMETRY");
         ("data", PDict [("status", PStr "Devriyede"); ("battery", PInt 87)])].
Definition parsed_alert : pyval :=
  PDict [("type", PStr "ALERT"); ("message", PStr "KRİTİK: Batarya %9!")].
Definition parsed_no_frame : pyval :=
  PDict [("type", PStr "VIDEO_FRAME"); ("frame_number", PInt 8)].
Definition parsed_move : pyval :=
  PDict [("command", PStr "MOVE_TO");
         ("params", PDict [("x", PInt 3); ("y", PInt 4)])].

Definition table : list (string * pyval) :=
  Demo.table ++
  [(body_telemetry, parsed_telemetry);
   (body_alert, parsed_alert);
   (body_list, PList [PInt 1; PInt 2]);
   (body_no_frame, parsed_no_frame);
   (body_move, parsed_move)].

(** [Demo.ext] with the larger decoder table. *)
Definition ext : Externals := {|
  Image := @Image Demo.ext;
  json_loads body := assoc body table;
  py_str := @py_str Demo.ext;
  str_lower := @str_lower Demo.ext;
  str_upper := @str_upper Demo.ext;
  format_percent := @format_percent Demo.ext;
  load_model := @load_model Demo.ext;
  imdecode := @imdecode Demo.ext;
  infer := @infer Demo.ext;
  annotate_frame := @annotate_frame Demo.ext;
  encode_base64 := @encode_base64 Demo.ext;
  frame_shape := @frame_shape Demo.ext
|}.

End Demo2.

(** ** Reading detection results *)

(** [det['class'] == c] *)
Definition det_class (c : string) (det : pyval) : bool :=
  match py_get det "class" PNone with
  | Ok v => py_is_str v c
  | Raise _ => false
  end.

(** [result.get(k)] as a condition, [False] on anything without [get]. *)
Definition result_flag (result : pyval) (k : string) : bool :=
  match py_get result k PNone with
  | Ok v => truthy v
  | Raise _ => false
  end.

(** [result.get('detections', [])] as a list. *)
Definition result_detections (result : pyval) : list pyval :=
  match py_get result "detections" (PList []) with
  | Ok (PList l) => l
  | _ => []
  end.

(** The loop state of [detect]: the flags say whether a fire, a smoke
    detection is in the list. *)
Definition flags_match (acc : list pyval * bool * bool) : Prop :=
  let '(dets, has_fire, has_smoke) := acc in
  has_fire = existsb (det_class "fire") dets ∧
  has_smoke = existsb (det_class "smoke") dets.

Definition box_count (rs : list (option (list Box))) : nat :=
  length (concat (default [] <$> rs)).

Definition no_comma (s : string) : bool :=
  forallb (λ c, negb (Ascii.eqb c ","%char)) (list_ascii_of_string s).

(** The detections the loggers act on, and what they record of each. *)
Definition is_fire_or_smoke (det : pyval) : bool :=
  det_class "fire" det || det_class "smoke" det.

Definition det_log_type (det : pyval) : string :=
  if det_class "fire" det then LogType.FIRE_DETECTED
  else LogType.SMOKE_DETECTED.

Definition det_confidence (det : pyval) : option float :=
  match py_get det "confidence" PNone with
  | Ok (PFloat x) => Some x
  | _ => None
  end.

(** A detection as [detect] builds it: a dictionary with a class, and a
    float confidence. *)
Definition well_formed_detection (det : pyval) : Prop :=
  ∃ kv c x, det = PDict kv ∧ assoc "class" kv = Some (PStr c) ∧
            assoc "confidence" kv = Some (PFloat x).

(** [payload['log_id']] of a published alert. *)
Definition alert_log_id (m : Published) : pyval :=
  match py_get (body m) "log_id" PNone with
  | Ok v => v
  | Raise _ => PNone
  end.

Definition bump (e : DispatchEntry) : DispatchEntry :=
  mkDispatchEntry (e_session_id e) (e_is_active e) (frames_processed e + 1).

(** What logging the detections [dets] of drone [did] adds to the world:
    one entry and one alert per fire or smoke detection, in order. *)
Definition logged_as (did : string) (dets : list pyval) (w w' : World) : Prop :=
  ∃ es ms,
    logs w' = logs w ++ es ∧ published w' = published w ++ ms ∧
    log_type <$> es =
      det_log_type <$> filter (λ d, is_fire_or_smoke d = true) dets ∧
    confidence <$> es =
      det_confidence <$> filter (λ d, is_fire_or_smoke d = true) dets ∧
    alert_log_id <$> ms = (λ e, PInt (Z.of_nat (l_id e))) <$> es ∧
    Forall (λ m, routing_key m = "gui." +:+ did +:+ ".alerts" ∧
                 delivery_mode m = 2%Z) ms ∧
    sessions w' = sessions w ∧ drones w' = drones w ∧
    acks w' = acks w ∧ active_sessions w' = active_sessions w ∧
    pub_open w' = pub_open w.

(** ** More of the models and services *)

(** [Drone.is_online] *)
Definition Drone_is_online (d : Drone) : bool :=
  d_is_active d && negb (String.eqb (last_status d) DroneStatus.OFFLINE).

(** [LogEntry.is_detection] *)
Definition LogEntry_is_detection (e : LogEntry) : bool :=
  has (log_type e) [LogType.FIRE_DETECTED; LogType.SMOKE_DETECTED].

(** [DroneService.list_active]: the rows of
    [filter(is_active=True).exclude(last_status=OFFLINE)].  The query returns
    them ordered by [drone_id]; only membership is modelled. *)
Definition DroneService_list_active (w : World) : list Drone :=
  filter (λ d, d_is_active d = true ∧ last_status d ≠ DroneStatus.OFFLINE)
    (drones w).

(** [DroneService.deactivate] *)
Definition DroneService_deactivate (drone : Drone) : M Drone :=
  let drone := Drone_set_is_active false drone in
  let drone := Drone_set_last_status DroneStatus.OFFLINE drone in
  Drone_save_fields [F_is_active; F_last_status; F_updated_at] drone.

(** [ScanService.list_active] *)
Definition ScanService_list_active (w : World) : list ScanSession :=
  filter (λ s, is_active s = true) (sessions w).

(** [order_by('-timestamp')]: newest first; the store decides among equal
    timestamps. *)
Definition newer_first (a b : LogEntry) : Prop :=
  (timestamp b ≤ timestamp a)%nat.

Global Instance newer_first_dec : RelDecision newer_first.
Proof. intros a b. unfold newer_first. apply _. Defined.

(** [LogService.get_detections(limit)], for a limit that is not negative. *)
Definition LogService_get_detections (limit : nat) (w : World)
  : list LogEntry :=
  take limit (merge_sort newer_first
    (filter (λ e, LogEntry_is_detection e = true) (logs w))).

(** [LogService.get_alerts(limit)] *)
Definition LogService_get_alerts (limit : nat) (w : World) : list LogEntry :=
  take limit (merge_sort newer_first
    (filter (λ e, log_type e = LogType.ALERT) (logs w))).

(** How [record_frame(session, has_fire, has_smoke)] shows on a stored row:
    the row of the session takes the object's counters plus one, and only
    those that were incremented. *)
Definition frame_written (s : ScanSession) (has_fire has_smoke : bool)
    (row row' : ScanSession) : Prop :=
  if (s_id row =? s_id s)%nat
  then s_id row' = s_id row ∧ session_id row' = session_id row ∧
       s_drone row' = s_drone row ∧ is_active row' = is_active row ∧
       started_at row' = started_at row ∧ ended_at row' = ended_at row ∧
       total_frames_processed row' = (total_frames_processed s + 1)%Z ∧
       fire_detections row' =
         (if has_fire then fire_detections s + 1 else fire_detections row)%Z ∧
       smoke_detections row' =
         (if has_smoke then smoke_detections s + 1
          else smoke_detections row)%Z
  else row' = row.

(** ** Queues, bindings and consumers

    What [queue_declare], [queue_bind] and a topic exchange do is the
    broker's part; it is written out here as far as the code relies on it. *)

Module Broker.

Record Queue : Type := mkQueue {
  durable : bool;
  message_ttl : option Z               (* [arguments={'x-message-ttl': ..}] *)
}.

Record Binding : Type := mkBinding {
  b_exchange : string;
  b_queue : string;
  b_routing_key : string
}.

Record State : Type := mkState {
  queues : list (string * Queue);
  bindings : list Binding
}.

Definition empty : State := mkState [] [].

Fixpoint lookup (name : string) (qs : list (string * Queue)) : option Queue :=
  match qs with
  | [] => None
  | (n, q) :: rest => if String.eqb name n then Some q else lookup name rest
  end.

Definition Queue_eqb (a b : Queue) : bool :=
  Bool.eqb (durable a) (durable b) &&
  match message_ttl a, message_ttl b with
  | Some x, Some y => (x =? y)%Z
  | None, None => true
  | _, _ => false
  end.

Definition Binding_eqb (a b : Binding) : bool :=
  String.eqb (b_exchange a) (b_exchange b) &&
  String.eqb (b_queue a) (b_queue b) &&
  String.eqb (b_routing_key a) (b_routing_key b).

(** [queue_declare(queue, durable, arguments)]: creates the queue, accepts
    an existing one with the same properties, and fails on one that
    differs. *)
Definition queue_declare (name : string) (q : Queue) (b : State)
  : result unit * State :=
  match lookup name (queues b) with
  | None => (Ok tt, mkState (queues b ++ [(name, q)]) (bindings b))
  | Some q' => if Queue_eqb q' q then (Ok tt, b) else (Raise AMQPError, b)
  end.

(** [queue_bind(exchange, queue, routing_key)] on a declared exchange. *)
Definition queue_bind (exch name key : string) (b : State)
  : result unit * State :=
  match lookup name (queues b) with
  | None => (Raise AMQPError, b)
  | Some _ =>
      let bd := mkBinding exch name key in
      if existsb (Binding_eqb bd) (bindings b) then (Ok tt, b)
      else (Ok tt, mkState (queues b) (bindings b ++ [bd]))
  end.

(** Words of a routing key or binding pattern: [s.split('.')]. *)
Fixpoint words (s : string) : list string :=
  match s with
  | EmptyString => [EmptyString]
  | String c rest =>
      if Ascii.eqb c "."%char then EmptyString :: words rest
      else match words rest with
           | w :: ws => String c w :: ws
           | [] => [String c EmptyString]
           end
  end.

(** Topic matching: [*] stands for one word, [#] for any number. *)
Fixpoint topic_match (pattern key : list string) : bool :=
  match pattern with
  | [] => match key with [] => true | _ => false end
  | p :: ps =>
      if String.eqb p "#" then
        (fix skip (k : list string) : bool :=
           topic_match ps k ||
           match k with [] => false | _ :: k' => skip k' end) key
      else
        match key with
        | [] => false
        | w :: ws => (String.eqb p "*" || String.eqb p w) && topic_match ps ws
        end
  end.

(** The queues a message published on [exch] with [key] is copied to. *)
Definition route (b : State) (exch key : string) : list string :=
  b_queue <$>
    filter (λ bd, b_exchange bd = exch ∧
                  topic_match (words (b_routing_key bd)) (words key) = true)
      (bindings b).

End Broker.

(** ** The drone client ([raspberry_pi/drone_client.py])

    The part of [DroneClient] that commands read and write. *)

Module DroneClient.

Record State : Type := mkState {
  status : string;
  altitude : pyval;
  position : list (string * pyval);     (* the dict [{'x': .., 'y': ..}] *)
  flight_path : list pyval;
  _is_scanning : bool;
  _scan_session_id : pyval
}.

Definition set_status (v : string) (st : State) : State :=
  mkState v (altitude st) (position st) (flight_path st) (_is_scanning st)
    (_scan_session_id st).
Definition set_altitude (v : pyval) (st : State) : State :=
  mkState (status st) v (position st) (flight_path st) (_is_scanning st)
    (_scan_session_id st).
Definition set_position (v : list (string * pyval)) (st : State) : State :=
  mkState (status st) (altitude st) v (flight_path st) (_is_scanning st)
    (_scan_session_id st).
Definition set_flight_path (v : list pyval) (st : State) : State :=
  mkState (status st) (altitude st) (position st) v (_is_scanning st)
    (_scan_session_id st).
Definition set_is_scanning (v : bool) (st : State) : State :=
  mkState (status st) (altitude st) (position st) (flight_path st) v
    (_scan_session_id st).
Definition set_scan_session_id (v : pyval) (st : State) : State :=
  mkState (status st) (altitude st) (position st) (flight_path st)
    (_is_scanning st) v.

(** [__init__] *)
Definition init : State :=
  mkState "Beklemede" (PFloat 0) [("x", PInt 0); ("y", PInt 0)] [] false PNone.

(** [_handle_command(command, params)]: the state it leaves, also when it
    raises half way. *)
Definition _handle_command (command params : pyval) (st : State)
  : result unit * State :=
  if py_is_str command "START_SCAN" then
    let st := set_is_scanning true st in
    match py_get params "session_id" PNone with
    | Raise e => (Raise e, st)
    | Ok sid =>
        let st := set_scan_session_id sid st in
        (Ok tt, set_status "Taramada" st)
    end
  else if py_is_str command "STOP_SCAN" then
    let st := set_is_scanning false st in
    let st := set_scan_session_id PNone st in
    (Ok tt, set_status "Beklemede" st)
  else if py_is_str command "MOVE_TO" then
    match params with
    | PDict pkv =>
        match assoc "x" (position st) with
        | None => (Raise KeyError, st)
        | Some px =>
            let target_x := default px (assoc "x" pkv) in
            match assoc "y" (position st) with
            | None => (Raise KeyError, st)
            | Some py =>
                let target_y := default py (assoc "y" pkv) in
                let st := set_flight_path
                            (flight_path st ++ [PDict (position st)]) st in
                let st := set_position [("x", target_x); ("y", target_y)] st in
                (Ok tt, set_status "Rota Takibi" st)
            end
        end
    | _ => (Raise AttributeError, st)
    end
  else if py_is_str command "RETURN_HOME" then
    let st := set_position [("x", PInt 0); ("y", PInt 0)] st in
    let st := set_status "Dönüyor" st in
    (Ok tt, set_flight_path [] st)
  else if py_is_str command "HOVER" then
    (Ok tt, set_status "Havada Sabit" st)
  else if py_is_str command "LAND" then
    let st := set_status "Beklemede" st in
    (Ok tt, set_altitude (PInt 0) st)
  else if py_is_str command "SET_ALTITUDE" then
    match py_get params "altitude" (altitude st) with
    | Raise e => (Raise e, st)
    | Ok v => (Ok tt, set_altitude v st)
    end
  else if py_is_str command "PATROL" then
    (Ok tt, set_status "Devriyede" st)
  else (Ok tt, st).

End DroneClient.

(** ** The drone's broker client ([raspberry_pi/services/rabbitmq_client.py]) *)

Module DroneRabbitMQ.

(** [s.replace('.', '_')] *)
Fixpoint replace_dots (s : string) : string :=
  match s with
  | EmptyString => EmptyString
  | String c rest =>
      String (if Ascii.eqb c "." then "_"%char else c) (replace_dots rest)
  end.

(** The queue [start_command_listener] declares, binds and consumes. *)
Definition command_queue (cmd_topic : string) : string :=
  "commands." +:+ replace_dots cmd_topic.

(** What [basic_publish] does with a message. *)
Inductive Outcome : Type :=
  | Sent
  | ConnectionLost                     (* [AMQPConnectionError] *)
  | Failed.                            (* any other exception *)

(** The publishing side: [topics] is the dictionary of topic names the
    registration answered with. *)
Record Link : Type := mkLink {
  topics : list (string * string);
  is_connected : bool;
  sent : list Published
}.

Definition _publish (exch routing_key : string) (payload : pyval)
    (persistent : bool) (o : Outcome) (l : Link) : bool * Link :=
  if is_connected l then
    match o with
    | Sent =>
        (true, mkLink (topics l) true
                 (sent l ++ [mkPublished exch routing_key payload
                               (if persistent then 2 else 1)%Z
                               "application/json"]))
    | ConnectionLost => (false, mkLink (topics l) false (sent l))
    | Failed => (false, l)
    end
  else (false, l).

(** [self.topics.get(kind)], when it is there and not empty. *)
Definition topic (kind : string) (l : Link) : option string :=
  match list_find (λ p, p.1 = kind) (topics l) with
  | Some (_, (_, t)) => if String.eqb t "" then None else Some t
  | None => None
  end.

Definition send_telemetry (data : pyval) (t : datetime) (o : Outcome)
    (l : Link) : result bool * Link :=
  match topic "telemetry" l with
  | None => (Ok false, l)
  | Some key =>
      match py_get data "drone_id" (PStr "") with
      | Raise e => (Raise e, l)
      | Ok did =>
          let message := PDict [("type", PStr "TELEMETRY");
                                ("timestamp", PStr (isoformat t));
                                ("drone_id", did);
                                ("data", data)] in
          let '(r, l) := _publish "drone.telemetry" key message true o l in
          (Ok r, l)
      end
  end.

Definition send_video_frame (did frame_b64 : string) (frame_number : Z)
    (t : datetime) (o : Outcome) (l : Link) : bool * Link :=
  match topic "video" l with
  | None => (false, l)
  | Some key =>
      let message := PDict [("type", PStr "VIDEO_FRAME");
                            ("timestamp", PStr (isoformat t));
                            ("drone_id", PStr did);
                            ("frame_number", PInt frame_number);
                            ("data", PStr frame_b64)] in
      _publish "drone.video" key message false o l
  end.

(** [data] is [None] when the caller gives none. *)
Definition send_alert (did alert_message : string) (data : pyval)
    (t : datetime) (o : Outcome) (l : Link) : bool * Link :=
  match topic "alerts" l with
  | None => (false, l)
  | Some key =>
      let message := PDict [("type", PStr "ALERT");
                            ("timestamp", PStr (isoformat t));
                            ("drone_id", PStr did);
                            ("message", PStr alert_message);
                            ("data", if truthy data then data else PDict [])] in
      _publish "drone.alerts" key message true o l
  end.

(** [start_command_listener] up to [basic_consume]: the broker it leaves and
    the queue it consumes, if it got that far. *)
Definition start_command_listener (l : Link) (b : Broker.State)
  : Broker.State * option string :=
  match topic "commands" l with
  | None => (b, None)
  | Some cmd_topic =>
      let queue_name := command_queue cmd_topic in
      match Broker.queue_declare queue_name (Broker.mkQueue true None) b with
      | (Raise _, b1) => (b1, None)
      | (Ok _, b1) =>
          match Broker.queue_bind "drone.commands" queue_name cmd_topic b1 with
          | (Raise _, b2) => (b2, None)
          | (Ok _, b2) => (b2, Some queue_name)
          end
      end
  end.

Section client.
Context `{Ext : Externals}.

(** The [try] block of [_on_command] up to the acknowledgement, with
    [DroneClient._handle_command] as the callback. *)
Definition dispatch (body : string) (st : DroneClient.State)
  : result unit * DroneClient.State :=
  match json_loads body with
  | None => (Raise JSONDecodeError, st)
  | Some message =>
      match py_get message "command" (PStr "") with
      | Raise e => (Raise e, st)
      | Ok command =>
          match py_get message "params" (PDict []) with
          | Raise e => (Raise e, st)
          | Ok params => DroneClient._handle_command command params st
          end
      end
  end.

(** [_on_command]: the client state and the acknowledgements sent so far. *)
Definition _on_command (tag : nat) (body : string)
    (c : DroneClient.State * list Ack) : DroneClient.State * list Ack :=
  match dispatch body c.1 with
  | (Ok _, st) => (st, c.2 ++ [basic_ack tag])
  | (Raise _, st) => (st, c.2 ++ [basic_nack tag false])
  end.

(** Deliveries handled one after the other. *)
Definition deliveries (ds : list (nat * string))
    (c : DroneClient.State * list Ack) : DroneClient.State * list Ack :=
  fold_left (λ c d, _on_command d.1 d.2 c) ds c.

End client.
End DroneRabbitMQ.

(** The statuses the backend's [DroneStatus] knows. *)
Definition known_status (s : string) : Prop :=
  s ∈ [DroneStatus.IDLE; DroneStatus.PATROLLING; DroneStatus.RETURNING;
       DroneStatus.OFFLINE; DroneStatus.HOVERING; DroneStatus.FOLLOWING_PATH;
       DroneStatus.SCANNING].

(** What holds of the client between two commands. *)
Definition client_invariant (st : DroneClient.State) : Prop :=
  is_Some (assoc "x" (DroneClient.position st)) ∧
  is_Some (assoc "y" (DroneClient.position st)) ∧
  known_status (DroneClient.status st) ∧
  (DroneClient.status st = DroneStatus.SCANNING →
   DroneClient._is_scanning st = true) ∧
  (DroneClient._is_scanning st = false →
   DroneClient._scan_session_id st = PNone).

(** A command message as a browser or the router sends it: an object whose
    [params], when present, is an object. *)
Definition command_message (message : pyval) : Prop :=
  ∃ kv, message = PDict kv ∧
        (assoc "params" kv = None ∨ ∃ pkv, assoc "params" kv = Some (PDict pkv)).

(** The client after a START_SCAN that carried the session id [sid]. *)
Definition scanning_client (sid : pyval) (st : DroneClient.State)
  : DroneClient.State :=
  DroneClient.mkState "Taramada" (DroneClient.altitude st)
    (DroneClient.position st) (DroneClient.flight_path st) true sid.

(** The client after a MOVE_TO to [(x, y)]. *)
Definition moved_client (x y : pyval) (st : DroneClient.State)
  : DroneClient.State :=
  DroneClient.mkState "Rota Takibi" (DroneClient.altitude st)
    [("x", x); ("y", y)]
    (DroneClient.flight_path st ++ [PDict (DroneClient.position st)])
    (DroneClient._is_scanning st) (DroneClient._scan_session_id st).

(** [RabbitMQManager.setup_drone_topics] ([rabbitmq_service/manager.py]) *)

Module TopicSetup.

(** [(queue_name, exchange, routing_key, durable, arguments)] *)
Record Entry : Type := mkEntry {
  queue_name : string;
  e_exchange : string;
  e_routing_key : string;
  e_durable : bool;
  e_arguments : option Z
}.

Definition props (e : Entry) : Broker.Queue :=
  Broker.mkQueue (e_durable e) (e_arguments e).

Definition binding (e : Entry) : Broker.Binding :=
  Broker.mkBinding (e_exchange e) (queue_name e) (e_routing_key e).

(** One turn of the loops: declare, then bind. *)
Definition declare_and_bind (e : Entry) (b : Broker.State)
  : result unit * Broker.State :=
  match Broker.queue_declare (queue_name e) (props e) b with
  | (Ok _, b1) =>
      Broker.queue_bind (e_exchange e) (queue_name e) (e_routing_key e) b1
  | (Raise x, b1) => (Raise x, b1)
  end.

Fixpoint declare_all (l : list Entry) (b : Broker.State)
  : result unit * Broker.State :=
  match l with
  | [] => (Ok tt, b)
  | e :: rest =>
      match declare_and_bind e b with
      | (Ok _, b1) => declare_all rest b1
      | (Raise x, b1) => (Raise x, b1)
      end
  end.

Definition drone_queues (drone : Drone) : list Entry :=
  let did := drone_id drone in
  [mkEntry ("telemetry." +:+ did) Config.EXCHANGE_TELEMETRY
     (telemetry_topic drone) true None;
   mkEntry ("commands." +:+ did) Config.EXCHANGE_COMMANDS
     (command_topic drone) true None;
   mkEntry ("video." +:+ did) Config.EXCHANGE_VIDEO
     (video_topic drone) false (Some 5000%Z);
   mkEntry ("alerts." +:+ did) Config.EXCHANGE_ALERTS
     (alert_topic drone) true None].

Definition gui_queues (drone : Drone) : list Entry :=
  let did := drone_id drone in
  let gui_token := uuid_str (gui_token drone) in
  [mkEntry ("gui." +:+ gui_token +:+ ".telemetry") Config.EXCHANGE_GUI
     ("gui." +:+ did +:+ ".telemetry") true None;
   mkEntry ("gui." +:+ gui_token +:+ ".video") Config.EXCHANGE_GUI
     ("gui." +:+ did +:+ ".video") false (Some 5000%Z);
   mkEntry ("gui." +:+ gui_token +:+ ".detection") Config.EXCHANGE_GUI
     ("gui." +:+ did +:+ ".detection") true None;
   mkEntry ("gui." +:+ gui_token +:+ ".alerts") Config.EXCHANGE_GUI
     ("gui." +:+ did +:+ ".alerts") true None;
   mkEntry ("gui." +:+ gui_token +:+ ".status") Config.EXCHANGE_GUI
     ("gui." +:+ did +:+ ".status") true None].

Definition gui_cmd (drone : Drone) : Entry :=
  mkEntry ("gui." +:+ uuid_str (gui_token drone) +:+ ".commands")
    Config.EXCHANGE_GUI ("gui." +:+ drone_id drone +:+ ".commands") true None.

Definition setup_drone_topics (drone : Drone) (b : Broker.State)
  : result unit * Broker.State :=
  match declare_all (drone_queues drone) b with
  | (Ok _, b1) =>
      match declare_all (gui_queues drone) b1 with
      | (Ok _, b2) => declare_and_bind (gui_cmd drone) b2
      | (Raise x, b2) => (Raise x, b2)
      end
  | (Raise x, b1) => (Raise x, b1)
  end.

(** [DroneRegistrationView._setup_rabbitmq] ([api/views.py]): whatever goes
    wrong is logged and dropped; [up] says whether the broker could be
    reached. *)
Definition _setup_rabbitmq (up : bool) (drone : Drone) (b : Broker.State)
  : Broker.State :=
  if up then (setup_drone_topics drone b).2 else b.

End TopicSetup.

(** [UnifiedConsumer.setup] and what it calls
    ([rabbitmq_service/consumer.py]) *)

Module ConsumerSetup.

Inductive Callback : Type :=
  | _on_telemetry
  | _on_video
  | _on_alert
  | _on_gui_command.

(** A [basic_consume] registration: the callbacks are closed over their
    drone object. *)
Record Consumer : Type := mkConsumer {
  c_queue : string;
  c_callback : Callback;
  c_drone : Drone
}.

(** [_consume_queue] on the consumers of the channel [self.channel] refers
    to.  A passive declare of a missing queue closes that channel, and the
    code goes on with a new one. *)
Definition _consume_queue (name : string) (callback : Callback)
    (drone : Drone) (b : Broker.State) (channel : list Consumer)
  : list Consumer :=
  match Broker.lookup name (Broker.queues b) with
  | Some _ => channel ++ [mkConsumer name callback drone]
  | None => []
  end.

Definition _bind_drone (drone : Drone) (b : Broker.State)
    (channel : list Consumer) : list Consumer :=
  let did := drone_id drone in
  let channel := _consume_queue ("telemetry." +:+ did) _on_telemetry drone b
                   channel in
  let channel := _consume_queue ("video." +:+ did) _on_video drone b channel in
  let channel := _consume_queue ("alerts." +:+ did) _on_alert drone b channel in
  let gui_cmd_queue := "gui." +:+ uuid_str (gui_token drone) +:+ ".commands" in
  _consume_queue gui_cmd_queue _on_gui_command drone b channel.

(** The loop of [setup] over the drones of its query, in the query's
    order. *)
Definition setup (drones : list Drone) (b : Broker.State)
    (channel : list Consumer) : list Consumer :=
  fold_left (λ channel drone, _bind_drone drone b channel) drones channel.

End ConsumerSetup.

(** Some queue [exch]/[key] is routed to has a consumer with this callback
    and drone. *)
Definition consumed_by (b : Broker.State) (channel : list ConsumerSetup.Consumer)
    (exch key : string) (callback : ConsumerSetup.Callback) (drone : Drone)
  : Prop :=
  ∃ q, q ∈ Broker.route b exch key ∧
       ConsumerSetup.mkConsumer q callback drone ∈ channel.

(** An entry of [setup_drone_topics] is in place: its queue exists with the
    entry's properties and is bound as the entry says. *)
Definition in_place (b : Broker.State) (e : TopicSetup.Entry) : Prop :=
  Broker.lookup (TopicSetup.queue_name e) (Broker.queues b) =
    Some (TopicSetup.props e) ∧
  TopicSetup.binding e ∈ Broker.bindings b.

(** Everything [setup_drone_topics] declares for a drone. *)
Definition drone_entries (drone : Drone) : list TopicSetup.Entry :=
  TopicSetup.drone_queues drone ++ TopicSetup.gui_queues drone ++
  [TopicSetup.gui_cmd drone].

(** The four registrations [_bind_drone] makes. *)
Definition drone_consumers (drone : Drone) : list ConsumerSetup.Consumer :=
  [ConsumerSetup.mkConsumer ("telemetry." +:+ drone_id drone)
     ConsumerSetup._on_telemetry drone;
   ConsumerSetup.mkConsumer ("video." +:+ drone_id drone)
     ConsumerSetup._on_video drone;
   ConsumerSetup.mkConsumer ("alerts." +:+ drone_id drone)
     ConsumerSetup._on_alert drone;
   ConsumerSetup.mkConsumer
     ("gui." +:+ uuid_str (gui_token drone) +:+ ".commands")
     ConsumerSetup._on_gui_command drone].

(** * Properties *)

(** ** Symbolic execution of the monad *)

Ltac unfold_m :=
  unfold mbind, M_bind, mret, M_ret, gets, modify, lift, raise, try_except,
    now, uuid4, exec, eval in *.

Section handlers.
Context `{Ext : Externals}.

(** C5: a body that is not valid JSON is negatively acknowledged without
    requeue by each of the four handlers (telemetry, video, alert,
    GUI command), and nothing else in the world changes: no log entry, no
    session or drone write, no publish, no dispatcher change. *)
Theorem malformed_body_is_nacked (tag : nat) (body : string) (drone : Drone)
    (w : World) :
  json_loads body = None →
  let nacked := (Ok tt, set_acks (λ l, l ++ [basic_nack tag false]) w) in
  UnifiedConsumer._on_telemetry tag body drone w = nacked ∧
  UnifiedConsumer._on_video tag body drone w = nacked ∧
  UnifiedConsumer._on_alert tag body drone w = nacked ∧
  UnifiedConsumer._on_gui_command tag body drone w = nacked.
Proof.
  intros Hbad nacked. subst nacked.
  unfold UnifiedConsumer._on_telemetry, UnifiedConsumer._on_video,
    UnifiedConsumer._on_alert, UnifiedConsumer._on_gui_command,
    UnifiedConsumer.loads, UnifiedConsumer.nack.
  unfold_m. rewrite Hbad. simpl. auto.
Qed.

End handlers.

(** The garbage body of the demo is rejected by all four handlers. *)
Lemma malformed_body_is_nacked_witness :
  json_loads Demo.body_garbage = None ∧
  UnifiedConsumer._on_video 3 Demo.body_garbage Demo.d01 Demo.w_scanning =
    (Ok tt, set_acks (λ l, l ++ [basic_nack 3 false]) Demo.w_scanning).
Proof.
  split; [reflexivity |].
  apply (malformed_body_is_nacked 3 Demo.body_garbage Demo.d01 Demo.w_scanning).
  reflexivity.
Defined.

(** ** Topic names *)

(** C9: the [save] hook derives the four topics from the drone identifier
    alone, as [drone.<id>.<kind>], when the telemetry topic is still empty,
    and is the identity on a record whose telemetry topic is set; hence
    running it twice is the same as running it once, and an UPDATE of any
    column set never touches the stored topics. *)
Theorem topics_derived_once (d : Drone) :
  (if String.eqb (telemetry_topic d) ""
   then Drone_topics (Drone_fill_topics d) = derived_topics (drone_id d)
   else Drone_fill_topics d = d) ∧
  Drone_fill_topics (Drone_fill_topics d) = Drone_fill_topics d ∧
  (∀ fs o, Drone_topics (Drone_write fs o d) = Drone_topics d).
Proof.
  split; [| split].
  - unfold Drone_fill_topics.
    destruct (String.eqb (telemetry_topic d) ""); [| reflexivity].
    unfold Drone_topics, derived_topics, topic_name. simpl. reflexivity.
  - unfold Drone_fill_topics at 2.
    destruct (String.eqb (telemetry_topic d) "") eqn:E.
    + unfold Drone_fill_topics. simpl. rewrite E. reflexivity.
    + unfold Drone_fill_topics. rewrite E. reflexivity.
  - intros fs o. reflexivity.
Qed.

(** ** Re-registration *)

Lemma existsb_head_filter (did : string) (rows : list Drone) (ex : Drone) :
  head (Drone_filter_id did rows) = Some ex →
  existsb (λ r, d_id r =? d_id ex)%nat rows = true.
Proof.
  intros Hhead. apply existsb_exists. exists ex. split.
  - assert (Hin : ex ∈ Drone_filter_id did rows).
    { destruct (Drone_filter_id did rows); simplify_eq/=. left. }
    apply list_elem_of_In. unfold Drone_filter_id in Hin.
    apply list_elem_of_filter in Hin. tauto.
  - apply Nat.eqb_refl.
Qed.

Lemma fill_topics_pk (d : Drone) : d_id (Drone_fill_topics d) = d_id d.
Proof. unfold Drone_fill_topics. destruct (String.eqb _ _); reflexivity. Qed.

(** C10, amended: registering an existing drone id creates no record and
    returns [created = false]; on the stored record it sets [is_active],
    [last_seen] and also [updated_at]; every other column (the GUI token and
    the four topic names among them) keeps its value, other rows keep all of
    theirs, and no session or log row is written. *)
Theorem register_existing_touches_liveness_only
    (did name model : string) (ex : Drone) (w : World) :
  head (Drone_filter_id did (drones w)) = Some ex →
  let w' := exec (DroneService.register did name model) w in
  (∃ o, eval (DroneService.register did name model) w = Ok (o, false) ∧
        d_id o = d_id ex ∧ gui_token o = gui_token ex) ∧
  Forall2 (λ row row',
      same_but_liveness row row' ∧
      (if (d_id row =? d_id ex)%nat
       then d_is_active row' = true ∧ last_seen row' = Some (clock w) ∧
            updated_at row' = S (clock w)
       else row' = row))
    (drones w) (drones w') ∧
  sessions w' = sessions w ∧ logs w' = logs w.
Proof.
  intros Hhead w'. subst w'.
  pose proof (existsb_head_filter _ _ _ Hhead) as Hex.
  unfold DroneService.register, Drone_save_fields. unfold_m.
  rewrite Hhead. simpl.
  rewrite !fill_topics_pk. simpl. rewrite Hex. simpl.
  split; [eexists; split; [reflexivity |] |].
  { unfold Drone_fill_topics. simpl. destruct (String.eqb _ _); auto. }
  split; [| split; reflexivity].
  clear Hhead Hex.
  induction (drones w) as [| row rows IH]; simpl; constructor; [| exact IH].
  destruct (d_id row =? d_id ex)%nat eqn:E.
  - unfold same_but_liveness, same_identity, Drone_write, Drone_fill_topics.
    simpl. destruct (String.eqb _ _); simpl; repeat split; reflexivity.
  - unfold same_but_liveness, same_identity. repeat split; reflexivity.
Qed.

(** Re-registering "D-01" in the demo world. *)
Lemma register_existing_touches_liveness_only_witness :
  head (Drone_filter_id "D-01" (drones Demo.w0)) = Some Demo.d01 ∧
  logs (exec (DroneService.register "D-01" "Scout" "X4") Demo.w0) = [].
Proof.
  split; [reflexivity |].
  apply (register_existing_touches_liveness_only "D-01" "Scout" "X4"
           Demo.d01 Demo.w0).
  reflexivity.
Defined.

(** C10 as stated fails: re-registration also rewrites [updated_at].  In the
    demo world the stored value goes from 1 to 6 while the call reports
    [created = false]. *)
Lemma register_existing_rewrites_updated_at :
  updated_at <$> drones Demo.w0 = [1] ∧
  updated_at <$> drones (exec (DroneService.register "D-01" "Scout" "X4") Demo.w0)
    = [6] ∧
  snd <$> match eval (DroneService.register "D-01" "Scout" "X4") Demo.w0 with
          | Ok r => Some r
          | Raise _ => None
          end = Some false.
Proof. vm_compute. auto. Qed.

(** ** Frame counting *)

Lemma record_frame_quiet (s : ScanSession) (w : World) :
  stored (s_id s) w = true →
  ScanService.record_frame s false false w =
    (Ok (ScanSession_add 1 0 0 s),
     set_sessions (fmap (λ r, if (s_id r =? s_id s)%nat
       then ScanSession_write [F_total_frames_processed] (ScanSession_add 1 0 0 s) r
       else r)) w).
Proof.
  unfold stored. intros Hrow.
  unfold ScanService.record_frame, ScanSession_save_fields. unfold_m.
  simpl. rewrite Hrow. reflexivity.
Qed.

Lemma existsb_fmap_pk (f : ScanSession → ScanSession) (pk : nat)
    (rows : list ScanSession) :
  (∀ r, s_id (f r) = s_id r) →
  existsb (λ r, s_id r =? pk)%nat (f <$> rows) =
  existsb (λ r, s_id r =? pk)%nat rows.
Proof.
  intros Hpk. induction rows as [| r rows IH]; simpl; [reflexivity |].
  rewrite Hpk. f_equal. exact IH.
Qed.

(** C8: [n] calls of [record_frame(session, False, False)] on a stored
    session all succeed, leave the session object with
    [total_frames_processed] increased by exactly [n] and with unchanged
    fire and smoke counters, and write the same to its row: the stored frame
    counter becomes the object's, the stored fire and smoke counters and all
    other rows stay as they were. *)
Theorem record_frame_counts_frames_only (n : nat) (s : ScanSession) (w : World) :
  stored (s_id s) w = true →
  ∃ s',
    eval (record_frames n s) w = Ok s' ∧
    total_frames_processed s' = (total_frames_processed s + Z.of_nat n)%Z ∧
    fire_detections s' = fire_detections s ∧
    smoke_detections s' = smoke_detections s ∧
    Forall2 (counted s n) (sessions w) (sessions (exec (record_frames n s) w)).
Proof.
  revert s w. induction n as [| n IH]; intros s w Hrow.
  - exists s. simpl. unfold_m. simpl.
    repeat split; try lia.
    induction (sessions w) as [| r rows IHr]; constructor; [| exact IHr].
    unfold counted. rewrite andb_false_r. repeat split; reflexivity.
  - cbn [record_frames]. unfold eval, exec, mbind, M_bind.
    rewrite (record_frame_quiet s w Hrow).
    set (s1 := ScanSession_add 1 0 0 s).
    set (w1 := set_sessions _ w).
    assert (Hrow1 : stored (s_id s1) w1 = true).
    { unfold stored, w1. simpl. rewrite existsb_fmap_pk; [exact Hrow |].
      intros r. destruct (s_id r =? s_id s)%nat; reflexivity. }
    destruct (IH s1 w1 Hrow1) as (s' & Hev & Htot & Hfire & Hsmoke & Hrows).
    exists s'. unfold eval, exec in *.
    split; [exact Hev |].
    split; [rewrite Htot; unfold s1; simpl; lia |].
    split; [rewrite Hfire; unfold s1; simpl; lia |].
    split; [rewrite Hsmoke; unfold s1; simpl; lia |].
    revert Hrows. unfold w1 at 1. simpl.
    generalize (sessions (record_frames n s1 w1).2). 
    induction (sessions w) as [| r rows IHr]; intros l Hl.
    + inversion Hl. constructor.
    + simpl in Hl. inversion Hl as [| r1 r' rows1 l' Hc Hrest]; subst.
      constructor; [| apply IHr; exact Hrest].
      clear IHr Hrest Hl. unfold counted in *.
      destruct Hc as (H1 & H2 & H3 & H4 & H5 & H6 & H7 & H8 & H9).
      change (s_id s1) with (s_id s) in H9.
      destruct (s_id r =? s_id s)%nat eqn:E; simpl in *.
      * rewrite E in H9. simpl in H9.
        repeat split; try assumption.
        rewrite H9. destruct (n =? 0)%nat eqn:En; simpl.
        -- apply Nat.eqb_eq in En. subst n. lia.
        -- lia.
      * rewrite E in H9. simpl in H9. repeat split; assumption.
Qed.

(** Three quiet frames on the session that Scenario B opened. *)
Lemma record_frame_counts_frames_only_witness :
  stored 1 Demo.w_scanning = true ∧
  ∃ s', eval (record_frames 3 (mkScanSession 1 500 1 true 6 None 0 0 0))
          Demo.w_scanning = Ok s' ∧
        total_frames_processed s' = 3%Z.
Proof.
  split; [reflexivity |].
  destruct (record_frame_counts_frames_only 3
              (mkScanSession 1 500 1 true 6 None 0 0 0) Demo.w_scanning)
    as (s' & Hev & Htot & _); [reflexivity |].
  exists s'. split; [exact Hev | exact Htot].
Defined.

(** ** The GUI publish helper *)

Lemma has_singleton (s t : string) : has s [t] = String.eqb s t.
Proof.
  unfold has. destruct (String.eqb s t) eqn:E.
  - apply String.eqb_eq in E. subst. apply bool_decide_eq_true. left.
  - apply String.eqb_neq in E. apply bool_decide_eq_false.
    intros Hin. apply list_elem_of_singleton in Hin. contradiction.
Qed.

Section publish.
Context `{Ext : Externals}.

Lemma publish_gui_run (did mt : string) (payload : pyval) (w : World) :
  UnifiedConsumer._publish_gui did mt payload w =
    (Ok tt, if pub_open w
            then set_published (λ l, l ++ [gui_message did mt payload]) w
            else w).
Proof.
  unfold UnifiedConsumer._publish_gui, UnifiedConsumer.pub_basic_publish,
    gui_message.
  unfold_m. rewrite has_singleton.
  destruct (pub_open w); [| reflexivity].
  destruct (String.eqb mt "video"); reflexivity.
Qed.

(** C3: the router's GUI-publish helper hands the broker exactly one message
    (none when the publish channel is down, the failure being swallowed);
    its routing key is [gui.<droneId>.<messageType>], its delivery mode is
    transient (1) if and only if the type is "video", and persistent (2) for
    every other type. *)
Theorem gui_publish_key_and_durability (did mt : string) (payload : pyval)
    (w : World) :
  let m := gui_message did mt payload in
  published (exec (UnifiedConsumer._publish_gui did mt payload) w) =
    published w ++ (if pub_open w then [m] else []) ∧
  exchange m = "drone.gui" ∧
  routing_key m = "gui." +:+ did +:+ "." +:+ mt ∧
  (delivery_mode m = 1%Z ↔ mt = "video") ∧
  (delivery_mode m = 2%Z ↔ mt ≠ "video").
Proof.
  intros m. unfold exec. rewrite publish_gui_run. subst m.
  split; [| split; [reflexivity | split; [reflexivity |]]].
  - destruct (pub_open w); simpl; [reflexivity | rewrite app_nil_r; reflexivity].
  - unfold gui_message. simpl.
    destruct (String.eqb mt "video") eqn:E.
    + apply String.eqb_eq in E. split; split; intros; congruence.
    + apply String.eqb_neq in E. split; split; intros; congruence.
Qed.

End publish.

(** ** Scenario C *)

(** C1, evaluated: drone "D-01" has the active session opened by START_SCAN
    and sends a frame in which the model sees one fire with confidence 0.82.
    The session counters go from 0 to 1 frame and 0 to 1 fire, one detection
    message and one DETECTION_ALERT are published, but two FIRE_DETECTED log
    entries carrying 0.82 are created: one by the detector's own
    [_log_detection], one by the consumer's. *)
Theorem fire_frame_is_logged_twice :
  let w := Demo.w_scanning in
  let w' := exec (UnifiedConsumer._on_video 2
                    (Demo.body_video Demo.frame_fire) Demo.d01) w in
  let new_logs := drop (length (logs w)) (logs w') in
  let new_msgs := drop (length (published w)) (published w') in
  (log_type <$> new_logs) = [LogType.FIRE_DETECTED; LogType.FIRE_DETECTED] ∧
  (confidence <$> new_logs) = [Some 0.82%float; Some 0.82%float] ∧
  (message <$> new_logs) =
    ["FIRE TESPİT EDİLDİ! Güven: 82.00%";
     "🔥 FIRE TESPİT EDİLDİ! Güven: 82.00%"] ∧
  length (filter (λ e, is_log_type LogType.FIRE_DETECTED e = true) new_logs) = 2 ∧
  (routing_key <$> new_msgs) =
    ["gui.D-01.video"; "gui.D-01.detection"; "gui.D-01.alerts"] ∧
  (total_frames_processed <$> sessions w) = [0%Z] ∧
  (total_frames_processed <$> sessions w') = [1%Z] ∧
  (fire_detections <$> sessions w) = [0%Z] ∧
  (fire_detections <$> sessions w') = [1%Z] ∧
  acks w' = acks w ++ [basic_ack 2].
Proof. vm_compute. repeat split; reflexivity. Qed.

(** ** Starting scans *)

Lemma filter_id_fmap (did : string) (f : Drone → Drone) (rows : list Drone) :
  (∀ r, drone_id (f r) = drone_id r) →
  Drone_filter_id did (f <$> rows) = f <$> Drone_filter_id did rows.
Proof.
  intros Hid. unfold Drone_filter_id.
  induction rows as [| r rows IH]; [reflexivity |].
  rewrite fmap_cons, !filter_cons, Hid.
  destruct (decide (drone_id r = did)); rewrite IH; reflexivity.
Qed.

Lemma filter_id_pk_stored (did : string) (rows : list Drone) (d : Drone) :
  Drone_filter_id did rows = [d] →
  existsb (λ r, d_id r =? d_id d)%nat rows = true.
Proof.
  intros Hone. apply existsb_head_filter with (did := did).
  rewrite Hone. reflexivity.
Qed.

Lemma active_of_pk (d d' : Drone) (s : ScanSession) :
  d_id d' = d_id d → active_of d' s = active_of d s.
Proof. unfold active_of. intros ->. reflexivity. Qed.

(** One [start] on a registered drone, run symbolically. *)
Lemma start_run (did : string) (d : Drone) (w : World) :
  Drone_filter_id did (drones w) = [d] →
  ∃ new w',
    ScanService.start did w = (Ok new, w') ∧
    sessions w' = (close_active d (clock w) <$> sessions w) ++ [new] ∧
    active_of d new = true ∧
    ∃ d', Drone_filter_id did (drones w') = [d'] ∧ d_id d' = d_id d.
Proof.
  intros Hone. pose proof (filter_id_pk_stored _ _ _ Hone) as Hpk.
  unfold ScanService.start, DroneService.get_by_id, DroneService.update_status,
    LogService.log_drone_event, LogService.create, LogEntry_create,
    ScanSession_create, Drone_save_fields.
  unfold_m. rewrite Hone. simpl.
  rewrite !fill_topics_pk. simpl. rewrite Hpk. simpl.
  eexists. eexists. split; [reflexivity |]. simpl.
  split; [reflexivity |].
  split; [unfold active_of; simpl; rewrite Nat.eqb_refl; reflexivity |].
  rewrite filter_id_fmap.
  - rewrite Hone. simpl. eexists. split; [reflexivity |].
    rewrite Nat.eqb_refl. reflexivity.
  - intros r. destruct (d_id r =? d_id d)%nat; reflexivity.
Qed.

Lemma close_active_inactive (d : Drone) (t : datetime) (s : ScanSession) :
  active_of d (close_active d t s) = false.
Proof.
  unfold close_active. destruct (active_of d s) eqn:E; [| exact E].
  unfold active_of, ScanSession_close. simpl. apply andb_false_r.
Qed.

Lemma no_active_after_close (d : Drone) (t : datetime)
    (rows : list ScanSession) :
  active_sessions_of d (close_active d t <$> rows) = [].
Proof.
  unfold active_sessions_of.
  induction rows as [| r rows IH]; [reflexivity |].
  rewrite fmap_cons, filter_cons, IH.
  destruct (decide _) as [Hact |]; [| reflexivity].
  rewrite close_active_inactive in Hact. discriminate.
Qed.

(** The drone stays registered, under the same primary key, along any
    sequence of starts. *)
Lemma start_seq_registered (did : string) (drone : Drone) (w : World) (n : nat) :
  Drone_filter_id did (drones w) = [drone] →
  ∃ d, Drone_filter_id did (drones (start_seq n did w)) = [d] ∧
       d_id d = d_id drone.
Proof.
  intros Hone. induction n as [| n (d & Hd & Hpk)].
  - exists drone. split; [exact Hone | reflexivity].
  - destruct (start_run did d _ Hd) as (new & w' & Hrun & _ & _ & d' & Hd' & Hpk').
    exists d'. simpl. unfold exec. rewrite Hrun. simpl.
    split; [exact Hd' | congruence].
Qed.

(** What one more start does to the session table. *)
Lemma start_seq_step (did : string) (drone : Drone) (w : World) (n : nat) :
  Drone_filter_id did (drones w) = [drone] →
  ∃ new t,
    eval (ScanService.start did) (start_seq n did w) = Ok new ∧
    sessions (start_seq (S n) did w) =
      (close_active drone t <$> sessions (start_seq n did w)) ++ [new] ∧
    active_of drone new = true.
Proof.
  intros Hone.
  destruct (start_seq_registered did drone w n Hone) as (d & Hd & Hpk).
  destruct (start_run did d _ Hd) as (new & w' & Hrun & Hrows & Hact & _).
  exists new, (clock (start_seq n did w)).
  simpl. unfold eval, exec. rewrite Hrun. simpl.
  split; [reflexivity |]. split.
  - rewrite Hrows. f_equal. apply list_fmap_ext. intros i s _.
    unfold close_active. rewrite (active_of_pk drone d s Hpk). reflexivity.
  - rewrite <- (active_of_pk drone d new Hpk). exact Hact.
Qed.

Lemma superseded_stays (did : string) (drone : Drone) (w : World)
    (k m i : nat) (s0 s1 : ScanSession) :
  Drone_filter_id did (drones w) = [drone] →
  sessions (start_seq k did w) !! i = Some s1 →
  superseded s0 s1 →
  ∃ s2, sessions (start_seq (m + k) did w) !! i = Some s2 ∧ superseded s0 s2.
Proof.
  intros Hone Hrow Hsup. induction m as [| m (s2 & Hrow2 & Hsup2)].
  - exists s1. split; assumption.
  - destruct (start_seq_step did drone w (m + k) Hone) as (new & t & _ & Hrows & _).
    exists s2. split; [| exact Hsup2].
    change (S m + k) with (S (m + k)). rewrite Hrows.
    rewrite lookup_app_l.
    + rewrite list_lookup_fmap, Hrow2. simpl. f_equal.
      unfold close_active, active_of.
      destruct Hsup2 as (_ & _ & _ & Hoff & _). rewrite Hoff, andb_false_r.
      reflexivity.
    + rewrite length_fmap. apply lookup_lt_Some in Hrow2. exact Hrow2.
Qed.

(** C2: for a registered drone, every call in a run of consecutive
    [startSession] calls succeeds; after the last of [n + 1] calls the
    registry's active sessions for the drone are exactly the one session
    that call returned, and every row that was active for the drone at any
    earlier point of the run (initially, or created by an earlier call) is
    the same row, inactive, with an end timestamp. *)
Theorem start_keeps_single_active_session (did : string) (drone : Drone)
    (w : World) (n : nat) :
  Drone_filter_id did (drones w) = [drone] →
  (∃ s, eval (ScanService.start did) (start_seq n did w) = Ok s ∧
        active_sessions_of drone (sessions (start_seq (S n) did w)) = [s] ∧
        is_active s = true) ∧
  (∀ (k i : nat) s0, (k ≤ n)%nat →
     sessions (start_seq k did w) !! i = Some s0 →
     active_of drone s0 = true →
     ∃ s1, sessions (start_seq (S n) did w) !! i = Some s1 ∧ superseded s0 s1).
Proof.
  intros Hone. split.
  - destruct (start_seq_step did drone w n Hone) as (new & t & Hev & Hrows & Hact).
    exists new. split; [exact Hev |]. split.
    + rewrite Hrows. unfold active_sessions_of.
      rewrite filter_app. fold (active_sessions_of drone
        (close_active drone t <$> sessions (start_seq n did w))).
      rewrite no_active_after_close. simpl.
      rewrite filter_cons, filter_nil.
      destruct (decide _) as [| Hno]; [reflexivity | contradiction].
    + unfold active_of in Hact. apply andb_true_iff in Hact. tauto.
  - intros k i s0 Hk Hrow Hact.
    destruct (start_seq_step did drone w k Hone) as (new & t & _ & Hrows & _).
    assert (Hnext : sessions (start_seq (S k) did w) !! i =
                    Some (ScanSession_close t s0)).
    { rewrite Hrows, lookup_app_l.
      - rewrite list_lookup_fmap, Hrow. simpl. unfold close_active.
        rewrite Hact. reflexivity.
      - rewrite length_fmap. apply lookup_lt_Some in Hrow. exact Hrow. }
    assert (Hsup : superseded s0 (ScanSession_close t s0)).
    { unfold superseded, ScanSession_close. simpl. repeat split; congruence. }
    destruct (superseded_stays did drone w (S k) (n - k) i s0 _ Hone Hnext Hsup)
      as (s2 & Hrow2 & Hsup2).
    exists s2. split; [| exact Hsup2].
    replace (S n) with (n - k + S k) by lia. exact Hrow2.
Qed.

(** Two starts in a row for "D-01": the second supersedes the first. *)
Lemma start_keeps_single_active_session_witness :
  Drone_filter_id "D-01" (drones Demo.w0) = [Demo.d01] ∧
  ∃ s, eval (ScanService.start "D-01") (start_seq 1 "D-01" Demo.w0) = Ok s ∧
       active_sessions_of Demo.d01 (sessions (start_seq 2 "D-01" Demo.w0)) = [s] ∧
       is_active s = true.
Proof.
  split; [reflexivity |].
  apply (start_keeps_single_active_session "D-01" Demo.d01 Demo.w0 1).
  reflexivity.
Defined.

(** ** Stopping a scan *)

Lemma latest_elem (l : list ScanSession) (s : ScanSession) :
  latest l = Some s → s ∈ l.
Proof.
  revert s. induction l as [| a l IH]; intros s; simpl; [discriminate |].
  destruct (latest l) as [s' |].
  - destruct (started_at a <? started_at s')%nat; intros [= <-].
    + right. apply IH. reflexivity.
    + left.
  - intros [= <-]. left.
Qed.

Lemma active_session_stored (drone : Drone) (s : ScanSession) (w : World) :
  latest (active_sessions_of drone (sessions w)) = Some s →
  s ∈ sessions w ∧ active_of drone s = true ∧ stored (s_id s) w = true.
Proof.
  intros Hl. apply latest_elem in Hl. unfold active_sessions_of in Hl.
  apply list_elem_of_filter in Hl. destruct Hl as [Hact Hin].
  split; [exact Hin |]. split; [exact Hact |].
  unfold stored. apply existsb_exists. exists s.
  split; [apply list_elem_of_In; exact Hin | apply Nat.eqb_refl].
Qed.

Lemma pk_filter_stored (pk : nat) (rows : list Drone) (row : Drone) :
  filter (λ d, d_id d = pk) rows = [row] →
  d_id row = pk ∧ existsb (λ r, d_id r =? d_id row)%nat rows = true.
Proof.
  intros Hone.
  assert (Hin : row ∈ filter (λ d, d_id d = pk) rows) by (rewrite Hone; left).
  apply list_elem_of_filter in Hin. destruct Hin as [Hpk Hin].
  split; [exact Hpk |]. apply existsb_exists. exists row.
  split; [apply list_elem_of_In; exact Hin | apply Nat.eqb_refl].
Qed.

Section stop_scan.
Context `{Ext : Externals}.

(** C7: a STOP_SCAN command for a drone whose active session is [s1] closes
    [s1]'s row (inactive, end time set, counters untouched), sets the cached
    status of the session's drone to hovering, removes the dispatcher entry,
    publishes SCAN_STOPPED with [s1]'s frame, fire and smoke counters on the
    GUI status topic, forwards STOP_SCAN with [s1]'s session id on the
    drone's command topic, confirms with COMMAND_ACK and acknowledges the
    delivery. *)
Theorem stop_scan_closes_and_reports (tag : nat) (body : string)
    (drone row : Drone) (s1 : ScanSession) (kv : list (string * pyval))
    (w : World) :
  json_loads body = Some (PDict kv) →
  assoc "command" kv = Some (PStr "STOP_SCAN") →
  latest (active_sessions_of drone (sessions w)) = Some s1 →
  filter (λ d, d_id d = s_drone s1) (drones w) = [row] →
  pub_open w = true →
  broker_up w = true →
  let w' := exec (UnifiedConsumer._on_gui_command tag body drone) w in
  Forall2 (stopped s1 (clock w)) (sessions w) (sessions w') ∧
  Forall2 (landed (s_drone s1)) (drones w) (drones w') ∧
  active_sessions w' = delete (drone_id drone) (active_sessions w) ∧
  (∃ t1 t2 t3,
     published w' = published w ++
       [gui_message (drone_id drone) "status"
          (scan_stopped_event (drone_id drone) t1 s1);
        mkPublished Config.EXCHANGE_COMMANDS (command_topic drone)
          (stop_scan_command (drone_id drone) t2 s1) 2 "application/json";
        gui_message (drone_id drone) "status"
          (command_ack_event (drone_id drone) t3 (PStr "STOP_SCAN"))]) ∧
  acks w' = acks w ++ [basic_ack tag].
Proof.
  intros Hparse Hcmd Hact Hfk Hopen Hup w'. subst w'.
  destruct (active_session_stored _ _ _ Hact) as (Hin & Hactive & Hstored).
  destruct (pk_filter_stored _ _ _ Hfk) as (Hrowpk & Hrowstored).
  unfold stored in Hstored.
  unfold UnifiedConsumer._on_gui_command, UnifiedConsumer.loads,
    UnifiedConsumer._handle_stop_scan, UnifiedConsumer.ack,
    active_session_for, ScanService.stop, ScanService.session_drone,
    ScanSession_save_fields, DroneService.update_status, Drone_save_fields,
    LogService.log_drone_event, LogService.create, LogEntry_create,
    DetectionService.stop_detection, RabbitMQManager.with_manager,
    RabbitMQManager.send_command, RabbitMQManager._ts,
    RabbitMQManager._publish, py_get.
  unfold_m. rewrite Hparse. simpl. rewrite Hcmd. simpl.
  rewrite Hact. simpl. rewrite Hstored. simpl. rewrite Hfk. simpl.
  rewrite !fill_topics_pk. simpl. rewrite Hrowstored. simpl.
  rewrite !publish_gui_run. simpl. rewrite Hopen. simpl. rewrite Hup. simpl.
  rewrite !publish_gui_run. simpl. rewrite Hopen. simpl.
  split; [| split; [| split; [reflexivity | split; [| reflexivity]]]].
  - clear. induction (sessions w) as [| r rows IH]; simpl; constructor;
      [| exact IH].
    unfold stopped. destruct (s_id r =? s_id s1)%nat; [| reflexivity].
    simpl. repeat split; reflexivity.
  - rewrite Hrowpk. clear.
    induction (drones w) as [| r rows IH]; simpl; constructor; [| exact IH].
    unfold landed. destruct (d_id r =? s_drone s1)%nat; [| reflexivity].
    unfold same_identity, Drone_write, Drone_fill_topics. simpl.
    destruct (String.eqb _ _); simpl; repeat split; eauto.
  - eexists _, _, _. rewrite <- !app_assoc. reflexivity.
Qed.

End stop_scan.

(** STOP_SCAN for "D-01" right after Scenario B. *)
Lemma stop_scan_closes_and_reports_witness :
  json_loads (Demo.body_command "STOP_SCAN") =
    Some (PDict [("command", PStr "STOP_SCAN")]) ∧
  acks (exec (UnifiedConsumer._on_gui_command 4 (Demo.body_command "STOP_SCAN")
                Demo.d01) Demo.w_scanning) =
    acks Demo.w_scanning ++ [basic_ack 4].
Proof.
  split; [reflexivity |].
  apply (stop_scan_closes_and_reports 4 (Demo.body_command "STOP_SCAN")
           Demo.d01
           (mkDrone 1 "D-01" "Scout" "X4" 100
              "drone.D-01.telemetry" "drone.D-01.commands"
              "drone.D-01.video" "drone.D-01.alerts"
              DroneStatus.SCANNING (Some 7) true 1 8)
           (mkScanSession 1 500 1 true 6 None 0 0 0)
           [("command", PStr "STOP_SCAN")] Demo.w_scanning);
    reflexivity.
Defined.

(** ** A model that raises *)

Section model_raises.
Context `{Ext : Externals}.

(** C6, amended: when the model raises on a frame of a drone with an active
    session and an active dispatcher entry, the detector turns the exception
    into an error result, which the router does observe: it publishes the
    raw frame tagged [scanning: true], acknowledges the delivery, writes no
    log entry, leaves the fire and smoke counters as they were and counts
    the frame: [total_frames_processed] grows by exactly 1. *)
Theorem model_exception_counts_the_frame (tag : nat) (body : string)
    (drone : Drone) (s : ScanSession) (entry : DispatchEntry)
    (kv : list (string * pyval)) (frame_data : pyval) (fr : Image + pyval)
    (w : World) :
  json_loads body = Some (PDict kv) →
  assoc "data" kv = Some frame_data →
  truthy frame_data = true →
  latest (active_sessions_of drone (sessions w)) = Some s →
  active_sessions w !! drone_id drone = Some entry →
  e_is_active entry = true →
  load_model = true →
  FireSmokeDetector.as_frame frame_data = Some fr →
  infer fr = None →
  let w' := exec (UnifiedConsumer._on_video tag body drone) w in
  eval (DetectionService.process_frame (drone_id drone) frame_data) w =
    Ok (FireSmokeDetector.error_result (exn_str InferenceError)) ∧
  acks w' = acks w ++ [basic_ack tag] ∧
  logs w' = logs w ∧
  Forall2 (counted s 1) (sessions w) (sessions w') ∧
  published w' = published w ++
    (if pub_open w
     then [gui_message (drone_id drone) "video"
             (UnifiedConsumer.video_frame
                (default (PStr (isoformat (clock w))) (assoc "timestamp" kv))
                (drone_id drone)
                (default (PInt 0) (assoc "frame_number" kv))
                frame_data true)]
     else []).
Proof.
  intros Hparse Hdata Htruthy Hact Hentry Hon Hload Hframe Hraise w'. subst w'.
  destruct (active_session_stored _ _ _ Hact) as (Hin & Hactive & Hstored).
  unfold stored in Hstored.
  unfold UnifiedConsumer._on_video, UnifiedConsumer.loads,
    UnifiedConsumer._update_session_stats, UnifiedConsumer.ack,
    active_session_for, ScanSession_save_fields,
    DetectionService.process_frame, DetectionService.is_active,
    FireSmokeDetector.process_video_frame, FireSmokeDetector.detect,
    flag, of_option, py_get.
  unfold_m. rewrite Hparse. simpl. rewrite Hdata. simpl. rewrite Htruthy. simpl.
  rewrite Hact. simpl. rewrite Hentry. simpl. rewrite Hon. simpl.
  rewrite Hload. simpl. rewrite Hframe. simpl. rewrite Hraise. simpl.
  rewrite !Hentry. simpl. rewrite !publish_gui_run. simpl.
  destruct (pub_open w); simpl; rewrite Hstored; simpl;
    (split; [reflexivity |]); (split; [reflexivity |]);
    (split; [reflexivity |]); (split; [| rewrite ?app_nil_r; reflexivity]).
  all: clear; induction (sessions w) as [| r rows IH]; simpl;
    [constructor | constructor; [| exact IH]].
  all: unfold counted; rewrite andb_true_r;
    destruct (s_id r =? s_id s)%nat; simpl; repeat split; lia.
Qed.

End model_raises.

(** The demo's crashing frame while "D-01" is scanning. *)
Lemma model_exception_counts_the_frame_witness :
  json_loads (Demo.body_video Demo.frame_crash) =
    Some (Demo.parsed_video Demo.frame_crash) ∧
  logs (exec (UnifiedConsumer._on_video 2 (Demo.body_video Demo.frame_crash)
                Demo.d01) Demo.w_scanning) = logs Demo.w_scanning.
Proof.
  split; [reflexivity |].
  apply (model_exception_counts_the_frame 2 (Demo.body_video Demo.frame_crash)
           Demo.d01 (mkScanSession 1 500 1 true 6 None 0 0 0)
           (mkDispatchEntry "uuid-500" true 0)
           [("type", PStr "VIDEO_FRAME"); ("frame_number", PInt 7);
            ("data", PStr Demo.frame_crash)]
           (PStr Demo.frame_crash)
           (inl (Demo.frame_crash : @Image Demo.ext)) Demo.w_scanning);
    reflexivity.
Defined.

(** C6 as stated fails: in the demo world the model raises on the frame,
    yet the dispatcher hands the router a (truthy) error result, the
    delivery is acknowledged rather than dropped, and the stored frame
    counter of the active session goes from 0 to 1. *)
Lemma model_exception_is_observed_and_counted :
  let w := Demo.w_scanning in
  let w' := exec (UnifiedConsumer._on_video 2
                    (Demo.body_video Demo.frame_crash) Demo.d01) w in
  infer (inl (Demo.frame_crash : @Image Demo.ext)) = None ∧
  eval (DetectionService.process_frame "D-01" (PStr Demo.frame_crash)) w =
    Ok (PDict [("detections", PList []); ("error", PStr "InferenceError")]) ∧
  truthy (PDict [("detections", PList []); ("error", PStr "InferenceError")])
    = true ∧
  (total_frames_processed <$> sessions w) = [0%Z] ∧
  (total_frames_processed <$> sessions w') = [1%Z] ∧
  acks w' = acks w ++ [basic_ack 2].
Proof. vm_compute. repeat split; reflexivity. Qed.

(** ** What a computation may publish *)

Section quiet.
Context {P : Published → Prop}.

Lemma quiet_same {A} (m : M A) :
  (∀ w, pub_open (m w).2 = pub_open w ∧ published (m w).2 = published w) →
  quiet P m.
Proof.
  intros H w. destruct (H w) as [Ho Hp]. split; [exact Ho |].
  exists []. rewrite app_nil_r. split; [exact Hp | constructor].
Qed.

Lemma quiet_ret {A} (a : A) : quiet P (mret a).
Proof. apply quiet_same. intros w. split; reflexivity. Qed.

Lemma quiet_raise {A} (e : exn) : quiet P (@raise A e).
Proof. apply quiet_same. intros w. split; reflexivity. Qed.

Lemma quiet_lift {A} (r : result A) : quiet P (lift r).
Proof. apply quiet_same. intros w. split; reflexivity. Qed.

Lemma quiet_gets {A} (f : World → A) : quiet P (gets f).
Proof. apply quiet_same. intros w. split; reflexivity. Qed.

Lemma quiet_now : quiet P now.
Proof. apply quiet_same. intros w. split; reflexivity. Qed.

Lemma quiet_modify (f : World → World) :
  (∀ w, pub_open (f w) = pub_open w ∧ published (f w) = published w) →
  quiet P (modify f).
Proof. intros H. apply quiet_same. exact H. Qed.

Lemma quiet_then (w w1 w2 : World) :
  (pub_open w1 = pub_open w ∧
   ∃ l, published w1 = published w ++ l ∧ Forall P l) →
  (pub_open w2 = pub_open w1 ∧
   ∃ l, published w2 = published w1 ++ l ∧ Forall P l) →
  pub_open w2 = pub_open w ∧
  ∃ l, published w2 = published w ++ l ∧ Forall P l.
Proof.
  intros (Ho1 & l1 & Hp1 & Hl1) (Ho2 & l2 & Hp2 & Hl2).
  split; [congruence |]. exists (l1 ++ l2).
  rewrite Hp2, Hp1, app_assoc. split; [reflexivity |].
  apply Forall_app. split; assumption.
Qed.

Lemma quiet_bind {A B} (m : M A) (f : A → M B) :
  quiet P m → (∀ a, quiet P (f a)) → quiet P (m ≫= f).
Proof.
  intros Hm Hf w. unfold mbind, M_bind.
  specialize (Hm w). destruct (m w) as [[a | e] w1]; simpl in Hm.
  - apply (quiet_then w w1); [exact Hm | apply Hf].
  - exact Hm.
Qed.

Lemma quiet_try {A} (m : M A) (h : exn → M A) :
  quiet P m → (∀ e, quiet P (h e)) → quiet P (try_except m h).
Proof.
  intros Hm Hh w. unfold try_except.
  specialize (Hm w). destruct (m w) as [[a | e] w1]; simpl in Hm.
  - exact Hm.
  - apply (quiet_then w w1); [exact Hm | apply Hh].
Qed.

Lemma quiet_for_each {A} (l : list A) (f : A → M unit) :
  (∀ x, quiet P (f x)) → quiet P (for_each l f).
Proof.
  intros Hf. induction l as [| x l IH]; simpl.
  - apply quiet_ret.
  - apply quiet_bind; [apply Hf | intros _; exact IH].
Qed.

End quiet.

(** Takes a computation apart along its binds, handlers and branches. *)
Ltac quiet_step :=
  lazymatch goal with
  | |- quiet _ (mret _) => apply quiet_ret
  | |- quiet _ (mbind _ _) => apply quiet_bind; [| intros]
  | |- quiet _ (try_except _ _) => apply quiet_try; [| intros]
  | |- quiet _ (raise _) => apply quiet_raise
  | |- quiet _ (lift _) => apply quiet_lift
  | |- quiet _ (gets _) => apply quiet_gets
  | |- quiet _ now => apply quiet_now
  | |- quiet _ (modify _) => apply quiet_modify; intros; split; reflexivity
  | |- quiet _ (for_each _ _) => apply quiet_for_each; intros
  | |- quiet _ (if ?b then _ else _) => destruct b
  | |- quiet _ (match ?x with _ => _ end) => destruct x
  | |- quiet _ _ => solve [eauto with quiet]
  end.
Ltac quiet_tac := repeat quiet_step.

Create HintDb quiet.

Lemma quiet_objects_get {P A} (missing : exn) (l : list A) :
  quiet P (objects_get missing l).
Proof. unfold objects_get. destruct l as [| x [| y l]]; quiet_tac. Qed.

Lemma quiet_flag {P} (result : pyval) (k : string) : quiet P (flag result k).
Proof. unfold flag. quiet_tac. Qed.

Lemma quiet_as_float {P} (v : pyval) : quiet P (as_float v).
Proof. unfold as_float. quiet_tac. Qed.

Lemma quiet_of_option {P A} (o : option A) : quiet P (of_option o).
Proof. unfold of_option. quiet_tac. Qed.

Lemma quiet_LogEntry_create {P} src msg ltype drone c dclass box :
  quiet P (LogEntry_create src msg ltype drone c dclass box).
Proof. unfold LogEntry_create. quiet_tac. Qed.

Lemma quiet_ScanSession_save {P} (o : ScanSession) :
  quiet P (ScanSession_save o).
Proof. unfold ScanSession_save. quiet_tac. Qed.

Lemma quiet_ScanSession_save_fields {P} fs (o : ScanSession) :
  quiet P (ScanSession_save_fields fs o).
Proof. unfold ScanSession_save_fields. quiet_tac. Qed.

#[global] Hint Resolve quiet_objects_get quiet_flag quiet_as_float
  quiet_of_option quiet_LogEntry_create quiet_ScanSession_save
  quiet_ScanSession_save_fields : quiet.

Section dispatcher_facts.
Context `{Ext : Externals}.

Lemma quiet_add_boxes {P} bs acc : quiet P (FireSmokeDetector.add_boxes bs acc).
Proof.
  revert acc. induction bs as [| b bs IH]; intros acc; simpl.
  - quiet_tac.
  - apply quiet_bind; [| intros; apply IH].
    unfold FireSmokeDetector.add_box. destruct acc as [[dets hf] hs].
    quiet_tac.
Qed.

Lemma quiet_add_results {P} rs acc :
  quiet P (FireSmokeDetector.add_results rs acc).
Proof.
  revert acc. induction rs as [| [bs |] rs IH]; intros acc; simpl.
  - quiet_tac.
  - apply quiet_bind; [apply quiet_add_boxes | intros; apply IH].
  - apply IH.
Qed.

Lemma quiet_detect {P} frame : quiet P (FireSmokeDetector.detect frame).
Proof.
  unfold FireSmokeDetector.detect.
  destruct (negb load_model); [quiet_tac |].
  destruct (FireSmokeDetector.as_frame frame); [| quiet_tac].
  apply quiet_try; [| intros; quiet_tac].
  apply quiet_bind; [quiet_tac |]. intros results.
  apply quiet_bind; [apply quiet_add_results |]. intros [[dets hf] hs].
  quiet_tac.
Qed.

Lemma quiet_detector_log {P} did result sid :
  quiet P (FireSmokeDetector._log_detection did result sid).
Proof.
  unfold FireSmokeDetector._log_detection. quiet_tac.
Qed.

Lemma quiet_process_video_frame {P} did frame sid :
  quiet P (FireSmokeDetector.process_video_frame did frame sid).
Proof.
  unfold FireSmokeDetector.process_video_frame.
  apply quiet_bind; [apply quiet_detect |]. intros result.
  quiet_tac. apply quiet_detector_log.
Qed.

Lemma quiet_process_frame {P} did frame :
  quiet P (DetectionService.process_frame did frame).
Proof.
  unfold DetectionService.process_frame, DetectionService.is_active.
  quiet_tac. apply quiet_process_video_frame.
Qed.

End dispatcher_facts.

(** ** What a computation returns *)

Section returns.
Context {A : Type} {Q : A → Prop}.

Lemma returns_ret (a : A) : Q a → returns Q (mret a).
Proof. intros Ha w a' [= <-]. exact Ha. Qed.

Lemma returns_raise (e : exn) : returns Q (raise e).
Proof. intros w a [=]. Qed.

Lemma returns_bind {B} (R : B → Prop) (m : M B) (f : B → M A) :
  returns R m → (∀ b, R b → returns Q (f b)) → returns Q (m ≫= f).
Proof.
  intros Hm Hf w a. unfold mbind, M_bind.
  specialize (Hm w). destruct (m w) as [[b | e] w1]; simpl in *.
  - apply Hf, Hm. reflexivity.
  - intros [=].
Qed.

Lemma returns_bind_any {B} (m : M B) (f : B → M A) :
  (∀ b, returns Q (f b)) → returns Q (m ≫= f).
Proof.
  intros Hf. apply (returns_bind (λ _, True)); [intros w b _; exact I |].
  intros b _. apply Hf.
Qed.

Lemma returns_try (m : M A) (h : exn → M A) :
  returns Q m → (∀ e, returns Q (h e)) → returns Q (try_except m h).
Proof.
  intros Hm Hh w a. unfold try_except.
  specialize (Hm w). destruct (m w) as [[b | e] w1]; simpl in *.
  - exact (Hm a).
  - apply Hh.
Qed.

End returns.

Section dispatcher_results.
Context `{Ext : Externals}.

Lemma detect_returns_dict frame :
  returns dict_or_none (FireSmokeDetector.detect frame).
Proof.
  unfold FireSmokeDetector.detect.
  destruct (negb load_model); [apply returns_ret; exact I |].
  destruct (FireSmokeDetector.as_frame frame); [| apply returns_ret; exact I].
  apply returns_try; [| intros; apply returns_ret; exact I].
  apply returns_bind_any. intros results.
  apply returns_bind_any. intros [[dets hf] hs].
  do 3 (apply returns_bind_any; intros).
  apply returns_ret. exact I.
Qed.

Lemma process_frame_returns_dict_or_none did frame :
  returns dict_or_none (DetectionService.process_frame did frame).
Proof.
  unfold DetectionService.process_frame.
  apply returns_bind_any. intros active.
  destruct (negb active); [apply returns_ret; exact I |].
  apply returns_bind_any. intros [e |]; [| apply returns_raise].
  apply (returns_bind dict_or_none).
  - unfold FireSmokeDetector.process_video_frame.
    apply (returns_bind dict_or_none); [apply detect_returns_dict |].
    intros result Hres. do 3 (apply returns_bind_any; intros).
    apply returns_ret. exact Hres.
  - intros result Hres. apply returns_bind_any. intros _.
    apply returns_ret. exact Hres.
Qed.

End dispatcher_results.

(** ** Video frames and the scanning flag *)

Lemma append_inv_head (s a b : string) : s +:+ a = s +:+ b → a = b.
Proof.
  induction s as [| c s IH]; simpl; [trivial |].
  intros [= H]. apply IH, H.
Qed.

Lemma run_bind {A B} (m : M A) (f : A → M B) (w w1 : World) (a : A) :
  m w = (Ok a, w1) → (m ≫= f) w = f a w1.
Proof. intros H. unfold mbind, M_bind. rewrite H. reflexivity. Qed.

Lemma run_bind_assoc {A B C} (m : M A) (f : A → M B) (g : B → M C) (w : World) :
  ((m ≫= f) ≫= g) w = (m ≫= (λ a, f a ≫= g)) w.
Proof. unfold mbind, M_bind. destruct (m w) as [[a | e] w1]; reflexivity. Qed.

Section video.
Context `{Ext : Externals}.

Lemma quiet_publish_other (did mt : string) (payload : pyval) :
  mt ≠ "video" →
  quiet (not_video did) (UnifiedConsumer._publish_gui did mt payload).
Proof.
  intros Hmt w. rewrite publish_gui_run.
  destruct (pub_open w) eqn:Hopen; simpl.
  - split; [exact Hopen |]. eexists. split; [reflexivity |].
    constructor; [| constructor].
    unfold not_video, is_video, has_key, gui_message. simpl.
    apply String.eqb_neq. intros [= H].
    apply (append_inv_head did) in H. simpl in H. injection H as H.
    contradiction.
  - split; [exact Hopen |]. exists []. rewrite app_nil_r.
    split; [reflexivity | constructor].
Qed.

Lemma published_try_nack {A} (m : M A) (k : exn → M A) (w : World) :
  (∀ e w1, published (k e w1).2 = published w1) →
  published (try_except m k w).2 = published (m w).2.
Proof.
  intros Hk. unfold try_except.
  destruct (m w) as [[a | e] w1]; simpl; [reflexivity | apply Hk].
Qed.

Ltac router_quiet :=
  repeat first
    [ apply quiet_publish_other; discriminate
    | quiet_step ].

Lemma quiet_router_log did drone result session :
  drone_id drone = did →
  quiet (not_video did) (UnifiedConsumer._log_detection drone result session).
Proof.
  intros <-. unfold UnifiedConsumer._log_detection. router_quiet.
Qed.

Lemma quiet_update_stats {P} session result :
  quiet P (UnifiedConsumer._update_session_stats session result).
Proof. unfold UnifiedConsumer._update_session_stats. quiet_tac. Qed.

Lemma quiet_ack {P} tag : quiet P (UnifiedConsumer.ack tag).
Proof. unfold UnifiedConsumer.ack. quiet_tac. Qed.

(** C4: a video message with non-empty frame data.  With no active session
    for the drone the router publishes exactly one GUI message, a video
    frame tagged [scanning: false], and acknowledges.  With an active
    session, whenever the dispatcher returns (a result or nothing), the
    router publishes exactly one video frame, tagged [scanning: true], and
    whatever else it publishes goes to other GUI topics. *)
Theorem video_frame_carries_scanning_flag (tag : nat) (body : string)
    (drone : Drone) (kv : list (string * pyval)) (frame_data : pyval)
    (w : World) :
  json_loads body = Some (PDict kv) →
  assoc "data" kv = Some frame_data →
  truthy frame_data = true →
  pub_open w = true →
  (∀ s, latest (active_sessions_of drone (sessions w)) = Some s →
        ∃ r, eval (DetectionService.process_frame (drone_id drone) frame_data)
               (set_clock S w) = Ok r) →
  let w' := exec (UnifiedConsumer._on_video tag body drone) w in
  let active := latest (active_sessions_of drone (sessions w)) in
  ∃ m rest,
    published w' = published w ++ m :: rest ∧
    is_video (drone_id drone) m = true ∧
    scanning_flag m = Ok (PBool (bool_decide (is_Some active))) ∧
    Forall (not_video (drone_id drone)) rest ∧
    (active = None → rest = [] ∧ acks w' = acks w ++ [basic_ack tag]).
Proof.
  intros Hparse Hdata Htruthy Hopen Hret w' active. subst w' active.
  destruct (latest (active_sessions_of drone (sessions w))) as [s |] eqn:Hl.
  - (* a session is active *)
    destruct (Hret s eq_refl) as [r Hr]. clear Hret. unfold eval in Hr.
    destruct (DetectionService.process_frame (drone_id drone) frame_data
                (set_clock S w)) as [r0 w2] eqn:Hpf.
    simpl in Hr. subst r0.
    pose proof (process_frame_returns_dict_or_none (drone_id drone) frame_data
                  (set_clock S w) r) as Hshape.
    rewrite Hpf in Hshape. specialize (Hshape eq_refl).
    destruct (quiet_process_frame (P := λ _, False) (drone_id drone) frame_data
                (set_clock S w)) as (Hopen2 & l0 & Hpub2 & Hl0).
    rewrite Hpf in Hopen2, Hpub2. simpl in Hopen2, Hpub2.
    destruct l0 as [| x l0]; [| inversion Hl0; contradiction].
    rewrite app_nil_r in Hpub2. rewrite Hopen in Hopen2.
    assert (Hrun : ∃ (data : pyval) (R : M unit),
      quiet (not_video (drone_id drone)) R ∧
      published (exec (UnifiedConsumer._on_video tag body drone) w) =
      published (exec R
        (set_published (λ l, l ++
           [gui_message (drone_id drone) "video"
              (UnifiedConsumer.video_frame
                 (default (PStr (isoformat (clock w))) (assoc "timestamp" kv))
                 (drone_id drone)
                 (default (PInt 0) (assoc "frame_number" kv)) data true)])
           w2))).
    { unfold exec, UnifiedConsumer._on_video.
      rewrite published_try_nack by (intros; reflexivity).
      erewrite run_bind
        by (unfold UnifiedConsumer.loads; rewrite Hparse; reflexivity).
      erewrite run_bind
        by (unfold lift; simpl; rewrite Hdata; reflexivity).
      erewrite run_bind by reflexivity.
      erewrite run_bind by reflexivity.
      erewrite run_bind by reflexivity.
      rewrite Htruthy. change (negb true) with false. cbv iota.
      erewrite run_bind
        by (unfold active_session_for, gets; simpl; rewrite Hl; reflexivity).
      cbv beta iota.
      rewrite run_bind_assoc. erewrite run_bind by exact Hpf.
      cbv beta iota.
      destruct (truthy r) eqn:Ht.
      - destruct r as [| | | | | | kvr]; try discriminate; try contradiction.
        rewrite run_bind_assoc. erewrite run_bind by reflexivity.
        rewrite run_bind_assoc.
        erewrite run_bind
          by (rewrite publish_gui_run, Hopen2; reflexivity).
        eexists _, _. split; [| reflexivity].
        apply quiet_bind; [| intros; apply quiet_ack].
        apply quiet_bind; [router_quiet |]. intros dets.
        apply quiet_bind; [router_quiet |]. intros _.
        apply quiet_bind; [router_quiet |]. intros has_fire.
        apply quiet_bind; [router_quiet |]. intros has_smoke.
        apply quiet_bind; [| intros; apply quiet_update_stats].
        destruct (has_fire || has_smoke); [| router_quiet].
        apply quiet_router_log. reflexivity.
      - erewrite run_bind
          by (rewrite publish_gui_run, Hopen2; reflexivity).
        eexists _, _. split; [apply quiet_ack | reflexivity]. }
    destruct Hrun as (data & R & HR & Hrun).
    destruct (HR (set_published (λ l, l ++
           [gui_message (drone_id drone) "video"
              (UnifiedConsumer.video_frame
                 (default (PStr (isoformat (clock w))) (assoc "timestamp" kv))
                 (drone_id drone)
                 (default (PInt 0) (assoc "frame_number" kv)) data true)])
           w2)) as (_ & rest & Hrest & Hnv).
    unfold exec in *. rewrite Hrun, Hrest. simpl. rewrite Hpub2. simpl.
    eexists _, rest. split; [rewrite <- app_assoc; reflexivity |].
    split; [unfold is_video, has_key; simpl; apply String.eqb_refl |].
    split; [reflexivity |]. split; [exact Hnv | discriminate].
  - (* no session *)
    clear Hret.
    unfold UnifiedConsumer._on_video, UnifiedConsumer.loads,
      UnifiedConsumer.ack, active_session_for, py_get.
    unfold_m. rewrite Hparse. simpl. rewrite Hdata. simpl.
    rewrite Htruthy. simpl. rewrite Hl. simpl.
    rewrite publish_gui_run. simpl. rewrite Hopen. simpl.
    eexists _, []. split; [reflexivity |].
    split; [unfold is_video, has_key; simpl; apply String.eqb_refl |].
    split; [reflexivity |]. split; [constructor |]. intros _.
    split; reflexivity.
Qed.

End video.

(** The fire frame of the demo while "D-01" is scanning. *)
Lemma video_frame_carries_scanning_flag_witness :
  json_loads (Demo.body_video Demo.frame_fire) =
    Some (Demo.parsed_video Demo.frame_fire) ∧
  ∃ m rest,
    published (exec (UnifiedConsumer._on_video 2
                       (Demo.body_video Demo.frame_fire) Demo.d01)
                 Demo.w_scanning) =
      published Demo.w_scanning ++ m :: rest ∧
    is_video "D-01" m = true ∧
    scanning_flag m = Ok (PBool true).
Proof.
  split; [reflexivity |].
  destruct (video_frame_carries_scanning_flag 2
              (Demo.body_video Demo.frame_fire) Demo.d01
              [("type", PStr "VIDEO_FRAME"); ("frame_number", PInt 7);
               ("data", PStr Demo.frame_fire)]
              (PStr Demo.frame_fire) Demo.w_scanning)
    as (m & rest & Hpub & Hvideo & Hflag & _).
  - reflexivity.
  - reflexivity.
  - reflexivity.
  - reflexivity.
  - intros s _. eexists. vm_compute. reflexivity.
  - exists m, rest. split; [exact Hpub |]. split; [exact Hvideo |].
    exact Hflag.
Defined.

(** ** The router's error boundary *)

Lemma run_bind_raise {A B} (m : M A) (f : A → M B) (w w1 : World) (e : exn) :
  m w = (Raise e, w1) → (m ≫= f) w = (Raise e, w1).
Proof. intros H. unfold mbind, M_bind. rewrite H. reflexivity. Qed.

Section boundary.
Context `{Ext : Externals}.

(** An exception that escapes the dispatcher is caught by [_on_video]: the
    router adds the negative acknowledgement, without requeue, to whatever
    the dispatcher had done, and nothing else: no publish and no counter
    update of its own. *)
Lemma dispatcher_exception_is_nacked (tag : nat) (body : string)
    (drone : Drone) (kv : list (string * pyval)) (frame_data : pyval)
    (s : ScanSession) (e : exn) (w w2 : World) :
  json_loads body = Some (PDict kv) →
  assoc "data" kv = Some frame_data →
  truthy frame_data = true →
  latest (active_sessions_of drone (sessions w)) = Some s →
  DetectionService.process_frame (drone_id drone) frame_data (set_clock S w) =
    (Raise e, w2) →
  UnifiedConsumer._on_video tag body drone w =
    (Ok tt, set_acks (λ l, l ++ [basic_nack tag false]) w2).
Proof.
  intros Hparse Hdata Htruthy Hl Hpf.
  unfold UnifiedConsumer._on_video, try_except.
  erewrite run_bind
    by (unfold UnifiedConsumer.loads; rewrite Hparse; reflexivity).
  erewrite run_bind by (unfold lift; simpl; rewrite Hdata; reflexivity).
  do 3 (erewrite run_bind by reflexivity).
  rewrite Htruthy. change (negb true) with false. cbv beta iota.
  erewrite run_bind
    by (unfold active_session_for, gets; simpl; rewrite Hl; reflexivity).
  cbv beta iota. rewrite run_bind_assoc.
  erewrite run_bind_raise by exact Hpf.
  reflexivity.
Qed.

(** [RabbitMQManager.publish_to_gui], which the router does not call, uses
    the same routing key and takes the durability from its caller. *)
Lemma manager_publish_to_gui (did mt : string) (payload : pyval)
    (persistent : bool) (w : World) :
  published (exec (RabbitMQManager.publish_to_gui did mt payload persistent) w) =
    published w ++
      [mkPublished Config.EXCHANGE_GUI ("gui." +:+ did +:+ "." +:+ mt) payload
         (if persistent then 2 else 1)%Z "application/json"].
Proof. reflexivity. Qed.

End boundary.

(** * Further properties of the router *)

Section start_scan.
Context `{Ext : Externals}.

(** X1: Scenario B.  A START_SCAN command for a registered drone closes the
    drone's active sessions, appends a fresh active session, sets the cached
    status to scanning, writes one ACTION log entry, records the session id
    in the dispatcher, publishes SCAN_STARTED, forwards START_SCAN with the
    session id on the drone's command topic, confirms with COMMAND_ACK and
    acknowledges. *)
Theorem start_scan_opens_session (tag : nat) (body : string)
    (drone row : Drone) (kv : list (string * pyval)) (w : World) :
  json_loads body = Some (PDict kv) →
  assoc "command" kv = Some (PStr "START_SCAN") →
  Drone_filter_id (drone_id drone) (drones w) = [row] →
  pub_open w = true →
  broker_up w = true →
  let w' := exec (UnifiedConsumer._on_gui_command tag body drone) w in
  ∃ new t1 t2 t3,
    sessions w' = (close_active row (clock w) <$> sessions w) ++ [new] ∧
    fresh_session (d_id row) new ∧
    Forall2 (status_set (d_id row) DroneStatus.SCANNING) (drones w) (drones w') ∧
    (log_type <$> logs w') = (log_type <$> logs w) ++ [LogType.ACTION] ∧
    active_sessions w' =
      <[drone_id drone := mkDispatchEntry (uuid_str (session_id new)) true 0]>
        (active_sessions w) ∧
    published w' = published w ++
      [gui_message (drone_id drone) "status"
         (scan_started_event (drone_id drone) t1 new);
       mkPublished Config.EXCHANGE_COMMANDS (command_topic drone)
         (start_scan_command (drone_id drone) t2 new) 2 "application/json";
       gui_message (drone_id drone) "status"
         (command_ack_event (drone_id drone) t3 (PStr "START_SCAN"))] ∧
    acks w' = acks w ++ [basic_ack tag].
Proof.
  intros Hparse Hcmd Hone Hopen Hup w'. subst w'.
  pose proof (filter_id_pk_stored _ _ _ Hone) as Hpk.
  unfold UnifiedConsumer._on_gui_command, UnifiedConsumer.loads,
    UnifiedConsumer._handle_start_scan, UnifiedConsumer.ack,
    ScanService.start, DroneService.get_by_id, DroneService.update_status,
    Drone_save_fields, ScanSession_create,
    LogService.log_drone_event, LogService.create, LogEntry_create,
    DetectionService.start_detection, RabbitMQManager.with_manager,
    RabbitMQManager.send_command, RabbitMQManager._ts,
    RabbitMQManager._publish, py_get.
  unfold_m. rewrite Hparse. simpl. rewrite Hcmd. simpl.
  rewrite Hone. simpl. rewrite !fill_topics_pk. simpl. rewrite Hpk. simpl.
  rewrite !publish_gui_run. simpl. rewrite Hopen. simpl. rewrite Hup. simpl.
  rewrite !publish_gui_run. simpl. rewrite Hopen. simpl.
  eexists _, _, _, _.
  split; [reflexivity |].
  split; [repeat split; reflexivity |].
  split.
  { clear. induction (drones w) as [| r rows IH]; simpl; constructor;
      [| exact IH].
    unfold status_set. destruct (d_id r =? d_id row)%nat; [| reflexivity].
    unfold same_identity, Drone_write, Drone_fill_topics. simpl.
    destruct (String.eqb _ _); simpl; repeat split; eauto. }
  split; [rewrite fmap_app; reflexivity |].
  split; [reflexivity |].
  split; [rewrite <- !app_assoc; reflexivity | reflexivity].
Qed.

End start_scan.

(** START_SCAN for "D-01" in the demo world. *)
Lemma start_scan_opens_session_witness :
  json_loads (Demo.body_command "START_SCAN") =
    Some (PDict [("command", PStr "START_SCAN")]) ∧
  acks (exec (UnifiedConsumer._on_gui_command 1 (Demo.body_command "START_SCAN")
                Demo.d01) Demo.w0) = acks Demo.w0 ++ [basic_ack 1].
Proof.
  split; [reflexivity |].
  destruct (start_scan_opens_session 1 (Demo.body_command "START_SCAN")
              Demo.d01 Demo.d01 [("command", PStr "START_SCAN")] Demo.w0)
    as (new & t1 & t2 & t3 & _ & _ & _ & _ & _ & _ & Hack);
    [reflexivity | reflexivity | reflexivity | reflexivity | reflexivity |].
  exact Hack.
Defined.

Section commands.
Context `{Ext : Externals}.

(** X2: a command other than START_SCAN and STOP_SCAN is relayed verbatim,
    name and parameters, on the drone's command topic and confirmed with
    COMMAND_ACK; when the broker cannot be reached nothing is published and
    the delivery is negatively acknowledged without requeue.  Either way no
    drone, session or log row and no dispatcher entry changes. *)
Theorem other_command_is_relayed (tag : nat) (body : string) (drone : Drone)
    (kv : list (string * pyval)) (w : World) :
  json_loads body = Some (PDict kv) →
  py_is_str (default PNone (assoc "command" kv)) "START_SCAN" = false →
  py_is_str (default PNone (assoc "command" kv)) "STOP_SCAN" = false →
  pub_open w = true →
  let w' := exec (UnifiedConsumer._on_gui_command tag body drone) w in
  let command := default PNone (assoc "command" kv) in
  let params := default (PDict []) (assoc "params" kv) in
  drones w' = drones w ∧ sessions w' = sessions w ∧ logs w' = logs w ∧
  active_sessions w' = active_sessions w ∧
  if broker_up w
  then published w' = published w ++
         [mkPublished Config.EXCHANGE_COMMANDS (command_topic drone)
            (relayed_command (drone_id drone) (clock w) command params)
            2 "application/json";
          gui_message (drone_id drone) "status"
            (command_ack_event (drone_id drone) (S (clock w)) command)] ∧
       acks w' = acks w ++ [basic_ack tag]
  else published w' = published w ∧
       acks w' = acks w ++ [basic_nack tag false].
Proof.
  intros Hparse Hstart Hstop Hopen w' command params. subst w' command params.
  unfold UnifiedConsumer._on_gui_command, UnifiedConsumer.loads,
    UnifiedConsumer.ack, UnifiedConsumer.nack, RabbitMQManager.with_manager,
    RabbitMQManager.send_command, RabbitMQManager._ts,
    RabbitMQManager._publish, py_get.
  unfold_m. rewrite Hparse. simpl.
  cbv [default from_option id] in Hstart, Hstop.
  rewrite Hstart, Hstop. simpl.
  destruct (broker_up w); simpl.
  - rewrite publish_gui_run. simpl. rewrite Hopen. simpl.
    rewrite <- app_assoc. repeat split; reflexivity.
  - repeat split; reflexivity.
Qed.

(** X3: STOP_SCAN for a drone without an active session changes no row and
    no dispatcher entry and forwards nothing to the drone; the router still
    confirms with COMMAND_ACK and acknowledges, whether or not the broker
    can be reached. *)
Theorem stop_scan_without_session (tag : nat) (body : string) (drone : Drone)
    (kv : list (string * pyval)) (w : World) :
  json_loads body = Some (PDict kv) →
  assoc "command" kv = Some (PStr "STOP_SCAN") →
  latest (active_sessions_of drone (sessions w)) = None →
  pub_open w = true →
  let w' := exec (UnifiedConsumer._on_gui_command tag body drone) w in
  drones w' = drones w ∧ sessions w' = sessions w ∧ logs w' = logs w ∧
  active_sessions w' = active_sessions w ∧
  published w' = published w ++
    [gui_message (drone_id drone) "status"
       (command_ack_event (drone_id drone) (clock w) (PStr "STOP_SCAN"))] ∧
  acks w' = acks w ++ [basic_ack tag].
Proof.
  intros Hparse Hcmd Hnone Hopen w'. subst w'.
  unfold UnifiedConsumer._on_gui_command, UnifiedConsumer.loads,
    UnifiedConsumer._handle_stop_scan, UnifiedConsumer.ack,
    active_session_for, py_get.
  unfold_m. rewrite Hparse. simpl. rewrite Hcmd. simpl. rewrite Hnone. simpl.
  rewrite publish_gui_run. simpl. rewrite Hopen. simpl.
  repeat split; reflexivity.
Qed.

(** X4: START_SCAN while the broker cannot be reached.  The session is
    opened, the dispatcher entry set and SCAN_STARTED published before the
    forward to the drone fails; the router then discards the command with a
    negative acknowledgement and sends neither the START_SCAN to the drone
    nor a COMMAND_ACK. *)
Theorem start_scan_broker_down (tag : nat) (body : string)
    (drone row : Drone) (kv : list (string * pyval)) (w : World) :
  json_loads body = Some (PDict kv) →
  assoc "command" kv = Some (PStr "START_SCAN") →
  Drone_filter_id (drone_id drone) (drones w) = [row] →
  pub_open w = true →
  broker_up w = false →
  let w' := exec (UnifiedConsumer._on_gui_command tag body drone) w in
  ∃ new t1,
    sessions w' = (close_active row (clock w) <$> sessions w) ++ [new] ∧
    fresh_session (d_id row) new ∧
    active_sessions w' =
      <[drone_id drone := mkDispatchEntry (uuid_str (session_id new)) true 0]>
        (active_sessions w) ∧
    published w' = published w ++
      [gui_message (drone_id drone) "status"
         (scan_started_event (drone_id drone) t1 new)] ∧
    acks w' = acks w ++ [basic_nack tag false].
Proof.
  intros Hparse Hcmd Hone Hopen Hdown w'. subst w'.
  pose proof (filter_id_pk_stored _ _ _ Hone) as Hpk.
  unfold UnifiedConsumer._on_gui_command, UnifiedConsumer.loads,
    UnifiedConsumer._handle_start_scan, UnifiedConsumer.ack,
    UnifiedConsumer.nack,
    ScanService.start, DroneService.get_by_id, DroneService.update_status,
    Drone_save_fields, ScanSession_create,
    LogService.log_drone_event, LogService.create, LogEntry_create,
    DetectionService.start_detection, RabbitMQManager.with_manager, py_get.
  unfold_m. rewrite Hparse. simpl. rewrite Hcmd. simpl.
  rewrite Hone. simpl. rewrite !fill_topics_pk. simpl. rewrite Hpk. simpl.
  rewrite !publish_gui_run. simpl. rewrite Hopen. simpl. rewrite Hdown. simpl.
  eexists _, _.
  split; [reflexivity |].
  split; [repeat split; reflexivity |].
  repeat split; reflexivity.
Qed.

End commands.

(** MOVE_TO (3, 4) for "D-01". *)
Lemma other_command_is_relayed_witness :
  @json_loads Demo2.ext Demo2.body_move = Some Demo2.parsed_move ∧
  acks (exec (@UnifiedConsumer._on_gui_command Demo2.ext 5 Demo2.body_move
                Demo.d01) Demo.w0) = [basic_ack 5].
Proof.
  split; [reflexivity |].
  apply (@other_command_is_relayed Demo2.ext 5 Demo2.body_move Demo.d01
           [("command", PStr "MOVE_TO");
            ("params", PDict [("x", PInt 3); ("y", PInt 4)])] Demo.w0);
    reflexivity.
Defined.

Lemma stop_scan_without_session_witness :
  json_loads (Demo.body_command "STOP_SCAN") =
    Some (PDict [("command", PStr "STOP_SCAN")]) ∧
  sessions (exec (UnifiedConsumer._on_gui_command 4
                    (Demo.body_command "STOP_SCAN") Demo.d01) Demo.w0) = [].
Proof.
  split; [reflexivity |].
  apply (stop_scan_without_session 4 (Demo.body_command "STOP_SCAN") Demo.d01
           [("command", PStr "STOP_SCAN")] Demo.w0); reflexivity.
Defined.

Lemma start_scan_broker_down_witness :
  let w := mkWorld [Demo.d01] [] [] 500 5 true false [] [] ∅ in
  acks (exec (UnifiedConsumer._on_gui_command 1 (Demo.body_command "START_SCAN")
                Demo.d01) w) = [basic_nack 1 false].
Proof.
  intros w.
  destruct (start_scan_broker_down 1 (Demo.body_command "START_SCAN")
              Demo.d01 Demo.d01 [("command", PStr "START_SCAN")] w)
    as (new & t1 & _ & _ & _ & _ & Hack);
    [reflexivity | reflexivity | reflexivity | reflexivity | reflexivity |].
  exact Hack.
Defined.

Section feeds.
Context `{Ext : Externals}.

(** X5: a telemetry message whose data carries the status [s] (the drone
    object's cached status when the field is missing) sets status and
    last-seen time on the drone's row and on no other row, leaves
    [updated_at], sessions, logs and the dispatcher alone, republishes the
    data on the GUI telemetry topic and acknowledges. *)
Theorem telemetry_updates_status_and_time (tag : nat) (body : string)
    (drone : Drone) (kv dkv : list (string * pyval)) (s : string) (w : World) :
  json_loads body = Some (PDict kv) →
  default (PDict []) (assoc "data" kv) = PDict dkv →
  default (PStr (last_status drone)) (assoc "status" dkv) = PStr s →
  let w' := exec (UnifiedConsumer._on_telemetry tag body drone) w in
  Forall2 (telemetry_seen (drone_id drone) s (clock w)) (drones w) (drones w') ∧
  sessions w' = sessions w ∧ logs w' = logs w ∧
  active_sessions w' = active_sessions w ∧
  published w' = published w ++
    (if pub_open w
     then [gui_message (drone_id drone) "telemetry"
             (telemetry_event
                (default (PStr (isoformat (S (clock w)))) (assoc "timestamp" kv))
                (drone_id drone) (PDict dkv))]
     else []) ∧
  acks w' = acks w ++ [basic_ack tag].
Proof.
  intros Hparse Hdata Hstatus w'. subst w'.
  cbv [default from_option id] in Hdata, Hstatus.
  unfold UnifiedConsumer._on_telemetry, UnifiedConsumer.loads,
    UnifiedConsumer.ack, to_text, py_get.
  unfold_m. rewrite Hparse. simpl. rewrite Hdata. simpl.
  rewrite Hstatus. simpl. rewrite publish_gui_run. simpl.
  split.
  { destruct (pub_open w); simpl; clear;
      induction (drones w) as [| r rows IH]; simpl; constructor; auto;
      unfold telemetry_seen; destruct (String.eqb _ _); auto;
      unfold same_identity; simpl; repeat split; reflexivity. }
  destruct (pub_open w); simpl; rewrite ?app_nil_r; repeat split; reflexivity.
Qed.


(** X7: a video message without frame data (missing, null or empty) is
    acknowledged and nothing else happens, active session or not: no
    dispatch, no publish, no counter. *)
Theorem empty_frame_is_only_acknowledged (tag : nat) (body : string)
    (drone : Drone) (kv : list (string * pyval)) (w : World) :
  json_loads body = Some (PDict kv) →
  truthy (default PNone (assoc "data" kv)) = false →
  UnifiedConsumer._on_video tag body drone w =
    (Ok tt, set_acks (λ l, l ++ [basic_ack tag]) (set_clock S w)).
Proof.
  intros Hparse Hempty. cbv [default from_option id] in Hempty.
  unfold UnifiedConsumer._on_video, UnifiedConsumer.loads,
    UnifiedConsumer.ack, py_get.
  unfold_m. rewrite Hparse. simpl. rewrite Hempty. reflexivity.
Qed.

(** X8: a body that is valid JSON but not an object (a list, a number, a
    string, null) is discarded like a malformed one by all four handlers:
    negative acknowledgement without requeue and no other change. *)
Theorem non_object_body_is_nacked (tag : nat) (body : string) (drone : Drone)
    (v : pyval) (w : World) :
  json_loads body = Some v →
  not_object v →
  let nacked := (Ok tt, set_acks (λ l, l ++ [basic_nack tag false]) w) in
  UnifiedConsumer._on_telemetry tag body drone w = nacked ∧
  UnifiedConsumer._on_video tag body drone w = nacked ∧
  UnifiedConsumer._on_alert tag body drone w = nacked ∧
  UnifiedConsumer._on_gui_command tag body drone w = nacked.
Proof.
  intros Hparse Hshape nacked. subst nacked.
  unfold UnifiedConsumer._on_telemetry, UnifiedConsumer._on_video,
    UnifiedConsumer._on_alert, UnifiedConsumer._on_gui_command,
    UnifiedConsumer.loads, UnifiedConsumer.nack.
  unfold_m. rewrite Hparse.
  destruct v; try contradiction; simpl; auto.
Qed.

(** X9: an active session whose drone has no active dispatcher entry (the
    dictionary lives in the consumer process and is empty after a restart):
    the frame is forwarded raw, tagged [scanning: true], and acknowledged,
    but it is not run through the model: no counter moves and no log entry
    is written. *)
Theorem frame_without_dispatcher_is_not_counted (tag : nat) (body : string)
    (drone : Drone) (s : ScanSession) (kv : list (string * pyval))
    (frame_data : pyval) (w : World) :
  json_loads body = Some (PDict kv) →
  assoc "data" kv = Some frame_data →
  truthy frame_data = true →
  latest (active_sessions_of drone (sessions w)) = Some s →
  match active_sessions w !! drone_id drone with
  | Some e => e_is_active e
  | None => false
  end = false →
  let w' := exec (UnifiedConsumer._on_video tag body drone) w in
  sessions w' = sessions w ∧ logs w' = logs w ∧ drones w' = drones w ∧
  active_sessions w' = active_sessions w ∧
  published w' = published w ++
    (if pub_open w
     then [gui_message (drone_id drone) "video"
             (UnifiedConsumer.video_frame
                (default (PStr (isoformat (clock w))) (assoc "timestamp" kv))
                (drone_id drone)
                (default (PInt 0) (assoc "frame_number" kv))
                frame_data true)]
     else []) ∧
  acks w' = acks w ++ [basic_ack tag].
Proof.
  intros Hparse Hdata Htruthy Hact Hoff w'. subst w'.
  unfold UnifiedConsumer._on_video, UnifiedConsumer.loads,
    UnifiedConsumer.ack, active_session_for,
    DetectionService.process_frame, DetectionService.is_active, py_get.
  unfold_m. rewrite Hparse. simpl. rewrite Hdata. simpl. rewrite Htruthy. simpl.
  rewrite Hact. simpl. rewrite Hoff. simpl. rewrite publish_gui_run. simpl.
  destruct (pub_open w); simpl; rewrite ?app_nil_r; repeat split; reflexivity.
Qed.

End feeds.

Lemma telemetry_updates_status_and_time_witness :
  @json_loads Demo2.ext Demo2.body_telemetry = Some Demo2.parsed_telemetry ∧
  acks (exec (@UnifiedConsumer._on_telemetry Demo2.ext 6 Demo2.body_telemetry
                Demo.d01) Demo.w0) = [basic_ack 6].
Proof.
  split; [reflexivity |].
  apply (@telemetry_updates_status_and_time Demo2.ext 6 Demo2.body_telemetry
           Demo.d01
           [("type", PStr "TELEMETRY");
            ("data", PDict [("status", PStr "Devriyede");
                            ("battery", PInt 87)])]
           [("status", PStr "Devriyede"); ("battery", PInt 87)]
           "Devriyede" Demo.w0); reflexivity.
Defined.


Lemma empty_frame_is_only_acknowledged_witness :
  @json_loads Demo2.ext Demo2.body_no_frame = Some Demo2.parsed_no_frame ∧
  @UnifiedConsumer._on_video Demo2.ext 8 Demo2.body_no_frame Demo.d01
    Demo.w_scanning =
    (Ok tt, set_acks (λ l, l ++ [basic_ack 8]) (set_clock S Demo.w_scanning)).
Proof.
  split; [reflexivity |].
  apply (@empty_frame_is_only_acknowledged Demo2.ext 8 Demo2.body_no_frame
           Demo.d01
           [("type", PStr "VIDEO_FRAME"); ("frame_number", PInt 8)]
           Demo.w_scanning); reflexivity.
Defined.

Lemma non_object_body_is_nacked_witness :
  @json_loads Demo2.ext Demo2.body_list = Some (PList [PInt 1; PInt 2]) ∧
  @UnifiedConsumer._on_alert Demo2.ext 9 Demo2.body_list Demo.d01 Demo.w0 =
    (Ok tt, set_acks (λ l, l ++ [basic_nack 9 false]) Demo.w0).
Proof.
  split; [reflexivity |].
  apply (@non_object_body_is_nacked Demo2.ext 9 Demo2.body_list Demo.d01
           (PList [PInt 1; PInt 2]) Demo.w0); [reflexivity | exact I].
Defined.

(** The scanning world after a router restart: the dispatcher is empty. *)
Lemma frame_without_dispatcher_is_not_counted_witness :
  let w := set_active_sessions (λ _, ∅) Demo.w_scanning in
  json_loads (Demo.body_video Demo.frame_fire) =
    Some (Demo.parsed_video Demo.frame_fire) ∧
  logs (exec (UnifiedConsumer._on_video 2 (Demo.body_video Demo.frame_fire)
                Demo.d01) w) = logs w.
Proof.
  intros w. split; [reflexivity |].
  apply (frame_without_dispatcher_is_not_counted 2
           (Demo.body_video Demo.frame_fire) Demo.d01
           (mkScanSession 1 500 1 true 6 None 0 0 0)
           [("type", PStr "VIDEO_FRAME"); ("frame_number", PInt 7);
            ("data", PStr Demo.frame_fire)]
           (PStr Demo.frame_fire) w); reflexivity.
Defined.

(** ** Parts of the world a computation leaves alone *)

Section keeps.
Context {X : Type} {f : World → X}.

Lemma keeps_ret {A} (a : A) : keeps f (mret a).
Proof. intros w. reflexivity. Qed.

Lemma keeps_raise {A} (e : exn) : keeps f (@raise A e).
Proof. intros w. reflexivity. Qed.

Lemma keeps_lift {A} (r : result A) : keeps f (lift r).
Proof. intros w. reflexivity. Qed.

Lemma keeps_gets {A} (g : World → A) : keeps f (gets g).
Proof. intros w. reflexivity. Qed.

Lemma keeps_modify (g : World → World) :
  (∀ w, f (g w) = f w) → keeps f (modify g).
Proof. intros H w. apply H. Qed.

Lemma keeps_now : (∀ w, f (set_clock S w) = f w) → keeps f now.
Proof. intros H w. apply H. Qed.

Lemma keeps_uuid4 : (∀ w, f (set_uuid_seq S w) = f w) → keeps f uuid4.
Proof. intros H w. apply H. Qed.

Lemma keeps_bind {A B} (m : M A) (k : A → M B) :
  keeps f m → (∀ a, keeps f (k a)) → keeps f (m ≫= k).
Proof.
  intros Hm Hk w. unfold mbind, M_bind. specialize (Hm w).
  destruct (m w) as [[a | e] w1]; simpl in *; [| exact Hm].
  rewrite Hk. exact Hm.
Qed.

Lemma keeps_try {A} (m : M A) (h : exn → M A) :
  keeps f m → (∀ e, keeps f (h e)) → keeps f (try_except m h).
Proof.
  intros Hm Hh w. unfold try_except. specialize (Hm w).
  destruct (m w) as [[a | e] w1]; simpl in *; [exact Hm |].
  rewrite Hh. exact Hm.
Qed.

Lemma keeps_for_each {A} (l : list A) (k : A → M unit) :
  (∀ x, keeps f (k x)) → keeps f (for_each l k).
Proof.
  intros Hk. induction l as [| x l IH]; simpl.
  - apply keeps_ret.
  - apply keeps_bind; [apply Hk | intros _; exact IH].
Qed.

End keeps.

Create HintDb keeps.
Create HintDb model.

#[global] Hint Unfold objects_get flag as_float of_option to_text
  LogEntry_create ScanSession_create ScanSession_save ScanSession_save_fields
  Drone_save_fields Drone_create active_session_for
  DroneService.get_by_id DroneService.register DroneService.update_status
  LogService.create LogService.log_drone_event
  ScanService.start ScanService.session_drone ScanService.stop
  ScanService.record_frame
  RabbitMQManager._ts RabbitMQManager._publish RabbitMQManager.with_manager
  RabbitMQManager.publish_to_gui RabbitMQManager.send_command
  FireSmokeDetector.add_box FireSmokeDetector.detect
  FireSmokeDetector._log_detection FireSmokeDetector.process_video_frame
  DetectionService.start_detection DetectionService.stop_detection
  DetectionService.is_active DetectionService.process_frame
  UnifiedConsumer.loads UnifiedConsumer.pub_basic_publish
  UnifiedConsumer._publish_gui UnifiedConsumer._log_detection
  UnifiedConsumer._update_session_stats UnifiedConsumer._handle_start_scan
  UnifiedConsumer._handle_stop_scan : model.

(** Takes a computation apart; the leaves are writes to other fields. *)
Ltac keeps_step :=
  lazymatch goal with
  | |- keeps _ (mret _) => apply keeps_ret
  | |- keeps _ (mbind _ _) => apply keeps_bind; [| intros]
  | |- keeps _ (try_except _ _) => apply keeps_try; [| intros]
  | |- keeps _ (raise _) => apply keeps_raise
  | |- keeps _ (lift _) => apply keeps_lift
  | |- keeps _ (gets _) => apply keeps_gets
  | |- keeps _ now => apply keeps_now; first [assumption | intros; reflexivity]
  | |- keeps _ uuid4 => apply keeps_uuid4; intros; reflexivity
  | |- keeps _ (modify _) => apply keeps_modify; intros; reflexivity
  | |- keeps _ (for_each _ _) => apply keeps_for_each; intros
  | |- keeps _ (if ?b then _ else _) => destruct b
  | |- keeps _ (match ?x with _ => _ end) => destruct x
  | |- keeps _ _ => first [solve [eauto with keeps] | progress autounfold with model]
  end.
Ltac keeps_tac := repeat keeps_step.

Section keeps_detector.
Context `{Ext : Externals} {X : Type} (f : World → X).
Hypothesis f_clock : ∀ w, f (set_clock S w) = f w.

Lemma keeps_add_boxes bs acc : keeps f (FireSmokeDetector.add_boxes bs acc).
Proof using f_clock.
  revert acc. induction bs as [| b bs IH]; intros acc; simpl.
  - apply keeps_ret.
  - apply keeps_bind; [| intros; apply IH].
    unfold FireSmokeDetector.add_box. destruct acc as [[dets hf] hs].
    destruct (has _ _); [| destruct (has _ _)];
      (apply keeps_bind; [apply keeps_now, f_clock | intros; apply keeps_ret]).
Qed.

Lemma keeps_add_results rs acc :
  keeps f (FireSmokeDetector.add_results rs acc).
Proof using f_clock.
  revert acc. induction rs as [| [bs |] rs IH]; intros acc; simpl.
  - apply keeps_ret.
  - apply keeps_bind; [apply keeps_add_boxes | intros; apply IH].
  - apply IH.
Qed.

End keeps_detector.

#[global] Hint Resolve keeps_add_results : keeps.

Section acknowledgements.
Context `{Ext : Externals}.

Lemma acks_once_ack (tag : nat) : acks_once tag (UnifiedConsumer.ack tag).
Proof. intros w. reflexivity. Qed.

Lemma acks_once_bind {A B} (tag : nat) (m : M A) (k : A → M B) :
  keeps acks m → (∀ a, acks_once tag (k a)) → acks_once tag (m ≫= k).
Proof.
  intros Hm Hk w. unfold mbind, M_bind. specialize (Hm w).
  destruct (m w) as [[a | e] w1]; simpl in *; [| exact Hm].
  specialize (Hk a w1). destruct (k a w1) as [[b | e] w2]; congruence.
Qed.

Ltac once_step :=
  lazymatch goal with
  | |- acks_once _ (UnifiedConsumer.ack _) => apply acks_once_ack
  | |- acks_once _ (mbind _ _) => apply acks_once_bind; [keeps_tac | intros]
  | |- acks_once _ (if ?b then _ else _) => destruct b
  | |- acks_once _ (match ?x with _ => _ end) => destruct x
  end.

(** A handler is its body inside [try: ... except: basic_nack]. *)
Lemma handler_acknowledges_once (tag : nat) (m : M unit) (w : World) :
  acks_once tag m →
  let h := try_except m (λ _, UnifiedConsumer.nack tag false) in
  ∃ a, eval h w = Ok tt ∧ acks (exec h w) = acks w ++ [a] ∧
       (a = basic_ack tag ∨ a = basic_nack tag false).
Proof.
  intros Hm h. subst h. unfold eval, exec, try_except. specialize (Hm w).
  destruct (m w) as [[[] | e] w1]; simpl.
  - exists (basic_ack tag). auto.
  - exists (basic_nack tag false). rewrite Hm. auto.
Qed.

(** X10: whatever the body, the drone object and the state of the world,
    each of the four handlers returns normally and acknowledges its delivery
    exactly once: positively, or negatively without requeue.  No path leaves
    a delivery unacknowledged, acknowledges twice or requeues. *)
Theorem every_delivery_is_settled_once (tag : nat) (body : string)
    (drone : Drone) (w : World) :
  Forall (λ handler : nat → string → Drone → M unit,
      ∃ a, eval (handler tag body drone) w = Ok tt ∧
           acks (exec (handler tag body drone) w) = acks w ++ [a] ∧
           (a = basic_ack tag ∨ a = basic_nack tag false))
    [UnifiedConsumer._on_telemetry; UnifiedConsumer._on_video;
     UnifiedConsumer._on_alert; UnifiedConsumer._on_gui_command].
Proof.
  repeat constructor.
  - apply handler_acknowledges_once. repeat once_step.
  - apply handler_acknowledges_once. repeat once_step.
  - apply handler_acknowledges_once. repeat once_step.
  - apply handler_acknowledges_once. repeat once_step.
Qed.

End acknowledgements.

(** * Further properties of the detector and the dispatcher *)

Section detect_facts.
Context `{Ext : Externals}.

Lemma add_boxes_returns bs acc w :
  ∃ acc' w', FireSmokeDetector.add_boxes bs acc w = (Ok acc', w').
Proof.
  revert acc w. induction bs as [| b bs IH]; intros acc w; simpl.
  - eexists _, _. reflexivity.
  - unfold mbind, M_bind at 1.
    assert (Hbox : ∃ acc1 w1, FireSmokeDetector.add_box b acc w = (Ok acc1, w1)).
    { unfold FireSmokeDetector.add_box. destruct acc as [[dets hf] hs].
      destruct (has _ _); [| destruct (has _ _)]; eexists _, _; reflexivity. }
    destruct Hbox as (acc1 & w1 & ->). apply IH.
Qed.

Lemma add_results_returns rs acc w :
  ∃ acc' w', FireSmokeDetector.add_results rs acc w = (Ok acc', w').
Proof.
  revert acc w. induction rs as [| [bs |] rs IH]; intros acc w; simpl.
  - eexists _, _. reflexivity.
  - unfold mbind, M_bind at 1.
    destruct (add_boxes_returns bs acc w) as (acc1 & w1 & ->). apply IH.
  - apply IH.
Qed.

Lemma keeps_detect {X} (f : World → X) frame :
  (∀ w, f (set_clock S w) = f w) → keeps f (FireSmokeDetector.detect frame).
Proof. intros Hf. keeps_tac. Qed.

(** X11: [detect] never raises and writes nothing: whatever the model, the
    annotation or the shape lookup do, it returns a dictionary with a
    'detections' list, and only the clock has moved.  A model that cannot be
    loaded and a frame that cannot be decoded give the two fixed error
    results with no detections. *)
Theorem detect_always_returns_a_result (frame : pyval) (w : World) :
  let w' := exec (FireSmokeDetector.detect frame) w in
  (∃ kv dets, eval (FireSmokeDetector.detect frame) w = Ok (PDict kv) ∧
              assoc "detections" kv = Some (PList dets)) ∧
  same_but_clock w w' ∧ uuid_seq w' = uuid_seq w ∧
  (if load_model
   then match FireSmokeDetector.as_frame frame with
        | None => FireSmokeDetector.detect frame w =
                    (Ok (FireSmokeDetector.error_result "Invalid frame"), w)
        | Some _ => True
        end
   else FireSmokeDetector.detect frame w =
          (Ok (FireSmokeDetector.error_result "Model not loaded"), w)).
Proof.
  intros w'. subst w'. split; [| split; [| split]].
  - unfold FireSmokeDetector.detect, eval.
    destruct load_model; simpl; [| eexists _, _; split; reflexivity].
    destruct (FireSmokeDetector.as_frame frame) as [fr |];
      [| eexists _, _; split; reflexivity].
    unfold try_except, mbind, M_bind, of_option.
    destruct (infer fr) as [rs |]; simpl;
      [| eexists _, _; split; reflexivity].
    destruct (add_results_returns rs ([], false, false) w)
      as ([[dets hf] hs] & w1 & ->). simpl.
    destruct (annotate_frame fr dets (clock w1)); simpl;
      [| eexists _, _; split; reflexivity].
    destruct (frame_shape fr); simpl; eexists _, _; split; reflexivity.
  - unfold same_but_clock, exec.
    repeat split; apply keeps_detect; reflexivity.
  - apply keeps_detect. reflexivity.
  - unfold FireSmokeDetector.detect.
    destruct load_model; simpl; [| reflexivity].
    destruct (FireSmokeDetector.as_frame frame); [exact I | reflexivity].
Qed.

End detect_facts.

Section flags.
Context `{Ext : Externals}.
Hypothesis lower_fire : str_lower "fire" = "fire".
Hypothesis lower_smoke : str_lower "smoke" = "smoke".

Lemma add_box_flags b acc w :
  flags_match acc →
  ∃ acc' w', FireSmokeDetector.add_box b acc w = (Ok acc', w') ∧
             flags_match acc'.
Proof using lower_fire lower_smoke.
  destruct acc as [[dets hf] hs]. intros [Hf Hs].
  unfold FireSmokeDetector.add_box.
  destruct (has (str_lower (class_name b)) ["fire"; "flame"; "yangın"; "alev"])
    eqn:Efire;
    [| destruct (has (str_lower (class_name b)) ["smoke"; "duman"]) eqn:Esmoke].
  - eexists _, _. split; [reflexivity |].
    unfold flags_match. rewrite !existsb_app. simpl.
    rewrite Hs. split; [rewrite orb_true_r | rewrite orb_false_r]; reflexivity.
  - eexists _, _. split; [reflexivity |].
    unfold flags_match. rewrite !existsb_app. simpl.
    rewrite Hf. split; [rewrite orb_false_r | rewrite orb_true_r]; reflexivity.
  - eexists _, _. split; [reflexivity |].
    unfold flags_match. rewrite !existsb_app. simpl.
    unfold det_class. simpl.
    assert (Hnf : String.eqb (class_name b) "fire" = false).
    { destruct (String.eqb (class_name b) "fire") eqn:E; [| reflexivity].
      apply String.eqb_eq in E. rewrite E, lower_fire in Efire. discriminate. }
    assert (Hns : String.eqb (class_name b) "smoke" = false).
    { destruct (String.eqb (class_name b) "smoke") eqn:E; [| reflexivity].
      apply String.eqb_eq in E. rewrite E, lower_smoke in Esmoke.
      discriminate. }
    rewrite Hnf, Hns, !orb_false_r. split; assumption.
Qed.

Lemma add_boxes_flags bs acc w :
  flags_match acc →
  ∃ acc' w', FireSmokeDetector.add_boxes bs acc w = (Ok acc', w') ∧
             flags_match acc'.
Proof using lower_fire lower_smoke.
  revert acc w. induction bs as [| b bs IH]; intros acc w Hacc; simpl.
  - eexists _, _. split; [reflexivity | exact Hacc].
  - unfold mbind, M_bind at 1.
    destruct (add_box_flags b acc w Hacc) as (acc1 & w1 & -> & Hacc1).
    apply IH, Hacc1.
Qed.

Lemma add_results_flags rs acc w :
  flags_match acc →
  ∃ acc' w', FireSmokeDetector.add_results rs acc w = (Ok acc', w') ∧
             flags_match acc'.
Proof using lower_fire lower_smoke.
  revert acc w. induction rs as [| [bs |] rs IH]; intros acc w Hacc; simpl.
  - eexists _, _. split; [reflexivity | exact Hacc].
  - unfold mbind, M_bind at 1.
    destruct (add_boxes_flags bs acc w Hacc) as (acc1 & w1 & -> & Hacc1).
    apply IH, Hacc1.
  - apply IH, Hacc.
Qed.

(** X12: in every result of [detect] the flags agree with the list: has_fire
    is set exactly when some detection has class 'fire', has_smoke exactly
    when some has class 'smoke' (given that lower-casing leaves 'fire' and
    'smoke' as they are).  So the router's gate [has_fire or has_smoke]
    skips no fire or smoke detection, and the loggers behind it always find
    one. *)
Theorem detect_flags_agree_with_detections (frame : pyval) (w : World) :
  ∃ r, eval (FireSmokeDetector.detect frame) w = Ok r ∧
       result_flag r "has_fire" =
         existsb (det_class "fire") (result_detections r) ∧
       result_flag r "has_smoke" =
         existsb (det_class "smoke") (result_detections r).
Proof using lower_fire lower_smoke.
  unfold FireSmokeDetector.detect, eval.
  destruct load_model; simpl; [| eexists; repeat split; reflexivity].
  destruct (FireSmokeDetector.as_frame frame) as [fr |];
    [| eexists; repeat split; reflexivity].
  unfold try_except, mbind, M_bind, of_option.
  destruct (infer fr) as [rs |]; simpl;
    [| eexists; repeat split; reflexivity].
  destruct (add_results_flags rs ([], false, false) w)
    as ([[dets hf] hs] & w1 & -> & Hf & Hs); [split; reflexivity |]. simpl.
  destruct (annotate_frame fr dets (clock w1)); simpl;
    [| eexists; repeat split; reflexivity].
  destruct (frame_shape fr); simpl; [| eexists; repeat split; reflexivity].
  eexists. split; [reflexivity |].
  unfold result_flag, result_detections. simpl.
  destruct hf, hs; simpl; split; assumption.
Qed.

End flags.

Lemma detect_flags_agree_with_detections_witness :
  ∃ r, eval (FireSmokeDetector.detect (PStr Demo.frame_fire)) Demo.w_scanning
         = Ok r ∧
       result_flag r "has_fire" = true.
Proof.
  destruct (@detect_flags_agree_with_detections Demo.ext
              (eq_refl : @str_lower Demo.ext "fire" = "fire")
              (eq_refl : @str_lower Demo.ext "smoke" = "smoke")
              (PStr Demo.frame_fire) Demo.w_scanning)
    as (r & Hr & Hfire & _).
  exists r. split; [exact Hr |].
  rewrite Hfire. vm_compute in Hr. injection Hr as <-. reflexivity.
Defined.

(** ** The data-URL prefix *)

Lemma append_cons (c : ascii) (s t : string) :
  String c s +:+ t = String c (s +:+ t).
Proof. reflexivity. Qed.

Lemma append_assoc' (a b c : string) : (a +:+ b) +:+ c = a +:+ (b +:+ c).
Proof.
  induction a as [| x a IH]; [reflexivity |].
  rewrite !append_cons, IH. reflexivity.
Qed.

Lemma append_empty_r (a : string) : a +:+ "" = a.
Proof.
  induction a as [| x a IH]; [reflexivity |]. rewrite append_cons, IH.
  reflexivity.
Qed.

Lemma rev_app_append (s a b : string) :
  String.rev_app s (a +:+ b) = String.rev_app s a +:+ b.
Proof.
  revert a. induction s as [| c s IH]; intros a; simpl; [reflexivity |].
  rewrite <- IH. reflexivity.
Qed.

Lemma rev_cons (c : ascii) (s : string) :
  String.rev (String c s) = String.rev s +:+ String c "".
Proof.
  unfold String.rev. simpl.
  change (String c "") with ("" +:+ String c "") at 1.
  apply rev_app_append.
Qed.

Lemma split_comma_piece (p rest acc : string) :
  no_comma p = true →
  split_comma p acc = [String.rev acc +:+ p] ∧
  split_comma (p +:+ "," +:+ rest) acc =
    (String.rev acc +:+ p) :: split_comma rest "".
Proof.
  change ("," +:+ rest) with (String ","%char rest).
  revert acc. induction p as [| c p IH]; intros acc Hp.
  - rewrite append_empty_r. split; reflexivity.
  - unfold no_comma in Hp. simpl in Hp. apply andb_true_iff in Hp.
    destruct Hp as [Hc Hp]. apply negb_true_iff in Hc.
    rewrite append_cons. simpl. rewrite Hc.
    destruct (IH (String c acc) Hp) as [H1 H2].
    rewrite H1, H2, rev_cons, append_assoc'. split; reflexivity.
Qed.

(** X13: [_decode_base64] strips a data-URL prefix: a string without a comma
    (plain base64 never has one) is decoded as it is; of "prefix,payload"
    the payload is decoded; and when there are more commas only the piece
    between the first and the second is. *)
Theorem data_url_prefix_is_stripped (p s rest : string) :
  no_comma p = true →
  no_comma s = true →
  strip_data_url s = s ∧
  strip_data_url (p +:+ "," +:+ s) = s ∧
  strip_data_url (p +:+ "," +:+ s +:+ "," +:+ rest) = s.
Proof.
  intros Hp Hs. unfold strip_data_url.
  destruct (split_comma_piece s rest "" Hs) as [Hs1 Hs2].
  destruct (split_comma_piece p s "" Hp) as [_ Hp2].
  destruct (split_comma_piece p (s +:+ "," +:+ rest) "" Hp) as [_ Hp3].
  rewrite Hs1, Hp2, Hp3, Hs1, Hs2. repeat split; reflexivity.
Qed.

Lemma data_url_prefix_is_stripped_witness :
  strip_data_url "data:image/jpeg;base64,RklSRQ==" = "RklSRQ==".
Proof.
  apply (data_url_prefix_is_stripped "data:image/jpeg;base64" "RklSRQ==" "");
    reflexivity.
Defined.

(** ** The dispatcher's dictionary *)

Section dispatcher_entries.
Context `{Ext : Externals}.

(** X14: after [start_detection] the drone is active with the given session
    id and a frame count of 0, whatever entry it had before; after
    [stop_detection] it is not active; neither touches another drone's
    entry; and stopping a drone that was started from no entry restores the
    dictionary. *)
Theorem dispatcher_start_then_stop (did sid : string) (w : World) :
  let started := exec (DetectionService.start_detection did sid) w in
  let stopped := exec (DetectionService.stop_detection did) started in
  active_sessions started !! did = Some (mkDispatchEntry sid true 0) ∧
  eval (DetectionService.is_active did) started = Ok true ∧
  eval (DetectionService.is_active did) stopped = Ok false ∧
  (∀ other, other ≠ did →
     active_sessions started !! other = active_sessions w !! other ∧
     active_sessions stopped !! other = active_sessions w !! other) ∧
  (active_sessions w !! did = None →
     active_sessions stopped = active_sessions w).
Proof.
  intros started stopped. subst started stopped.
  unfold DetectionService.start_detection, DetectionService.stop_detection,
    DetectionService.is_active.
  unfold_m. simpl.
  split; [apply lookup_insert_eq |].
  split; [rewrite lookup_insert_eq; reflexivity |].
  split; [rewrite lookup_delete_eq; reflexivity |].
  split.
  - intros other Hne. split.
    + apply lookup_insert_ne. congruence.
    + rewrite lookup_delete_ne by congruence. apply lookup_insert_ne.
      congruence.
  - intros Hnone. rewrite delete_insert_eq. apply delete_id, Hnone.
Qed.

(** X15: [process_frame] for a drone without an active entry returns None
    and does nothing at all: the model is not called and the clock is not
    read.  For a drone with an active entry, each call that returns adds
    exactly 1 to that entry's frame count, keeps its session id and leaves
    the other entries alone; a call that raises adds nothing. *)
Theorem process_frame_counts_dispatched_frames (did : string)
    (frame : pyval) (w : World) :
  match active_sessions w !! did with
  | Some e =>
      if e_is_active e
      then match eval (DetectionService.process_frame did frame) w with
           | Ok _ =>
               active_sessions
                 (exec (DetectionService.process_frame did frame) w) =
                 <[did := bump e]> (active_sessions w)
           | Raise _ =>
               active_sessions
                 (exec (DetectionService.process_frame did frame) w) =
                 active_sessions w
           end
      else DetectionService.process_frame did frame w = (Ok PNone, w)
  | None => DetectionService.process_frame did frame w = (Ok PNone, w)
  end.
Proof.
  destruct (active_sessions w !! did) as [e |] eqn:He.
  - destruct (e_is_active e) eqn:Hon.
    + assert (Hrun : DetectionService.process_frame did frame w =
        (FireSmokeDetector.process_video_frame did frame (e_session_id e)
         ≫= λ result, modify (set_active_sessions (alter bump did))
         ≫= λ _, mret result) w).
      { unfold DetectionService.process_frame.
        erewrite run_bind
          by (unfold DetectionService.is_active, gets; rewrite He, Hon;
              reflexivity).
        change (negb true) with false. cbv beta iota.
        erewrite run_bind by (unfold gets; rewrite He; reflexivity).
        reflexivity. }
      unfold eval, exec. rewrite Hrun.
      assert (Hkeep : keeps active_sessions
                (FireSmokeDetector.process_video_frame did frame
                   (e_session_id e))) by keeps_tac.
      specialize (Hkeep w). unfold mbind, M_bind.
      destruct (FireSmokeDetector.process_video_frame did frame
                  (e_session_id e) w) as [[r | ex] w1]; simpl in *;
        [| exact Hkeep].
      rewrite Hkeep. apply map_eq. intros k.
      destruct (decide (k = did)) as [-> |].
      * rewrite lookup_alter_eq, lookup_insert_eq, He. reflexivity.
      * rewrite lookup_alter_ne, lookup_insert_ne by congruence. reflexivity.
    + unfold DetectionService.process_frame.
      erewrite run_bind
        by (unfold DetectionService.is_active, gets; rewrite He, Hon;
            reflexivity).
      reflexivity.
  - unfold DetectionService.process_frame.
    erewrite run_bind
      by (unfold DetectionService.is_active, gets; rewrite He; reflexivity).
    reflexivity.
Qed.

(** X16: the detector's own logger for a drone id that has no row swallows
    the failure whole: it creates no log entry and, because the counter
    update sits in the same [try], does not count the frame either. *)
Theorem detector_log_without_drone_row (did sid : string) (result : pyval)
    (w : World) :
  Drone_filter_id did (drones w) = [] →
  FireSmokeDetector._log_detection did result sid w = (Ok tt, w).
Proof.
  intros Hnone. unfold FireSmokeDetector._log_detection.
  unfold try_except, mbind at 1, M_bind at 1, gets.
  unfold mbind at 1, M_bind at 1. simpl. rewrite Hnone. reflexivity.
Qed.

End dispatcher_entries.

Lemma detector_log_without_drone_row_witness :
  FireSmokeDetector._log_detection "D-99"
    (PDict [("detections", PList []); ("has_fire", PBool true)]) "uuid-500"
    Demo.w_scanning = (Ok tt, Demo.w_scanning).
Proof.
  apply (detector_log_without_drone_row "D-99" "uuid-500"
           (PDict [("detections", PList []); ("has_fire", PBool true)])
           Demo.w_scanning).
  reflexivity.
Defined.

(** ** The router's detection log *)

Lemma logged_as_nil (did : string) (w : World) : logged_as did [] w w.
Proof.
  exists [], []. rewrite !app_nil_r. repeat split; constructor.
Qed.

Lemma logged_as_cons (did : string) (d : pyval) (ds : list pyval)
    (w w1 w2 : World) :
  logged_as did [d] w w1 → logged_as did ds w1 w2 →
  logged_as did (d :: ds) w w2.
Proof.
  intros (es1 & ms1 & Hl1 & Hp1 & Ht1 & Hc1 & Hi1 & Hk1 & Hs1 & Hd1 & Ha1 & Hm1 & Ho1)
         (es2 & ms2 & Hl2 & Hp2 & Ht2 & Hc2 & Hi2 & Hk2 & Hs2 & Hd2 & Ha2 & Hm2 & Ho2).
  exists (es1 ++ es2), (ms1 ++ ms2).
  change (d :: ds) with ([d] ++ ds). rewrite !filter_app, !fmap_app.
  rewrite Hl2, Hl1, Hp2, Hp1, Ht1, Ht2, Hc1, Hc2, Hi1, Hi2, !app_assoc.
  repeat split; try congruence. apply Forall_app. split; assumption.
Qed.

Section router_log.
Context `{Ext : Externals}.

(** X17: the router's [_log_detection] creates exactly one log entry and
    publishes exactly one persistent DETECTION_ALERT on the alerts topic for
    each fire or smoke detection of the result, in the order of the list:
    FIRE_DETECTED or SMOKE_DETECTED by class, with the detection's
    confidence, each alert naming the id of its entry.  Detections of other
    classes are passed over, and no drone or session row is written. *)
Theorem router_logs_each_fire_or_smoke (drone : Drone)
    (rkv : list (string * pyval)) (dets : list pyval) (session : ScanSession)
    (w : World) :
  assoc "detections" rkv = Some (PList dets) →
  Forall well_formed_detection dets →
  pub_open w = true →
  eval (UnifiedConsumer._log_detection drone (PDict rkv) session) w = Ok tt ∧
  logged_as (drone_id drone) dets w
    (exec (UnifiedConsumer._log_detection drone (PDict rkv) session) w).
Proof.
  intros Hdets Hwf Hopen.
  unfold eval, exec, UnifiedConsumer._log_detection.
  erewrite run_bind by (unfold lift; simpl; rewrite Hdets; reflexivity).
  erewrite run_bind by reflexivity.
  clear Hdets. revert w Hopen.
  induction Hwf as [| det dets Hdet Hrest IH]; intros w Hopen.
  - split; [reflexivity | apply logged_as_nil].
  - cbn [for_each].
    destruct Hdet as (kv & c & x & -> & Hclass & Hconf).
    match goal with |- context [for_each dets ?b] => set (body := b) in * end.
    assert (Hstep : ∃ w1, body (PDict kv) w = (Ok tt, w1) ∧
                          logged_as (drone_id drone) [PDict kv] w w1 ∧
                          pub_open w1 = true).
    { assert (Hfs : is_fire_or_smoke (PDict kv) =
                      (String.eqb c "fire" || String.eqb c "smoke")).
      { unfold is_fire_or_smoke, det_class. simpl. rewrite Hclass.
        reflexivity. }
      assert (Hlt : det_log_type (PDict kv) =
                      if String.eqb c "fire" then LogType.FIRE_DETECTED
                      else LogType.SMOKE_DETECTED).
      { unfold det_log_type, det_class. simpl. rewrite Hclass. reflexivity. }
      assert (Hcf : det_confidence (PDict kv) = Some x).
      { unfold det_confidence. simpl. rewrite Hconf. reflexivity. }
      subst body. cbv beta.
      erewrite run_bind
        by (unfold lift, py_item; simpl; rewrite Hclass; reflexivity).
      cbn [py_is_str]. unfold logged_as.
      rewrite filter_cons, filter_nil, Hfs.
      destruct (String.eqb c "fire" || String.eqb c "smoke") eqn:Eq.
      - destruct (decide _) as [_ | Hno]; [| contradiction].
        unfold LogEntry_create, as_float, py_item, py_get.
        unfold_m. rewrite Hconf. simpl. rewrite publish_gui_run. simpl.
        rewrite Hopen. simpl. eexists. split; [reflexivity |].
        split; [| exact Hopen].
        eexists [_], [_]. simpl. rewrite Hlt, Hcf.
        repeat split; try reflexivity; try exact Hopen. repeat constructor.
      - destruct (decide _) as [Hyes | _]; [discriminate |].
        eexists. split; [reflexivity |]. split; [| exact Hopen].
        exists [], []. rewrite !app_nil_r. repeat split; constructor. }
    destruct Hstep as (w1 & Hrun & Hlog & Hopen1).
    erewrite run_bind by exact Hrun.
    destruct (IH w1 Hopen1) as [Hev Hlogs].
    split; [exact Hev |].
    eapply logged_as_cons; [exact Hlog | exact Hlogs].
Qed.

End router_log.

(** One fire, one person, one smoke: two entries and two alerts. *)
Lemma router_logs_each_fire_or_smoke_witness :
  let fire := PDict [("class", PStr "fire"); ("confidence", PFloat 0.82)] in
  let person := PDict [("class", PStr "person"); ("confidence", PFloat 0.9)] in
  let smoke := PDict [("class", PStr "smoke"); ("confidence", PFloat 0.6)] in
  eval (UnifiedConsumer._log_detection Demo.d01
          (PDict [("detections", PList [fire; person; smoke])])
          (mkScanSession 1 500 1 true 6 None 0 0 0)) Demo.w_scanning = Ok tt.
Proof.
  intros fire person smoke.
  apply (router_logs_each_fire_or_smoke Demo.d01
           [("detections", PList [fire; person; smoke])]
           [fire; person; smoke] (mkScanSession 1 500 1 true 6 None 0 0 0)
           Demo.w_scanning).
  - reflexivity.
  - repeat constructor; eexists _, _, _; repeat split; reflexivity.
  - reflexivity.
Defined.

(** * Further properties of the services *)

Lemma filter_id_none_free (did : string) (rows : list Drone) :
  Drone_filter_id did rows = [] →
  existsb (λ r, String.eqb (drone_id r) did) rows = false.
Proof.
  unfold Drone_filter_id. induction rows as [| r rows IH]; [reflexivity |].
  rewrite filter_cons. destruct (decide (drone_id r = did)) as [| Hne];
    [discriminate |].
  intros Hnil. simpl. rewrite (IH Hnil), orb_false_r.
  apply String.eqb_neq, Hne.
Qed.

(** X18: registering an unknown drone id appends one row with the given id,
    name and model, the four topics [drone.<id>.<kind>], a fresh GUI token,
    status offline, active, never seen, and returns [created = true]; it
    writes no session or log row.  The new row is what [get_by_id] then
    finds, and registering the same id again returns [created = false] with
    the same token and topics. *)
Theorem register_new_drone (did name model : string) (w : World) :
  Drone_filter_id did (drones w) = [] →
  ∃ d w1,
    DroneService.register did name model w = (Ok (d, true), w1) ∧
    drones w1 = drones w ++ [d] ∧
    sessions w1 = sessions w ∧ logs w1 = logs w ∧
    drone_id d = did ∧ d_name d = name ∧ d_model d = model ∧
    Drone_topics d = derived_topics did ∧
    gui_token d = uuid_seq w ∧ last_status d = DroneStatus.OFFLINE ∧
    d_is_active d = true ∧ last_seen d = None ∧
    eval (DroneService.get_by_id did) w1 = Ok d ∧
    ∃ d', eval (DroneService.register did name model) w1 = Ok (d', false) ∧
          gui_token d' = gui_token d ∧ Drone_topics d' = Drone_topics d.
Proof.
  intros Hnone. pose proof (filter_id_none_free _ _ Hnone) as Hfree.
  unfold DroneService.register at 1, Drone_create. unfold_m.
  rewrite Hnone. simpl. rewrite Hfree. simpl.
  eexists _, _. split; [reflexivity |]. simpl.
  repeat (split; [reflexivity |]).
  assert (Hone : Drone_filter_id did
            (drones w ++
             [Drone_fill_topics
                (mkDrone (next_pk d_id (drones w)) did name model (uuid_seq w)
                   "" "" "" "" DroneStatus.OFFLINE None true (clock w)
                   (S (clock w)))]) =
            [Drone_fill_topics
                (mkDrone (next_pk d_id (drones w)) did name model (uuid_seq w)
                   "" "" "" "" DroneStatus.OFFLINE None true (clock w)
                   (S (clock w)))]).
  { unfold Drone_filter_id in *. rewrite filter_app, Hnone. simpl.
    rewrite filter_cons, filter_nil.
    destruct (decide _) as [| Hno]; [reflexivity | contradiction Hno].
    reflexivity. }
  split.
  - unfold DroneService.get_by_id, eval. unfold_m. simpl. rewrite Hone.
    reflexivity.
  - unfold DroneService.register, Drone_save_fields, eval. unfold_m. simpl.
    rewrite Hone. simpl. rewrite existsb_app. simpl.
    rewrite Nat.eqb_refl, orb_true_r. simpl.
    eexists. split; [reflexivity |]. split; reflexivity.
Qed.

Lemma register_new_drone_witness :
  ∃ d, eval (DroneService.register "D-02" "Kartal-2" "X4") Demo.w0
       = Ok (d, true).
Proof.
  destruct (register_new_drone "D-02" "Kartal-2" "X4" Demo.w0)
    as (d & w1 & Hrun & _); [reflexivity |].
  exists d. unfold eval. rewrite Hrun. reflexivity.
Defined.

Section unknown_drone.
Context `{Ext : Externals}.

(** X19: for a drone id without a row, [get_by_id] and [ScanService.start]
    raise [DroneNotFound] and change nothing; a START_SCAN command for such
    a drone is negatively acknowledged without requeue, with no session, no
    dispatcher entry and nothing published. *)
Theorem start_scan_for_unknown_drone (tag : nat) (body : string)
    (drone : Drone) (kv : list (string * pyval)) (w : World) :
  json_loads body = Some (PDict kv) →
  assoc "command" kv = Some (PStr "START_SCAN") →
  Drone_filter_id (drone_id drone) (drones w) = [] →
  DroneService.get_by_id (drone_id drone) w = (Raise DroneNotFound, w) ∧
  ScanService.start (drone_id drone) w = (Raise DroneNotFound, w) ∧
  UnifiedConsumer._on_gui_command tag body drone w =
    (Ok tt, set_acks (λ l, l ++ [basic_nack tag false]) w).
Proof.
  intros Hparse Hcmd Hnone.
  assert (Hget : DroneService.get_by_id (drone_id drone) w =
                 (Raise DroneNotFound, w)).
  { unfold DroneService.get_by_id. unfold_m. rewrite Hnone. reflexivity. }
  assert (Hstart : ScanService.start (drone_id drone) w =
                   (Raise DroneNotFound, w)).
  { unfold ScanService.start. erewrite run_bind_raise by exact Hget.
    reflexivity. }
  split; [exact Hget |]. split; [exact Hstart |].
  unfold UnifiedConsumer._on_gui_command, UnifiedConsumer.loads,
    UnifiedConsumer._handle_start_scan, UnifiedConsumer.nack,
    ScanService.start, DroneService.get_by_id, py_get.
  unfold_m. rewrite Hparse. simpl. rewrite Hcmd. simpl.
  rewrite Hnone. reflexivity.
Qed.

End unknown_drone.

Lemma start_scan_for_unknown_drone_witness :
  let ghost := mkDrone 9 "D-99" "Ghost" "X4" 1 "" "" "" "" "" None true 0 0 in
  UnifiedConsumer._on_gui_command 3 (Demo.body_command "START_SCAN") ghost
    Demo.w0 = (Ok tt, set_acks (λ l, l ++ [basic_nack 3 false]) Demo.w0).
Proof.
  intros ghost.
  apply (start_scan_for_unknown_drone 3 (Demo.body_command "START_SCAN") ghost
           [("command", PStr "START_SCAN")] Demo.w0); reflexivity.
Defined.

(** ** Deactivating and registering again *)

Lemma filter_pk_fmap (pk : nat) (f : Drone → Drone) (rows : list Drone) :
  (∀ r, d_id (f r) = d_id r) →
  filter (λ d, d_id d = pk) (f <$> rows) = f <$> filter (λ d, d_id d = pk) rows.
Proof.
  intros Hid. induction rows as [| r rows IH]; [reflexivity |].
  rewrite fmap_cons, !filter_cons, Hid.
  destruct (decide (d_id r = pk)); rewrite IH; reflexivity.
Qed.

Lemma not_listed_when_offline (did : string) (r1 : Drone) (w : World) :
  Drone_filter_id did (drones w) = [r1] →
  Drone_is_online r1 = false →
  ∀ r, r ∈ DroneService_list_active w → drone_id r ≠ did.
Proof.
  intros Hone Hoff r Hin Hid. unfold DroneService_list_active in Hin.
  apply list_elem_of_filter in Hin. destruct Hin as [[Hact Hst] Hin].
  assert (Hr : r ∈ Drone_filter_id did (drones w)).
  { unfold Drone_filter_id. apply list_elem_of_filter. split; assumption. }
  rewrite Hone in Hr. apply list_elem_of_singleton in Hr. subst r1.
  unfold Drone_is_online in Hoff. rewrite Hact in Hoff. simpl in Hoff.
  apply negb_false_iff, String.eqb_eq in Hoff. contradiction.
Qed.

(** [deactivate] on the stored row of a drone, run symbolically. *)
Lemma deactivate_run (did : string) (row : Drone) (w : World) :
  Drone_filter_id did (drones w) = [row] →
  ∃ o w1 r1,
    DroneService_deactivate row w = (Ok o, w1) ∧
    Drone_filter_id did (drones w1) = [r1] ∧
    d_is_active r1 = false ∧ last_status r1 = DroneStatus.OFFLINE ∧
    last_seen r1 = last_seen row ∧ same_identity row r1 ∧
    length (drones w1) = length (drones w).
Proof.
  intros Hone. pose proof (filter_id_pk_stored _ _ _ Hone) as Hpk.
  unfold DroneService_deactivate, Drone_save_fields. unfold_m. simpl.
  rewrite !fill_topics_pk. simpl. rewrite Hpk. simpl.
  eexists _, _, _. split; [reflexivity |]. simpl.
  rewrite filter_id_fmap
    by (intros r; destruct (d_id r =? d_id row)%nat; reflexivity).
  rewrite Hone. simpl. rewrite Nat.eqb_refl, length_fmap.
  split; [reflexivity |].
  unfold same_identity, Drone_write, Drone_fill_topics. simpl.
  destruct (String.eqb _ _); simpl; repeat split; reflexivity.
Qed.

(** [register] on an id that has one row, run symbolically. *)
Lemma register_again_run (did name model : string) (r1 : Drone) (w : World) :
  Drone_filter_id did (drones w) = [r1] →
  ∃ o w2 r2,
    DroneService.register did name model w = (Ok (o, false), w2) ∧
    Drone_filter_id did (drones w2) = [r2] ∧
    d_is_active r2 = true ∧ last_status r2 = last_status r1 ∧
    last_seen r2 = Some (clock w) ∧ same_identity r1 r2 ∧
    length (drones w2) = length (drones w).
Proof.
  intros Hone. pose proof (filter_id_pk_stored _ _ _ Hone) as Hpk.
  unfold DroneService.register, Drone_save_fields. unfold_m. simpl.
  rewrite Hone. simpl. rewrite !fill_topics_pk. simpl. rewrite Hpk. simpl.
  eexists _, _, _. split; [reflexivity |]. simpl.
  rewrite filter_id_fmap
    by (intros r; destruct (d_id r =? d_id r1)%nat; reflexivity).
  rewrite Hone. simpl. rewrite Nat.eqb_refl, length_fmap.
  split; [reflexivity |].
  unfold same_identity, Drone_write, Drone_fill_topics. simpl.
  destruct (String.eqb _ _); simpl; repeat split; reflexivity.
Qed.

(** X20: [deactivate] on a registered drone clears [is_active] and sets the
    status to offline, so the drone is no longer listed as active; its
    identity, topics, token and [last_seen] stay.  A later [register] of the
    same id sets [is_active] again but leaves the status offline: the drone
    is still not online and still not listed, and no row was added. *)
Theorem deactivated_drone_stays_offline_after_register
    (did name model : string) (row : Drone) (w : World) :
  Drone_filter_id did (drones w) = [row] →
  ∃ o1 w1 r1 o2 w2 r2,
    DroneService_deactivate row w = (Ok o1, w1) ∧
    Drone_filter_id did (drones w1) = [r1] ∧
    d_is_active r1 = false ∧ last_status r1 = DroneStatus.OFFLINE ∧
    last_seen r1 = last_seen row ∧ same_identity row r1 ∧
    (∀ r, r ∈ DroneService_list_active w1 → drone_id r ≠ did) ∧
    DroneService.register did name model w1 = (Ok (o2, false), w2) ∧
    Drone_filter_id did (drones w2) = [r2] ∧
    d_is_active r2 = true ∧ last_status r2 = DroneStatus.OFFLINE ∧
    Drone_is_online r2 = false ∧ same_identity row r2 ∧
    length (drones w2) = length (drones w) ∧
    (∀ r, r ∈ DroneService_list_active w2 → drone_id r ≠ did).
Proof.
  intros Hone.
  destruct (deactivate_run did row w Hone)
    as (o1 & w1 & r1 & Hrun1 & Hone1 & Hact1 & Hst1 & Hseen1 & Hid1 & Hlen1).
  destruct (register_again_run did name model r1 w1 Hone1)
    as (o2 & w2 & r2 & Hrun2 & Hone2 & Hact2 & Hst2 & _ & Hid2 & Hlen2).
  exists o1, w1, r1, o2, w2, r2.
  assert (Hoff1 : Drone_is_online r1 = false)
    by (unfold Drone_is_online; rewrite Hact1; reflexivity).
  assert (Hoff2 : Drone_is_online r2 = false)
    by (unfold Drone_is_online; rewrite Hst2, Hst1, Hact2; reflexivity).
  repeat (split; [first [assumption | congruence] |]).
  split; [exact (not_listed_when_offline did r1 w1 Hone1 Hoff1) |].
  repeat (split; [first [assumption | congruence] |]).
  split.
  { unfold same_identity in *. intuition congruence. }
  split; [congruence | exact (not_listed_when_offline did r2 w2 Hone2 Hoff2)].
Qed.

Lemma deactivated_drone_stays_offline_after_register_witness :
  ∃ o1 w1 r1 o2 w2 r2,
    DroneService_deactivate Demo.d01 Demo.w0 = (Ok o1, w1) ∧
    Drone_filter_id "D-01" (drones w1) = [r1] ∧
    d_is_active r1 = false ∧ last_status r1 = DroneStatus.OFFLINE ∧
    last_seen r1 = last_seen Demo.d01 ∧ same_identity Demo.d01 r1 ∧
    (∀ r, r ∈ DroneService_list_active w1 → drone_id r ≠ "D-01") ∧
    DroneService.register "D-01" "Scout" "X4" w1 = (Ok (o2, false), w2) ∧
    Drone_filter_id "D-01" (drones w2) = [r2] ∧
    d_is_active r2 = true ∧ last_status r2 = DroneStatus.OFFLINE ∧
    Drone_is_online r2 = false ∧ same_identity Demo.d01 r2 ∧
    length (drones w2) = length (drones Demo.w0) ∧
    (∀ r, r ∈ DroneService_list_active w2 → drone_id r ≠ "D-01").
Proof.
  apply (deactivated_drone_stays_offline_after_register "D-01" "Scout" "X4"
           Demo.d01 Demo.w0).
  reflexivity.
Defined.

(** ** A scan from start to stop *)

(** [start] on a registered drone: the rows it leaves. *)
Lemma start_run_rows (did : string) (d : Drone) (w : World) :
  Drone_filter_id did (drones w) = [d] →
  ∃ new w1 o,
    ScanService.start did w = (Ok new, w1) ∧
    sessions w1 = (close_active d (clock w) <$> sessions w) ++ [new] ∧
    s_drone new = d_id d ∧ is_active new = true ∧
    drones w1 =
      (λ r, if (d_id r =? d_id d)%nat
            then Drone_write [F_last_status; F_last_seen; F_updated_at] o r
            else r) <$> drones w ∧
    length (logs w1) = S (length (logs w)).
Proof.
  intros Hone. pose proof (filter_id_pk_stored _ _ _ Hone) as Hpk.
  unfold ScanService.start, DroneService.get_by_id, DroneService.update_status,
    LogService.log_drone_event, LogService.create, LogEntry_create,
    ScanSession_create, Drone_save_fields.
  unfold_m. rewrite Hone. simpl.
  rewrite !fill_topics_pk. simpl. rewrite Hpk. simpl.
  eexists _, _, _. split; [reflexivity |]. simpl.
  rewrite length_app. simpl.
  repeat split; try reflexivity. lia.
Qed.

(** [stop] on a stored session whose drone has one row. *)
Lemma stop_run (s : ScanSession) (row : Drone) (w : World) :
  stored (s_id s) w = true →
  filter (λ d, d_id d = s_drone s) (drones w) = [row] →
  ∃ w2 o,
    ScanService.stop s w = (Ok (ScanSession_close (clock w) s), w2) ∧
    sessions w2 =
      (λ r, if (s_id r =? s_id s)%nat
            then ScanSession_write [F_s_is_active; F_ended_at]
                   (ScanSession_close (clock w) s) r
            else r) <$> sessions w ∧
    drones w2 =
      (λ r, if (d_id r =? d_id row)%nat
            then Drone_write [F_last_status; F_last_seen; F_updated_at] o r
            else r) <$> drones w ∧
    last_status o = DroneStatus.HOVERING ∧
    length (logs w2) = S (length (logs w)).
Proof.
  intros Hstored Hfk. unfold stored in Hstored.
  destruct (pk_filter_stored _ _ _ Hfk) as (Hrowpk & Hrowstored).
  unfold ScanService.stop, ScanService.session_drone, ScanSession_save_fields,
    DroneService.update_status, Drone_save_fields,
    LogService.log_drone_event, LogService.create, LogEntry_create.
  unfold_m. simpl. rewrite Hstored. simpl. rewrite Hfk. simpl.
  rewrite !fill_topics_pk. simpl. rewrite Hrowstored. simpl.
  eexists _, _. split; [reflexivity |]. simpl.
  rewrite length_app. simpl.
  split; [reflexivity |]. split; [reflexivity |].
  split; [| lia].
  unfold Drone_fill_topics. simpl. destruct (String.eqb _ _); reflexivity.
Qed.

(** X21: on a drone with one row, [start] followed by [stop] of the session
    it returned succeeds; the session comes back closed with an end time and
    its own id, exactly one session row was added, no session of the drone
    is left active, the drone's row says hovering with its identity, topics
    and token unchanged, and two log entries were written. *)
Theorem start_then_stop_leaves_no_active_session (did : string) (row : Drone)
    (w : World) :
  Drone_filter_id did (drones w) = [row] →
  filter (λ d, d_id d = d_id row) (drones w) = [row] →
  ∃ s w1 s' w2,
    ScanService.start did w = (Ok s, w1) ∧
    ScanService.stop s w1 = (Ok s', w2) ∧
    session_id s' = session_id s ∧ is_active s' = false ∧
    is_Some (ended_at s') ∧
    length (sessions w2) = S (length (sessions w)) ∧
    active_sessions_of row (sessions w2) = [] ∧
    (∀ x, x ∈ ScanService_list_active w2 → s_drone x ≠ d_id row) ∧
    (∃ r2, Drone_filter_id did (drones w2) = [r2] ∧
           last_status r2 = DroneStatus.HOVERING ∧ same_identity row r2) ∧
    length (logs w2) = length (logs w) + 2.
Proof.
  intros Hone Hpk.
  destruct (start_run_rows did row w Hone)
    as (s & w1 & o1 & Hstart & Hs1 & Hfk & Hact & Hd1 & Hl1).
  assert (Hstored : stored (s_id s) w1 = true).
  { unfold stored. rewrite Hs1, existsb_app. simpl.
    rewrite Nat.eqb_refl. apply orb_true_r. }
  assert (Hid1 : ∀ r, d_id ((λ r, if (d_id r =? d_id row)%nat
            then Drone_write [F_last_status; F_last_seen; F_updated_at] o1 r
            else r) r) = d_id r).
  { intros r. simpl. destruct (d_id r =? d_id row)%nat; reflexivity. }
  assert (Hfk1 : ∃ row1, filter (λ d, d_id d = s_drone s) (drones w1) = [row1]
                         ∧ d_id row1 = d_id row ∧ drone_id row1 = drone_id row
                         ∧ same_identity row row1).
  { rewrite Hd1, Hfk, filter_pk_fmap, Hpk by exact Hid1. simpl.
    rewrite Nat.eqb_refl. eexists. split; [reflexivity |].
    unfold same_identity. simpl. repeat split; reflexivity. }
  destruct Hfk1 as (row1 & Hfk1 & Hpk1 & Hdid1 & Hsame1).
  destruct (stop_run s row1 w1 Hstored Hfk1)
    as (w2 & o2 & Hstop & Hs2 & Hd2 & Ho2 & Hl2).
  exists s, w1, (ScanSession_close (clock w1) s), w2.
  split; [exact Hstart |]. split; [exact Hstop |].
  split; [reflexivity |]. split; [reflexivity |].
  split; [eexists; reflexivity |].
  assert (Hnone : ∀ x, x ∈ sessions w2 →
                       s_drone x = d_id row → is_active x = false).
  { intros x Hx Hdr. rewrite Hs2, Hs1 in Hx.
    apply list_elem_of_fmap in Hx. destruct Hx as (y & -> & Hy).
    destruct (s_id y =? s_id s)%nat eqn:E; [reflexivity |].
    apply elem_of_app in Hy. destruct Hy as [Hy | Hy].
    - apply list_elem_of_fmap in Hy. destruct Hy as (z & -> & Hz).
      pose proof (close_active_inactive row (clock w) z) as Hc.
      unfold active_of in Hc. rewrite Hdr, Nat.eqb_refl in Hc. exact Hc.
    - apply list_elem_of_singleton in Hy. subst y.
      rewrite Nat.eqb_refl in E. discriminate. }
  split.
  { rewrite Hs2, length_fmap, Hs1, length_app, length_fmap. simpl. lia. }
  split.
  { unfold active_sessions_of. apply elem_of_nil_inv. intros x Hx.
    apply list_elem_of_filter in Hx. destruct Hx as [Hx Hin].
    unfold active_of in Hx. apply andb_true_iff in Hx.
    destruct Hx as [E Hact']. apply Nat.eqb_eq in E.
    rewrite (Hnone x Hin E) in Hact'. discriminate. }
  split.
  { intros x Hx Hdr. unfold ScanService_list_active in Hx.
    apply list_elem_of_filter in Hx. destruct Hx as [Hact' Hx].
    rewrite (Hnone x Hx Hdr) in Hact'. discriminate. }
  split; [| lia].
  rewrite Hd2, Hd1, !filter_id_fmap, Hone; cycle 1.
  { intros r. destruct (d_id r =? d_id row)%nat; reflexivity. }
  { intros r. destruct (d_id r =? d_id row1)%nat; reflexivity. }
  simpl. rewrite Nat.eqb_refl. simpl. rewrite Hpk1, Nat.eqb_refl.
  eexists. split; [reflexivity |]. simpl.
  split; [exact Ho2 |].
  unfold same_identity. simpl. repeat split; reflexivity.
Qed.

Lemma start_then_stop_leaves_no_active_session_witness :
  ∃ s w1 s' w2,
    ScanService.start "D-01" Demo.w0 = (Ok s, w1) ∧
    ScanService.stop s w1 = (Ok s', w2) ∧
    session_id s' = session_id s ∧ is_active s' = false ∧
    is_Some (ended_at s') ∧
    length (sessions w2) = S (length (sessions Demo.w0)) ∧
    active_sessions_of Demo.d01 (sessions w2) = [] ∧
    (∀ x, x ∈ ScanService_list_active w2 → s_drone x ≠ d_id Demo.d01) ∧
    (∃ r2, Drone_filter_id "D-01" (drones w2) = [r2] ∧
           last_status r2 = DroneStatus.HOVERING ∧
           same_identity Demo.d01 r2) ∧
    length (logs w2) = length (logs Demo.w0) + 2.
Proof.
  apply (start_then_stop_leaves_no_active_session "D-01" Demo.d01 Demo.w0);
    reflexivity.
Defined.

(** ** Counting a frame *)

Section frame_stats.
Context `{Ext : Externals}.

(** X22: [record_frame] on a stored session succeeds for any pair of flags:
    the returned object and the session's row take the object's frame
    counter plus one, and the fire (smoke) counter plus one exactly when the
    flag is set; a counter whose flag is unset is not written at all, and
    other rows, drones and logs stay.  The counters written come from the
    object, not the row: a second call with the same object leaves the store
    as the first did.  The router's own [_update_session_stats] leaves the
    same store as [record_frame] with the result's flags. *)
Theorem record_frame_writes_object_counters (s : ScanSession)
    (has_fire has_smoke : bool) (w : World) :
  stored (s_id s) w = true →
  let w' := exec (ScanService.record_frame s has_fire has_smoke) w in
  eval (ScanService.record_frame s has_fire has_smoke) w =
    Ok (ScanSession_add 1 (if has_fire then 1 else 0)
          (if has_smoke then 1 else 0) s) ∧
  Forall2 (frame_written s has_fire has_smoke) (sessions w) (sessions w') ∧
  drones w' = drones w ∧ logs w' = logs w ∧
  exec (ScanService.record_frame s has_fire has_smoke) w' = w' ∧
  ∀ rkv, result_flag (PDict rkv) "has_fire" = has_fire →
         result_flag (PDict rkv) "has_smoke" = has_smoke →
         UnifiedConsumer._update_session_stats s (PDict rkv) w = (Ok tt, w').
Proof.
  intros Hrow w'. subst w'. unfold stored in Hrow.
  assert (Hrun : ∃ fs o,
    ScanService.record_frame s has_fire has_smoke w =
      (Ok o, set_sessions (fmap (λ r, if (s_id r =? s_id s)%nat
                                      then ScanSession_write fs o r else r)) w) ∧
    o = ScanSession_add 1 (if has_fire then 1 else 0)
          (if has_smoke then 1 else 0) s ∧
    fs = [F_total_frames_processed]
           ++ (if has_fire then [F_fire_detections] else [])
           ++ (if has_smoke then [F_smoke_detections] else [])).
  { unfold ScanService.record_frame, ScanSession_save_fields. unfold_m.
    destruct has_fire, has_smoke; simpl; rewrite Hrow; simpl;
      eexists _, _; (split; [reflexivity |]);
      unfold ScanSession_add; simpl; rewrite ?Z.add_0_r;
      split; reflexivity. }
  destruct Hrun as (fs & o & Hrun & Ho & Hfs).
  unfold exec, eval. rewrite Hrun. simpl.
  split; [rewrite Ho; reflexivity |].
  split.
  { clear Hrun Hrow. induction (sessions w) as [| r rows IH]; simpl;
      constructor; [| exact IH].
    unfold frame_written. destruct (s_id r =? s_id s)%nat; [| reflexivity].
    subst fs o. destruct has_fire, has_smoke; simpl;
      rewrite ?Z.add_0_r; repeat split; reflexivity. }
  split; [reflexivity |]. split; [reflexivity |].
  split.
  { unfold ScanService.record_frame, ScanSession_save_fields. unfold_m.
    assert (Hrow' : existsb (λ r, (s_id r =? s_id s)%nat)
              ((λ r, if (s_id r =? s_id s)%nat
                     then ScanSession_write fs o r else r) <$> sessions w)
            = true).
    { rewrite existsb_fmap_pk; [exact Hrow |].
      intros r. destruct (s_id r =? s_id s)%nat; reflexivity. }
    assert (Hidem : ∀ fs' o' (rows : list ScanSession),
      fs' = fs → o' = o →
      (λ r, if (s_id r =? s_id s)%nat
            then ScanSession_write fs' o' r else r) <$>
        ((λ r, if (s_id r =? s_id s)%nat
               then ScanSession_write fs o r else r) <$> rows) =
      (λ r, if (s_id r =? s_id s)%nat
            then ScanSession_write fs o r else r) <$> rows).
    { intros fs' o' rows -> ->. rewrite <- list_fmap_compose.
      apply list_fmap_ext. intros _ r _. simpl.
      destruct (s_id r =? s_id s)%nat eqn:E; simpl; rewrite E;
        [| reflexivity].
      unfold ScanSession_write. simpl.
      repeat match goal with |- context [has ?f ?l] =>
               destruct (has f l) end; reflexivity. }
    subst fs o.
    destruct has_fire, has_smoke; simpl; simpl in Hrow'; rewrite Hrow';
      simpl; unfold set_sessions; simpl; f_equal;
      apply Hidem; unfold ScanSession_add; simpl; rewrite ?Z.add_0_r;
      reflexivity. }
  intros rkv Hf Hs. unfold result_flag in Hf, Hs. simpl in Hf, Hs.
  clear Hrun. subst fs o.
  unfold UnifiedConsumer._update_session_stats, ScanSession_save_fields,
    flag, lift. unfold_m. simpl.
  rewrite Hf, Hs. destruct has_fire, has_smoke; simpl; rewrite Hrow; simpl;
    unfold ScanSession_add; simpl; rewrite ?Z.add_0_r; reflexivity.
Qed.

End frame_stats.

(** A frame with fire and no smoke, counted on the open session of "D-01". *)
Lemma record_frame_writes_object_counters_witness :
  sessions (exec (ScanService.record_frame
                    (mkScanSession 1 500 1 true 6 None 0 0 0) true false)
              Demo.w_scanning) =
    [mkScanSession 1 500 1 true 6 None 1 1 0] ∧
  eval (ScanService.record_frame
          (mkScanSession 1 500 1 true 6 None 0 0 0) true false)
    Demo.w_scanning = Ok (mkScanSession 1 500 1 true 6 None 1 1 0).
Proof.
  destruct (record_frame_writes_object_counters
              (mkScanSession 1 500 1 true 6 None 0 0 0) true false
              Demo.w_scanning eq_refl) as (Hev & _).
  split; [reflexivity | exact Hev].
Defined.

(** ** Reading the log *)

Global Instance newer_first_total : Total newer_first.
Proof. intros a b. unfold newer_first. lia. Qed.

Global Instance newer_first_trans : Transitive newer_first.
Proof. intros a b c. unfold newer_first. lia. Qed.

(** The first [limit] rows of a filtered log, newest first. *)
Lemma newest_prefix (P : LogEntry → Prop) `{∀ e, Decision (P e)}
    (limit : nat) (rows : list LogEntry) :
  let l := take limit (merge_sort newer_first (filter P rows)) in
  (length l ≤ limit)%nat ∧
  (∀ e, e ∈ l → P e ∧ e ∈ rows) ∧
  StronglySorted newer_first l ∧
  (∀ e e', e ∈ l → e' ∈ rows → P e' → e' ∉ l →
           (timestamp e' ≤ timestamp e)%nat) ∧
  ((length (filter P rows) ≤ limit)%nat → l ≡ₚ filter P rows).
Proof.
  intros l. subst l.
  set (sorted := merge_sort newer_first (filter P rows)).
  assert (Hperm : sorted ≡ₚ filter P rows) by apply merge_sort_Permutation.
  assert (Hss : StronglySorted newer_first sorted)
    by (apply StronglySorted_merge_sort; apply _).
  rewrite <- (take_drop limit sorted) in Hss.
  split; [rewrite length_take; lia |].
  split.
  { intros e He. apply subseteq_take in He. rewrite Hperm in He.
    apply list_elem_of_filter in He. exact He. }
  split; [exact (StronglySorted_app_1_l _ _ _ Hss) |].
  split.
  { intros e e' He He' HP Hout.
    assert (Hin : e' ∈ take limit sorted ++ drop limit sorted).
    { rewrite take_drop, Hperm. apply list_elem_of_filter. split; assumption. }
    apply elem_of_app in Hin. destruct Hin as [Hin | Hin]; [contradiction |].
    exact (StronglySorted_app_1_elem_of _ _ _ _ _ Hss He Hin). }
  intros Hlen. rewrite take_ge; [exact Hperm |].
  rewrite Hperm. exact Hlen.
Qed.

(** X23: [get_detections(limit)] returns at most [limit] stored entries, all
    of type FIRE or SMOKE, newest first; every stored detection it leaves
    out is no newer than each one it returns, and with at most [limit]
    detections stored it returns them all.  No entry it returns is among
    those of [get_alerts]. *)
Theorem get_detections_returns_the_newest (limit : nat) (w : World) :
  let l := LogService_get_detections limit w in
  (length l ≤ limit)%nat ∧
  (∀ e, e ∈ l → e ∈ logs w ∧
                (log_type e = LogType.FIRE_DETECTED ∨
                 log_type e = LogType.SMOKE_DETECTED)) ∧
  StronglySorted newer_first l ∧
  (∀ e e', e ∈ l → e' ∈ logs w → LogEntry_is_detection e' = true → e' ∉ l →
           (timestamp e' ≤ timestamp e)%nat) ∧
  ((length (filter (λ e, LogEntry_is_detection e = true) (logs w)) ≤ limit)%nat →
   l ≡ₚ filter (λ e, LogEntry_is_detection e = true) (logs w)) ∧
  (∀ n e, e ∈ l → e ∉ LogService_get_alerts n w).
Proof.
  intros l. subst l. unfold LogService_get_detections.
  destruct (newest_prefix (λ e, LogEntry_is_detection e = true) limit (logs w))
    as (Hlen & Hin & Hsorted & Hnew & Hall).
  assert (Htype : ∀ e, LogEntry_is_detection e = true →
            log_type e = LogType.FIRE_DETECTED ∨
            log_type e = LogType.SMOKE_DETECTED).
  { intros e He. unfold LogEntry_is_detection, has in He.
    apply bool_decide_eq_true in He.
    apply elem_of_cons in He. destruct He as [He | He]; [left; exact He |].
    apply list_elem_of_singleton in He. right. exact He. }
  split; [exact Hlen |].
  split.
  { intros e He. destruct (Hin e He) as [HP Hrow].
    split; [exact Hrow | exact (Htype e HP)]. }
  split; [exact Hsorted |]. split; [exact Hnew |]. split; [exact Hall |].
  intros n e He Halert. unfold LogService_get_alerts in Halert.
  destruct (newest_prefix (λ e, log_type e = LogType.ALERT) n (logs w))
    as (_ & Hin' & _).
  destruct (Hin' e Halert) as [Ha _]. destruct (Hin e He) as [HP _].
  destruct (Htype e HP) as [Ht | Ht]; rewrite Ht in Ha; discriminate.
Qed.

(** * The drone client *)

Section drone_client.
Context `{Ext : Externals}.

(** X24: a START_SCAN command for a registered drone, followed to the drone.
    The router records the new session's id in its dispatcher and puts it at
    the top level of the message it forwards on the drone's command topic;
    the drone client looks for it under [params], which the message does not
    have.  So the client switches to scanning, acknowledges, and keeps no
    session id.  A START_SCAN whose [params] carry a [session_id] does set
    it. *)
Theorem started_scan_reaches_drone_without_session_id (tag : nat)
    (gui_body : string) (drone row : Drone) (kv : list (string * pyval))
    (w : World) :
  json_loads gui_body = Some (PDict kv) →
  assoc "command" kv = Some (PStr "START_SCAN") →
  Drone_filter_id (drone_id drone) (drones w) = [row] →
  pub_open w = true →
  broker_up w = true →
  let w' := exec (UnifiedConsumer._on_gui_command tag gui_body drone) w in
  ∃ new m mkv,
    last (sessions w') = Some new ∧
    active_sessions w' !! drone_id drone =
      Some (mkDispatchEntry (uuid_str (session_id new)) true 0) ∧
    m ∈ published w' ∧
    exchange m = Config.EXCHANGE_COMMANDS ∧
    routing_key m = command_topic drone ∧
    body m = PDict mkv ∧
    assoc "session_id" mkv = Some (PStr (uuid_str (session_id new))) ∧
    (∀ tag' body' c,
       json_loads body' = Some (body m) →
       DroneRabbitMQ._on_command tag' body' c =
         (scanning_client PNone c.1, c.2 ++ [basic_ack tag'])) ∧
    (∀ tag' body' c kv' pkv sid,
       json_loads body' = Some (PDict kv') →
       assoc "command" kv' = Some (PStr "START_SCAN") →
       assoc "params" kv' = Some (PDict pkv) →
       assoc "session_id" pkv = Some sid →
       DroneRabbitMQ._on_command tag' body' c =
         (scanning_client sid c.1, c.2 ++ [basic_ack tag'])).
Proof.
  intros Hparse Hcmd Hone Hopen Hup w'. subst w'.
  pose proof (filter_id_pk_stored _ _ _ Hone) as Hpk.
  unfold UnifiedConsumer._on_gui_command, UnifiedConsumer.loads,
    UnifiedConsumer._handle_start_scan, UnifiedConsumer.ack,
    ScanService.start, DroneService.get_by_id, DroneService.update_status,
    Drone_save_fields, ScanSession_create,
    LogService.log_drone_event, LogService.create, LogEntry_create,
    DetectionService.start_detection, RabbitMQManager.with_manager,
    RabbitMQManager.send_command, RabbitMQManager._ts,
    RabbitMQManager._publish, py_get.
  unfold_m. rewrite Hparse. simpl. rewrite Hcmd. simpl.
  rewrite Hone. simpl. rewrite !fill_topics_pk. simpl. rewrite Hpk. simpl.
  rewrite !publish_gui_run. simpl. rewrite Hopen. simpl. rewrite Hup. simpl.
  rewrite !publish_gui_run. simpl. rewrite Hopen. simpl.
  eexists _, (mkPublished _ _ _ _ _), _.
  split; [apply last_snoc |].
  split; [simpl; apply lookup_insert_eq |].
  split.
  { apply elem_of_app. left. apply elem_of_app. right.
    apply list_elem_of_singleton. reflexivity. }
  split; [reflexivity |]. split; [reflexivity |].
  split; [reflexivity |]. split; [reflexivity |].
  split.
  - intros tag' body' [st acks0] Hparse'. simpl in Hparse'.
    unfold DroneRabbitMQ._on_command, DroneRabbitMQ.dispatch.
    rewrite Hparse'. reflexivity.
  - intros tag' body' [st acks0] kv' pkv sid Hparse' Hcmd' Hparams Hsid.
    unfold DroneRabbitMQ._on_command, DroneRabbitMQ.dispatch, py_get.
    rewrite Hparse', Hcmd', Hparams. simpl. rewrite Hsid. reflexivity.
Qed.

(** X25: a MOVE_TO command from the GUI, followed to the drone.  The router
    relays it on the drone's command topic with the parameters as they came
    (none when the field is missing); on that message the drone client
    remembers where it was in its flight path, takes the given coordinates,
    keeping its own for those not given, follows the route and
    acknowledges. *)
Theorem gui_move_reaches_drone (tag : nat) (gui_body : string) (drone : Drone)
    (kv pkv : list (string * pyval)) (w : World) :
  json_loads gui_body = Some (PDict kv) →
  assoc "command" kv = Some (PStr "MOVE_TO") →
  default (PDict []) (assoc "params" kv) = PDict pkv →
  pub_open w = true →
  broker_up w = true →
  let w' := exec (UnifiedConsumer._on_gui_command tag gui_body drone) w in
  ∃ m ack_event,
    published w' = published w ++
      [mkPublished Config.EXCHANGE_COMMANDS (command_topic drone) m 2
         "application/json"; ack_event] ∧
    acks w' = acks w ++ [basic_ack tag] ∧
    ∀ tag' body' c px py,
      json_loads body' = Some m →
      assoc "x" (DroneClient.position c.1) = Some px →
      assoc "y" (DroneClient.position c.1) = Some py →
      DroneRabbitMQ._on_command tag' body' c =
        (moved_client (default px (assoc "x" pkv)) (default py (assoc "y" pkv))
           c.1,
         c.2 ++ [basic_ack tag']).
Proof.
  intros Hparse Hcmd Hparams Hopen Hup w'. subst w'.
  unfold UnifiedConsumer._on_gui_command, UnifiedConsumer.loads,
    UnifiedConsumer.ack, UnifiedConsumer.nack, RabbitMQManager.with_manager,
    RabbitMQManager.send_command, RabbitMQManager._ts,
    RabbitMQManager._publish, py_get.
  unfold_m. rewrite Hparse. simpl. rewrite Hcmd. simpl.
  rewrite Hup. simpl. rewrite publish_gui_run. simpl. rewrite Hopen. simpl.
  cbv [default from_option id] in Hparams.
  eexists _, _. split; [rewrite <- app_assoc; reflexivity |].
  split; [reflexivity |].
  intros tag' body' [st acks0] px py Hparse' Hx Hy. simpl in Hx, Hy.
  unfold DroneRabbitMQ._on_command, DroneRabbitMQ.dispatch.
  rewrite Hparse'. simpl. rewrite Hparams. simpl.
  unfold DroneClient._handle_command. simpl. rewrite Hx, Hy. reflexivity.
Qed.

(** X26: the drone client settles every command delivery exactly once, with
    an acknowledgement or with a negative one without requeue, whatever the
    body and its own state.  A delivery it rejects leaves the client as it
    was, except that a rejected START_SCAN has already switched
    [_is_scanning] on; a command it does not know is acknowledged and
    changes nothing. *)
Theorem drone_settles_each_command_once (tag : nat) (body : string)
    (c : DroneClient.State * list Ack) :
  let c' := DroneRabbitMQ._on_command tag body c in
  (c'.2 = c.2 ++ [basic_ack tag] ∨
   c'.2 = c.2 ++ [basic_nack tag false] ∧
   (c'.1 = c.1 ∨ c'.1 = DroneClient.set_is_scanning true c.1)) ∧
  (∀ ds, length (DroneRabbitMQ.deliveries ds c).2 = length c.2 + length ds) ∧
  (∀ kv command,
     json_loads body = Some (PDict kv) →
     default (PStr "") (assoc "command" kv) = command →
     Forall (λ known, py_is_str command known = false)
       ["START_SCAN"; "STOP_SCAN"; "MOVE_TO"; "RETURN_HOME"; "HOVER"; "LAND";
        "SET_ALTITUDE"; "PATROL"] →
     c' = (c.1, c.2 ++ [basic_ack tag])).
Proof.
  intros c'. subst c'. destruct c as [st acks0].
  assert (Hone : ∀ tag body st acks0,
    let c' := DroneRabbitMQ._on_command tag body (st, acks0) in
    c'.2 = acks0 ++ [basic_ack tag] ∨
    c'.2 = acks0 ++ [basic_nack tag false] ∧
    (c'.1 = st ∨ c'.1 = DroneClient.set_is_scanning true st)).
  { clear. intros tag body st acks0.
    unfold DroneRabbitMQ._on_command, DroneRabbitMQ.dispatch,
      DroneClient._handle_command, py_get. simpl.
    repeat case_match; simplify_eq; simpl; auto. }
  split; [apply Hone |]. split.
  - intros ds. generalize (st, acks0). clear st acks0.
    induction ds as [| d ds IH]; intros c; simpl; [lia |].
    change (fold_left _ ds ?x) with (DroneRabbitMQ.deliveries ds x).
    rewrite IH. destruct c as [st acks0].
    destruct (Hone d.1 d.2 st acks0) as [-> | [-> _]];
      rewrite length_app; simpl; lia.
  - intros kv command Hparse Hcommand Hnone.
    cbv [default from_option id] in Hcommand.
    repeat match goal with
           | H : Forall _ (_ :: _) |- _ =>
               apply Forall_cons in H; destruct H as [? H]
           end.
    unfold DroneRabbitMQ._on_command, DroneRabbitMQ.dispatch,
      DroneClient._handle_command, py_get. simpl.
    rewrite Hparse, Hcommand.
    repeat match goal with H : py_is_str _ _ = false |- _ =>
             rewrite H; clear H end.
    destruct (assoc "params" kv); reflexivity.
Qed.

Lemma client_invariant_init : client_invariant DroneClient.init.
Proof.
  unfold client_invariant, known_status. simpl.
  repeat split; try (eexists; reflexivity); try discriminate.
  repeat constructor.
Qed.

Lemma handle_command_invariant (command params : pyval)
    (st : DroneClient.State) :
  client_invariant st →
  client_invariant (DroneClient._handle_command command params st).2.
Proof.
  unfold client_invariant, known_status.
  intros ([px Hx] & [py Hy] & Hst & Hscan & Hsid).
  unfold DroneClient._handle_command, py_get. rewrite Hx, Hy.
  repeat case_match; simplify_eq; simpl; rewrite ?Hx, ?Hy;
    repeat split;
    try assumption; try (eexists; reflexivity); try discriminate;
    try reflexivity;
    try (repeat first [apply list_elem_of_here | apply list_elem_of_further]).
Qed.

Lemma on_command_invariant (tag : nat) (body : string)
    (c : DroneClient.State * list Ack) :
  client_invariant c.1 →
  client_invariant (DroneRabbitMQ._on_command tag body c).1.
Proof.
  intros Hinv. unfold DroneRabbitMQ._on_command.
  assert (Hd : client_invariant (DroneRabbitMQ.dispatch body c.1).2).
  { unfold DroneRabbitMQ.dispatch. repeat case_match; simpl; try exact Hinv.
    apply handle_command_invariant, Hinv. }
  destruct (DroneRabbitMQ.dispatch body c.1) as [[[] | e] st']; exact Hd.
Qed.

Lemma deliveries_invariant (ds : list (nat * string))
    (c : DroneClient.State * list Ack) :
  client_invariant c.1 → client_invariant (DroneRabbitMQ.deliveries ds c).1.
Proof.
  revert c. induction ds as [| d ds IH]; intros c Hinv; [exact Hinv |].
  simpl. apply IH, on_command_invariant, Hinv.
Qed.

(** X27: whatever deliveries a fresh client has handled, accepted or
    rejected, its position still has both coordinates, its status is one the
    backend knows, it is scanning whenever its status says so, and it holds
    a session id only while scanning.  In such a state every command message
    (an object whose [params], if any, is an object) is acknowledged: the
    client rejects only what is not one. *)
Theorem client_accepts_every_command_message (ds : list (nat * string))
    (tag : nat) (body : string) (message : pyval) :
  json_loads body = Some message →
  command_message message →
  let c := DroneRabbitMQ.deliveries ds (DroneClient.init, []) in
  client_invariant c.1 ∧
  (DroneRabbitMQ._on_command tag body c).2 = c.2 ++ [basic_ack tag].
Proof.
  intros Hparse (kv & -> & Hparams) c.
  assert (Hinv : client_invariant c.1)
    by (apply deliveries_invariant, client_invariant_init).
  split; [exact Hinv |].
  destruct Hinv as ([px Hx] & [py Hy] & _).
  unfold DroneRabbitMQ._on_command, DroneRabbitMQ.dispatch,
    DroneClient._handle_command, py_get.
  rewrite Hparse. simpl.
  destruct Hparams as [-> | (pkv & ->)]; rewrite Hx, Hy;
    repeat case_match; simplify_eq; reflexivity.
Qed.

End drone_client.

(** START_SCAN for "D-01" in the demo world, and what the drone makes of the
    forwarded message. *)
Lemma started_scan_reaches_drone_without_session_id_witness :
  ∃ m, m ∈ published (exec (UnifiedConsumer._on_gui_command 1
                              (Demo.body_command "START_SCAN") Demo.d01)
                        Demo.w0) ∧
       exchange m = Config.EXCHANGE_COMMANDS ∧
       ∀ tag' body' c,
         json_loads body' = Some (body m) →
         DroneRabbitMQ._on_command tag' body' c =
           (scanning_client PNone c.1, c.2 ++ [basic_ack tag']).
Proof.
  destruct (started_scan_reaches_drone_without_session_id 1
              (Demo.body_command "START_SCAN") Demo.d01 Demo.d01
              [("command", PStr "START_SCAN")] Demo.w0)
    as (new & m & mkv & _ & _ & Hin & Hex & _ & _ & _ & Hdrone & _);
    [reflexivity | reflexivity | reflexivity | reflexivity | reflexivity |].
  exists m. split; [exact Hin |]. split; [exact Hex | exact Hdrone].
Defined.

(** MOVE_TO (3, 4) for "D-01", relayed and handled by a fresh client. *)
Lemma gui_move_reaches_drone_witness :
  ∃ m ack_event,
    published (exec (@UnifiedConsumer._on_gui_command Demo2.ext 5
                       Demo2.body_move Demo.d01) Demo.w0) =
      [mkPublished Config.EXCHANGE_COMMANDS "drone.D-01.commands" m 2
         "application/json"; ack_event] ∧
    ∀ tag' body',
      @json_loads Demo2.ext body' = Some m →
      @DroneRabbitMQ._on_command Demo2.ext tag' body' (DroneClient.init, []) =
        (moved_client (PInt 3) (PInt 4) DroneClient.init, [basic_ack tag']).
Proof.
  destruct (@gui_move_reaches_drone Demo2.ext 5 Demo2.body_move Demo.d01
              [("command", PStr "MOVE_TO");
               ("params", PDict [("x", PInt 3); ("y", PInt 4)])]
              [("x", PInt 3); ("y", PInt 4)] Demo.w0)
    as (m & ack_event & Hpub & _ & Hdrone);
    [reflexivity | reflexivity | reflexivity | reflexivity | reflexivity |].
  exists m, ack_event. split; [exact Hpub |].
  intros tag' body' Hparse.
  exact (Hdrone tag' body' (DroneClient.init, []) (PInt 0) (PInt 0) Hparse
           eq_refl eq_refl).
Defined.

(** A fresh client that handled a list and then MOVE_TO (3, 4). *)
Lemma client_accepts_every_command_message_witness :
  (@DroneRabbitMQ._on_command Demo2.ext 7 Demo2.body_move
     (@DroneRabbitMQ.deliveries Demo2.ext [(6, Demo2.body_list)]
        (DroneClient.init, []))).2 = [basic_nack 6 false; basic_ack 7].
Proof.
  apply (@client_accepts_every_command_message Demo2.ext
           [(6, Demo2.body_list)] 7 Demo2.body_move Demo2.parsed_move).
  - reflexivity.
  - eexists. split; [reflexivity |]. right. eexists. reflexivity.
Defined.

(** * Queues and consumers *)

Lemma Queue_eqb_eq (a b : Broker.Queue) : Broker.Queue_eqb a b = true → a = b.
Proof.
  destruct a as [da [ta |]], b as [db [tb |]]; unfold Broker.Queue_eqb; simpl;
    intros H; apply andb_true_iff in H; destruct H as [Hd Ht];
    try discriminate; apply Bool.eqb_prop in Hd; subst;
    [apply Z.eqb_eq in Ht; subst |]; reflexivity.
Qed.

Lemma Queue_eqb_refl (a : Broker.Queue) : Broker.Queue_eqb a a = true.
Proof.
  destruct a as [d [t |]]; unfold Broker.Queue_eqb; simpl;
    rewrite Bool.eqb_reflx, ?Z.eqb_refl; reflexivity.
Qed.

Lemma Binding_eqb_eq (a b : Broker.Binding) :
  Broker.Binding_eqb a b = true ↔ a = b.
Proof.
  destruct a, b. unfold Broker.Binding_eqb. simpl.
  rewrite !andb_true_iff, !String.eqb_eq. split.
  - intros [[-> ->] ->]. reflexivity.
  - intros [= -> -> ->]. auto.
Qed.

Lemma existsb_Binding (bd : Broker.Binding) (l : list Broker.Binding) :
  existsb (Broker.Binding_eqb bd) l = true ↔ bd ∈ l.
Proof.
  rewrite existsb_exists. split.
  - intros (x & Hin & Heq). apply Binding_eqb_eq in Heq. subst x.
    apply list_elem_of_In, Hin.
  - intros Hin. exists bd. split; [apply list_elem_of_In, Hin |].
    apply Binding_eqb_eq. reflexivity.
Qed.

Lemma lookup_snoc (n m : string) (q : Broker.Queue)
    (qs : list (string * Broker.Queue)) :
  Broker.lookup n (qs ++ [(m, q)]) =
    match Broker.lookup n qs with
    | Some x => Some x
    | None => if String.eqb n m then Some q else None
    end.
Proof.
  induction qs as [| [k v] qs IH]; simpl; [reflexivity |].
  destruct (String.eqb n k); [reflexivity | exact IH].
Qed.

(** One successful [declare_and_bind]: the entry is in place and nothing
    that was there is lost or changed. *)
Lemma declare_and_bind_ok (e : TopicSetup.Entry) (b b1 : Broker.State) :
  TopicSetup.declare_and_bind e b = (Ok tt, b1) →
  in_place b1 e ∧
  (∀ n q, Broker.lookup n (Broker.queues b) = Some q →
          Broker.lookup n (Broker.queues b1) = Some q) ∧
  (∀ bd, bd ∈ Broker.bindings b → bd ∈ Broker.bindings b1).
Proof.
  unfold TopicSetup.declare_and_bind, Broker.queue_declare, Broker.queue_bind,
    in_place.
  destruct (Broker.lookup (TopicSetup.queue_name e) (Broker.queues b))
    as [q' |] eqn:Hq.
  - destruct (Broker.Queue_eqb q' (TopicSetup.props e)) eqn:Heq;
      [| discriminate].
    apply Queue_eqb_eq in Heq. subst q'. rewrite Hq.
    destruct (existsb _ (Broker.bindings b)) eqn:Hb; intros [= <-]; simpl.
    + apply existsb_Binding in Hb. auto.
    + repeat split; auto.
      * apply elem_of_app. right. apply list_elem_of_singleton. reflexivity.
      * intros bd Hin. apply elem_of_app. left. exact Hin.
  - simpl. rewrite lookup_snoc, Hq, String.eqb_refl.
    assert (Hkeep : ∀ n q,
      Broker.lookup n (Broker.queues b) = Some q →
      Broker.lookup n (Broker.queues b ++
                       [(TopicSetup.queue_name e, TopicSetup.props e)]) =
        Some q).
    { intros n q Hn. rewrite lookup_snoc, Hn. reflexivity. }
    destruct (existsb _ (Broker.bindings b)) eqn:Hb; intros [= <-]; simpl.
    + apply existsb_Binding in Hb. rewrite lookup_snoc, Hq, String.eqb_refl.
      auto.
    + rewrite lookup_snoc, Hq, String.eqb_refl. repeat split; auto.
      * apply elem_of_app. right. apply list_elem_of_singleton. reflexivity.
      * intros bd Hin. apply elem_of_app. left. exact Hin.
Qed.

Lemma in_place_kept (b b1 : Broker.State) (e : TopicSetup.Entry) :
  (∀ n q, Broker.lookup n (Broker.queues b) = Some q →
          Broker.lookup n (Broker.queues b1) = Some q) →
  (∀ bd, bd ∈ Broker.bindings b → bd ∈ Broker.bindings b1) →
  in_place b e → in_place b1 e.
Proof. unfold in_place. intros Hq Hb [H1 H2]. auto. Qed.

Lemma declare_all_ok (l : list TopicSetup.Entry) (b b1 : Broker.State) :
  TopicSetup.declare_all l b = (Ok tt, b1) →
  Forall (in_place b1) l ∧
  (∀ n q, Broker.lookup n (Broker.queues b) = Some q →
          Broker.lookup n (Broker.queues b1) = Some q) ∧
  (∀ bd, bd ∈ Broker.bindings b → bd ∈ Broker.bindings b1).
Proof.
  revert b. induction l as [| e l IH]; intros b; simpl.
  - intros [= <-]. auto.
  - destruct (TopicSetup.declare_and_bind e b) as [[[] | x] b0] eqn:He;
      [| discriminate].
    intros Hrest. destruct (declare_and_bind_ok _ _ _ He) as (Hin & Hq & Hb).
    destruct (IH _ Hrest) as (Hall & Hq' & Hb').
    split; [| split; auto].
    constructor; [| exact Hall].
    exact (in_place_kept _ _ _ Hq' Hb' Hin).
Qed.

Lemma declare_and_bind_again (e : TopicSetup.Entry) (b : Broker.State) :
  in_place b e → TopicSetup.declare_and_bind e b = (Ok tt, b).
Proof.
  unfold in_place, TopicSetup.declare_and_bind, Broker.queue_declare,
    Broker.queue_bind.
  intros [Hq Hb]. rewrite Hq, Queue_eqb_refl, Hq.
  apply existsb_Binding in Hb. unfold TopicSetup.binding in Hb.
  rewrite Hb. reflexivity.
Qed.

Lemma declare_all_again (l : list TopicSetup.Entry) (b : Broker.State) :
  Forall (in_place b) l → TopicSetup.declare_all l b = (Ok tt, b).
Proof.
  induction 1 as [| e l He _ IH]; simpl; [reflexivity |].
  rewrite (declare_and_bind_again e b He). exact IH.
Qed.

(** After a successful [setup_drone_topics] every entry is in place. *)
Lemma setup_drone_topics_ok (drone : Drone) (b b' : Broker.State) :
  TopicSetup.setup_drone_topics drone b = (Ok tt, b') →
  Forall (in_place b') (drone_entries drone).
Proof.
  unfold TopicSetup.setup_drone_topics, drone_entries.
  destruct (TopicSetup.declare_all (TopicSetup.drone_queues drone) b)
    as [[[] | x] b1] eqn:H1; [| discriminate].
  destruct (TopicSetup.declare_all (TopicSetup.gui_queues drone) b1)
    as [[[] | x] b2] eqn:H2; [| discriminate].
  intros H3.
  destruct (declare_all_ok _ _ _ H1) as (A1 & _).
  destruct (declare_all_ok _ _ _ H2) as (A2 & Q2 & B2).
  destruct (declare_and_bind_ok _ _ _ H3) as (A3 & Q3 & B3).
  apply Forall_app. split; [| apply Forall_app; split].
  - eapply Forall_impl; [exact A1 |]. intros e He.
    apply (in_place_kept b2 b' e Q3 B3), (in_place_kept b1 b2 e Q2 B2), He.
  - eapply Forall_impl; [exact A2 |]. intros e He.
    exact (in_place_kept b2 b' e Q3 B3 He).
  - constructor; [exact A3 | constructor].
Qed.

Lemma bind_drone_run (drone : Drone) (b : Broker.State)
    (channel : list ConsumerSetup.Consumer) :
  Forall (in_place b) (drone_entries drone) →
  ConsumerSetup._bind_drone drone b channel = channel ++ drone_consumers drone.
Proof.
  intros Hall. unfold drone_entries in Hall.
  apply Forall_app in Hall. destruct Hall as [Hd Hg].
  apply Forall_app in Hg. destruct Hg as [_ Hc].
  unfold TopicSetup.drone_queues in Hd.
  repeat match goal with
         | H : Forall _ (_ :: _) |- _ =>
             apply Forall_cons in H; destruct H as [[? _] H]
         end.
  unfold ConsumerSetup._bind_drone, ConsumerSetup._consume_queue,
    drone_consumers.
  simpl in *.
  repeat match goal with
         | H : Broker.lookup _ _ = Some _ |- _ => rewrite H; clear H
         end.
  rewrite <- !app_assoc. reflexivity.
Qed.

(** X28: once [setup_drone_topics] has succeeded for a drone, all that it
    declares is in place (the two video queues transient with a 5 s message
    lifetime, the others durable, each bound with its key); [_bind_drone]
    then adds exactly four consumers to the channel and keeps those it had:
    telemetry, video, alerts and GUI commands; and setting up the same drone
    again, as every re-registration does, changes nothing. *)
Theorem bind_after_setup (drone : Drone) (b b' : Broker.State)
    (channel : list ConsumerSetup.Consumer) :
  TopicSetup.setup_drone_topics drone b = (Ok tt, b') →
  Forall (in_place b') (drone_entries drone) ∧
  ConsumerSetup._bind_drone drone b' channel =
    channel ++ drone_consumers drone ∧
  TopicSetup.setup_drone_topics drone b' = (Ok tt, b') ∧
  TopicSetup._setup_rabbitmq true drone b' = b'.
Proof.
  intros Hsetup. pose proof (setup_drone_topics_ok _ _ _ Hsetup) as Hall.
  split; [exact Hall |].
  split; [exact (bind_drone_run drone b' channel Hall) |].
  assert (Hagain : TopicSetup.setup_drone_topics drone b' = (Ok tt, b')).
  { unfold drone_entries in Hall.
    apply Forall_app in Hall. destruct Hall as [Hd Hg].
    apply Forall_app in Hg. destruct Hg as [Hg Hc].
    apply Forall_cons in Hc. destruct Hc as [Hc _].
    unfold TopicSetup.setup_drone_topics.
    rewrite (declare_all_again _ _ Hd), (declare_all_again _ _ Hg).
    exact (declare_and_bind_again _ _ Hc). }
  split; [exact Hagain |].
  unfold TopicSetup._setup_rabbitmq. rewrite Hagain. reflexivity.
Qed.

(** "D-01" on a broker without queues. *)
Lemma bind_after_setup_witness :
  ConsumerSetup._bind_drone Demo.d01
    (TopicSetup._setup_rabbitmq true Demo.d01 Broker.empty) [] =
    drone_consumers Demo.d01.
Proof.
  destruct (bind_after_setup Demo.d01 Broker.empty
              (TopicSetup._setup_rabbitmq true Demo.d01 Broker.empty) [])
    as (_ & Hbind & _); [reflexivity |].
  exact Hbind.
Defined.

Lemma setup_consumers (ds : list Drone) (b : Broker.State)
    (channel : list ConsumerSetup.Consumer) (c : ConsumerSetup.Consumer) :
  c ∈ ConsumerSetup.setup ds b channel →
  c ∈ channel ∨ ConsumerSetup.c_drone c ∈ ds.
Proof.
  revert channel. induction ds as [| d ds IH]; intros channel; simpl;
    [auto |].
  intros Hc. apply IH in Hc. destruct Hc as [Hc | Hc];
    [| right; apply list_elem_of_further, Hc].
  unfold ConsumerSetup._bind_drone, ConsumerSetup._consume_queue in Hc.
  repeat match type of Hc with
         | context [match ?x with _ => _ end] => destruct x
         end;
    repeat (apply elem_of_app in Hc; destruct Hc as [Hc | Hc]);
    try (apply list_elem_of_singleton in Hc; subst c; simpl; right; left);
    try (left; exact Hc);
    try (apply elem_of_nil in Hc; contradiction).
Qed.

(** X29: a drone whose GUI command queue does not exist (its registration
    could not reach the broker) costs the consumer every handler it had
    bound so far: after [setup], all consumers on the live channel belong to
    drones that came later in the query, and when it was the last drone the
    channel has no consumer at all. *)
Theorem unprepared_drone_unbinds_earlier_ones (before after : list Drone)
    (d : Drone) (b : Broker.State) (channel : list ConsumerSetup.Consumer) :
  Broker.lookup ("gui." +:+ uuid_str (gui_token d) +:+ ".commands")
    (Broker.queues b) = None →
  (∀ c, c ∈ ConsumerSetup.setup (before ++ d :: after) b channel →
        ConsumerSetup.c_drone c ∈ after) ∧
  ConsumerSetup.setup (before ++ [d]) b channel = [].
Proof.
  intros Hmissing.
  assert (Hd : ∀ ch, ConsumerSetup._bind_drone d b ch = []).
  { intros ch. unfold ConsumerSetup._bind_drone.
    unfold ConsumerSetup._consume_queue at 1. rewrite Hmissing. reflexivity. }
  split.
  - intros c Hc. unfold ConsumerSetup.setup in Hc.
    rewrite fold_left_app in Hc. simpl in Hc. rewrite Hd in Hc.
    apply setup_consumers in Hc. destruct Hc as [Hc | Hc]; [| exact Hc].
    apply elem_of_nil in Hc. contradiction.
  - unfold ConsumerSetup.setup. rewrite fold_left_app. simpl. apply Hd.
Qed.

(** "D-01" was set up; a second drone, registered while the broker was
    down, was not. *)
Lemma unprepared_drone_unbinds_earlier_ones_witness :
  let ghost := mkDrone 2 "D-02" "Kartal-2" "X4" 101 "drone.D-02.telemetry"
                 "drone.D-02.commands" "drone.D-02.video" "drone.D-02.alerts"
                 DroneStatus.OFFLINE None true 2 3 in
  let b := TopicSetup._setup_rabbitmq false ghost
             (TopicSetup._setup_rabbitmq true Demo.d01 Broker.empty) in
  ConsumerSetup.setup [Demo.d01] b [] = drone_consumers Demo.d01 ∧
  ConsumerSetup.setup ([Demo.d01] ++ [ghost]) b [] = [].
Proof.
  intros ghost b. split; [reflexivity |].
  apply (unprepared_drone_unbinds_earlier_ones [Demo.d01] [] ghost b []).
  reflexivity.
Defined.

(** ** From the drone to the handlers and back *)

Lemma topic_match_hash (ps : list string) (w : string) (k : list string) :
  Broker.topic_match ps k = true →
  Broker.topic_match ("#" :: ps) (w :: k) = true.
Proof.
  intros H. cbn [Broker.topic_match]. simpl String.eqb. cbv iota.
  apply orb_true_iff. right. destruct k; rewrite H; reflexivity.
Qed.

Lemma topic_match_self (l : list string) : Broker.topic_match l l = true.
Proof.
  induction l as [| w l IH]; [reflexivity |].
  destruct (String.eqb w "#") eqn:E.
  - apply String.eqb_eq in E. subst w. apply topic_match_hash, IH.
  - cbn [Broker.topic_match]. rewrite E, String.eqb_refl, orb_true_r, IH.
    reflexivity.
Qed.

(** A queue bound with a key receives what is published with that key. *)
Lemma in_place_routes (b : Broker.State) (e : TopicSetup.Entry) :
  in_place b e →
  TopicSetup.queue_name e ∈
    Broker.route b (TopicSetup.e_exchange e) (TopicSetup.e_routing_key e).
Proof.
  intros [_ Hb]. unfold Broker.route.
  apply list_elem_of_fmap. exists (TopicSetup.binding e).
  split; [reflexivity |].
  apply list_elem_of_filter. split; [| exact Hb].
  split; [reflexivity | apply topic_match_self].
Qed.

Lemma length_app_string (a b : string) :
  String.length (a +:+ b) = String.length a + String.length b.
Proof. induction a as [| c a IH]; simpl; [reflexivity | rewrite IH; reflexivity]. Qed.

Lemma length_replace_dots (s : string) :
  String.length (DroneRabbitMQ.replace_dots s) = String.length s.
Proof. induction s as [| c s IH]; simpl; [reflexivity | rewrite IH; reflexivity]. Qed.

(** The drone's own command queue is never the one the backend declares. *)
Lemma command_queue_differs (did : string) :
  DroneRabbitMQ.command_queue (topic_name did "commands") ≠ "commands." +:+ did.
Proof.
  unfold DroneRabbitMQ.command_queue, topic_name. intros H.
  apply (append_inv_head "commands.") in H.
  apply (f_equal String.length) in H.
  rewrite length_replace_dots, !length_app_string in H. simpl in H. lia.
Qed.

(** [start_command_listener] declares and binds like one entry of the
    backend's setup. *)
Lemma listener_run (l : DroneRabbitMQ.Link) (b b2 : Broker.State)
    (q cmd_topic : string) :
  DroneRabbitMQ.topic "commands" l = Some cmd_topic →
  DroneRabbitMQ.start_command_listener l b = (b2, Some q) →
  q = DroneRabbitMQ.command_queue cmd_topic ∧
  TopicSetup.declare_and_bind
    (TopicSetup.mkEntry q "drone.commands" cmd_topic true None) b = (Ok tt, b2).
Proof.
  intros Htopic. unfold DroneRabbitMQ.start_command_listener.
  rewrite Htopic. unfold TopicSetup.declare_and_bind, TopicSetup.props. simpl.
  destruct (Broker.queue_declare _ _ b) as [[[] | x] b1] eqn:Hdecl;
    [| discriminate].
  destruct (Broker.queue_bind _ _ _ b1) as [[[] | x] b3] eqn:Hbind;
    [| discriminate].
  intros [= <- <-]. split; [reflexivity |]. rewrite Hdecl. exact Hbind.
Qed.

(** X30: a registered drone is wired end to end.  With its topics set up on
    the broker, the consumer bound, and the client holding the topics the
    registration answered with: the telemetry, the video frame and the alert
    the client sends are each published once (the frame transient, the other
    two persistent) and routed to a queue on which the router consumes with
    the matching handler for this drone; a GUI command for the drone reaches
    [_on_gui_command]; every message the router publishes for the GUI with
    one of the five types reaches the drone's GUI queue of that type; and
    what the router sends on the command topic reaches the queue the client
    listens on, and also the backend's own [commands.<id>] queue, which is
    a different queue and has no consumer. *)
Theorem registered_drone_is_wired (drone : Drone) (b b' : Broker.State)
    (channel0 : list ConsumerSetup.Consumer) (l : DroneRabbitMQ.Link) :
  TopicSetup.setup_drone_topics drone b = (Ok tt, b') →
  Drone_topics drone = derived_topics (drone_id drone) →
  DroneRabbitMQ.topics l = Drone_topics drone →
  DroneRabbitMQ.is_connected l = true →
  let channel := ConsumerSetup._bind_drone drone b' channel0 in
  (∀ kv t, ∃ m l',
     DroneRabbitMQ.send_telemetry (PDict kv) t DroneRabbitMQ.Sent l
       = (Ok true, l') ∧
     DroneRabbitMQ.sent l' = DroneRabbitMQ.sent l ++ [m] ∧
     delivery_mode m = 2%Z ∧
     py_get (body m) "data" PNone = Ok (PDict kv) ∧
     consumed_by b' channel (exchange m) (routing_key m)
       ConsumerSetup._on_telemetry drone) ∧
  (∀ did frame n t, ∃ m l',
     DroneRabbitMQ.send_video_frame did frame n t DroneRabbitMQ.Sent l
       = (true, l') ∧
     DroneRabbitMQ.sent l' = DroneRabbitMQ.sent l ++ [m] ∧
     delivery_mode m = 1%Z ∧
     py_get (body m) "data" PNone = Ok (PStr frame) ∧
     consumed_by b' channel (exchange m) (routing_key m)
       ConsumerSetup._on_video drone) ∧
  (∀ did text data t, ∃ m l',
     DroneRabbitMQ.send_alert did text data t DroneRabbitMQ.Sent l
       = (true, l') ∧
     DroneRabbitMQ.sent l' = DroneRabbitMQ.sent l ++ [m] ∧
     delivery_mode m = 2%Z ∧
     py_get (body m) "message" PNone = Ok (PStr text) ∧
     consumed_by b' channel (exchange m) (routing_key m)
       ConsumerSetup._on_alert drone) ∧
  consumed_by b' channel Config.EXCHANGE_GUI
    ("gui." +:+ drone_id drone +:+ ".commands")
    ConsumerSetup._on_gui_command drone ∧
  (∀ mt payload,
     mt ∈ ["telemetry"; "video"; "detection"; "alerts"; "status"] →
     "gui." +:+ uuid_str (gui_token drone) +:+ "." +:+ mt ∈
       Broker.route b' (exchange (gui_message (drone_id drone) mt payload))
         (routing_key (gui_message (drone_id drone) mt payload))) ∧
  (∀ b2 q,
     DroneRabbitMQ.start_command_listener l b' = (b2, Some q) →
     q = DroneRabbitMQ.command_queue (command_topic drone) ∧
     q ∈ Broker.route b2 Config.EXCHANGE_COMMANDS (command_topic drone) ∧
     "commands." +:+ drone_id drone ∈
       Broker.route b2 Config.EXCHANGE_COMMANDS (command_topic drone) ∧
     q ≠ "commands." +:+ drone_id drone ∧
     ∀ c, c ∈ drone_consumers drone →
          ConsumerSetup.c_queue c ≠ "commands." +:+ drone_id drone).
Proof.
  intros Hsetup Hderived Htopics Hconn channel. subst channel.
  pose proof (setup_drone_topics_ok _ _ _ Hsetup) as Hall.
  rewrite (bind_drone_run drone b' channel0 Hall).
  injection Hderived as Htel Hcmd Hvid Halert.
  assert (Hentry : ∀ e, e ∈ drone_entries drone → in_place b' e)
    by (apply Forall_forall, Hall).
  assert (Hconsumed : ∀ e cb,
    e ∈ drone_entries drone →
    ConsumerSetup.mkConsumer (TopicSetup.queue_name e) cb drone
      ∈ drone_consumers drone →
    consumed_by b' (channel0 ++ drone_consumers drone)
      (TopicSetup.e_exchange e) (TopicSetup.e_routing_key e) cb drone).
  { intros e cb He Hc. exists (TopicSetup.queue_name e).
    split; [apply in_place_routes, Hentry, He |].
    apply elem_of_app. right. exact Hc. }
  assert (Hin : ∀ n e, drone_entries drone !! n = Some e →
                       e ∈ drone_entries drone)
    by (intros n e; apply list_elem_of_lookup_2).
  assert (Htopic : ∀ kind t,
    (kind, t) ∈ derived_topics (drone_id drone) →
    DroneRabbitMQ.topic kind l = Some t).
  { intros kind t Hk. unfold DroneRabbitMQ.topic.
    rewrite Htopics. unfold Drone_topics. rewrite Htel, Hcmd, Hvid, Halert.
    unfold derived_topics in Hk.
    repeat (apply elem_of_cons in Hk; destruct Hk as [[= -> ->] | Hk];
            [reflexivity |]).
    apply elem_of_nil in Hk. contradiction. }
  split; [| split; [| split; [| split; [| split]]]].
  - intros kv t.
    unfold DroneRabbitMQ.send_telemetry, DroneRabbitMQ._publish.
    rewrite (Htopic "telemetry" (topic_name (drone_id drone) "telemetry"))
      by (unfold derived_topics; set_solver).
    simpl. rewrite Hconn. eexists _, _. split; [reflexivity |].
    split; [reflexivity |]. split; [reflexivity |]. split; [reflexivity |].
    simpl. rewrite <- Htel.
    apply (Hconsumed _ ConsumerSetup._on_telemetry (Hin 0 _ eq_refl)).
    unfold drone_consumers. set_solver.
  - intros did frame n t.
    unfold DroneRabbitMQ.send_video_frame, DroneRabbitMQ._publish.
    rewrite (Htopic "video" (topic_name (drone_id drone) "video"))
      by (unfold derived_topics; set_solver).
    simpl. rewrite Hconn. eexists _, _. split; [reflexivity |].
    split; [reflexivity |]. split; [reflexivity |]. split; [reflexivity |].
    simpl. rewrite <- Hvid.
    apply (Hconsumed _ ConsumerSetup._on_video (Hin 2 _ eq_refl)).
    unfold drone_consumers. set_solver.
  - intros did text data t.
    unfold DroneRabbitMQ.send_alert, DroneRabbitMQ._publish.
    rewrite (Htopic "alerts" (topic_name (drone_id drone) "alerts"))
      by (unfold derived_topics; set_solver).
    simpl. rewrite Hconn. eexists _, _. split; [reflexivity |].
    split; [reflexivity |]. split; [reflexivity |]. split; [reflexivity |].
    simpl. rewrite <- Halert.
    apply (Hconsumed _ ConsumerSetup._on_alert (Hin 3 _ eq_refl)).
    unfold drone_consumers. set_solver.
  - apply (Hconsumed _ ConsumerSetup._on_gui_command (Hin 9 _ eq_refl)).
    unfold drone_consumers. set_solver.
  - intros mt payload Hmt.
    repeat (apply elem_of_cons in Hmt; destruct Hmt as [-> | Hmt];
            [first [exact (in_place_routes b' _ (Hentry _ (Hin 4 _ eq_refl)))
                   | exact (in_place_routes b' _ (Hentry _ (Hin 5 _ eq_refl)))
                   | exact (in_place_routes b' _ (Hentry _ (Hin 6 _ eq_refl)))
                   | exact (in_place_routes b' _ (Hentry _ (Hin 7 _ eq_refl)))
                   | exact (in_place_routes b' _ (Hentry _ (Hin 8 _ eq_refl)))]
            |]).
    apply elem_of_nil in Hmt. contradiction.
  - intros b2 q Hlisten.
    destruct (listener_run l b' b2 q (command_topic drone)) as [Hq Hrun];
      [rewrite Hcmd; apply Htopic; unfold derived_topics; set_solver
      | exact Hlisten |].
    destruct (declare_and_bind_ok _ _ _ Hrun) as (Hown & Hqs & Hbs).
    split; [exact Hq |].
    split; [exact (in_place_routes b2 _ Hown) |].
    split.
    { apply (in_place_routes b2
               (TopicSetup.mkEntry ("commands." +:+ drone_id drone)
                  Config.EXCHANGE_COMMANDS (command_topic drone) true None)).
      apply (in_place_kept b' b2 _ Hqs Hbs).
      exact (Hentry _ (Hin 1 _ eq_refl)). }
    split.
    { rewrite Hq, Hcmd. apply command_queue_differs. }
    intros c Hc. unfold drone_consumers in Hc.
    repeat (apply elem_of_cons in Hc; destruct Hc as [-> | Hc];
            [simpl; intros Heq; discriminate Heq |]).
    apply elem_of_nil in Hc. contradiction.
Qed.

(** "D-01", set up on a broker without queues, and a connected client. *)
Lemma registered_drone_is_wired_witness :
  let b' := TopicSetup._setup_rabbitmq true Demo.d01 Broker.empty in
  let l := DroneRabbitMQ.mkLink (Drone_topics Demo.d01) true [] in
  consumed_by b' (ConsumerSetup._bind_drone Demo.d01 b' [])
    Config.EXCHANGE_GUI "gui.D-01.commands"
    ConsumerSetup._on_gui_command Demo.d01.
Proof.
  intros b' l.
  destruct (registered_drone_is_wired Demo.d01 Broker.empty b' [] l)
    as (_ & _ & _ & Hgui & _);
    [reflexivity | reflexivity | reflexivity | reflexivity |].
  exact Hgui.
Defined.
